(** * Zenyx-VIPs: the conversational session state machine, the validators
    and the balance ledger

    A shallow embedding of the Python sources

      - [utils/helpers.py]            (the validators, code generation, the
                                       formatting and expiry helpers),
      - [models/user.py]              ([User.save], [activate_vip],
                                       [add_balance], [remove_balance]),
      - [handlers/menu_handler.py]    (menu navigation),
      - [handlers/bot_handler.py]     (bot creation, plan flow, validation codes),
      - [handlers/channel_handler.py] (validation-code redemption),
      - [handlers/payment_handler.py] (payment creation and verification),
      - [main.py]                     (the routing of button presses),

    followed by the properties of the specification they are checked
    against, and by further properties of the same modules.

    Conventions.  A Python [str] received from a chat is a list of Unicode
    code points.  Python [float] is IEEE binary64, taken from the Standard
    Library's [SpecFloat] (precision 53, [emax] 1024).  A [dict] is a finite
    map.  A handler is a computation in a state-and-exception monad over the
    session ([user_data], [bot_data], the messages sent so far). *)

From Stdlib Require Import ZArith NArith Bool List Ascii String.
From Stdlib Require Import Floats.SpecFloat Numbers.DecimalString.
From stdpp Require Import base option gmap strings list.

Open Scope Z_scope.

(* ===================================================================== *)
(** * Part I.  The Python runtime the sources rely on                     *)
(* ===================================================================== *)

(** ** Text *)

(** Chat text, callback data and generated codes: sequences of code points. *)
Abbreviation str := (list N) (only parsing).

(** An ASCII literal of the source, as a [str]. *)
Definition lit (s : string) : list N :=
  (fun a => N_of_ascii a) <$> list_ascii_of_string s.

Arguments lit : simpl never.

(** The interpreter's Unicode database outside ASCII: the decimal digit value
    of a code point (category Nd), and whether it is white space.  The sources
    reach it through [\d] in [re], [float()] and [int()]; its contents depend
    on the interpreter's Unicode version, so every result below holds for any
    database. *)
Class UnicodeDB := {
  uni_todecimal : N -> option N;
  uni_isspace : N -> bool
}.

(** The database with no digit and no space outside ASCII. *)
Definition ascii_only_db : UnicodeDB :=
  {| uni_todecimal := fun _ => None; uni_isspace := fun _ => false |}.

(** A database that knows the Arabic-Indic digits U+0660..U+0669 and the
    no-break space U+00A0. *)
Definition arabic_indic_db : UnicodeDB :=
  {| uni_todecimal := fun c =>
       if ((1632 <=? c) && (c <=? 1641))%N then Some (c - 1632)%N else None;
     uni_isspace := fun c => (c =? 160)%N |}.

Definition is_ascii_digit (c : N) : bool := ((48 <=? c) && (c <=? 57))%N.
Definition is_ascii_upper (c : N) : bool := ((65 <=? c) && (c <=? 90))%N.
Definition is_ascii_lower (c : N) : bool := ((97 <=? c) && (c <=? 122))%N.

(** [Py_UNICODE_TODECIMAL]. *)
Definition Py_UNICODE_TODECIMAL `{UnicodeDB} (c : N) : option N :=
  if (c <? 128)%N
  then (if is_ascii_digit c then Some (c - 48)%N else None)
  else uni_todecimal c.

(** [Py_UNICODE_ISDECIMAL]: what [\d] matches in a [str] pattern. *)
Definition Py_UNICODE_ISDECIMAL `{UnicodeDB} (c : N) : bool :=
  match Py_UNICODE_TODECIMAL c with Some _ => true | None => false end.

(** [Py_ISSPACE]: the ASCII white space the number parsers strip. *)
Definition Py_ISSPACE (c : N) : bool :=
  (((9 <=? c) && (c <=? 13)) || (c =? 32))%N.

(** [s.replace(old, new)] for one-character [old] and [new]. *)
Definition str_replace (old new : N) (s : str) : str :=
  (fun c => if (c =? old)%N then new else c) <$> s.

(** [s.startswith(p)]. *)
Fixpoint str_startswith (p s : str) : bool :=
  match p, s with
  | [], _ => true
  | a :: p', b :: s' => (a =? b)%N && str_startswith p' s'
  | _ :: _, [] => false
  end.

(** [s.split(sep)] for a one-character separator: never empty. *)
Fixpoint str_split (sep : N) (s : str) : list (list N) :=
  match s with
  | [] => [[]]
  | c :: s' =>
      if (c =? sep)%N then [] :: str_split sep s'
      else match str_split sep s' with
           | w :: ws => (c :: w) :: ws
           | [] => [[c]]
           end
  end.

(** [str(n)] for an [int]. *)
Definition str_of_int (n : Z) : str := lit (NilZero.string_of_int (Z.to_int n)).

(** ** Attribute lookup on a [dict] *)

(** The attributes of a [dict] instance ([dir({})]): its methods.  The keys
    stored in the mapping are not among them. *)
Definition dict_attributes : list string :=
  [ "__class__"; "__class_getitem__"; "__contains__"; "__delattr__";
    "__delitem__"; "__dir__"; "__doc__"; "__eq__"; "__format__"; "__ge__";
    "__getattribute__"; "__getitem__"; "__getstate__"; "__gt__"; "__hash__";
    "__init__"; "__init_subclass__"; "__ior__"; "__iter__"; "__le__";
    "__len__"; "__lt__"; "__ne__"; "__new__"; "__or__"; "__reduce__";
    "__reduce_ex__"; "__repr__"; "__reversed__"; "__ror__"; "__setattr__";
    "__setitem__"; "__sizeof__"; "__str__"; "__subclasshook__";
    "clear"; "copy"; "fromkeys"; "get"; "items"; "keys"; "pop"; "popitem";
    "setdefault"; "update"; "values" ]%string.

(** [hasattr(d, name)] for a [dict] [d]: independent of the contents of [d]. *)
Definition hasattr_dict (name : string) : bool :=
  existsb (String.eqb name) dict_attributes.

(** ** Floating point *)

Module F64.
Definition prec : Z := 53.
Definition emax : Z := 1024.

Definition add : spec_float -> spec_float -> spec_float := SFadd prec emax.
Definition sub : spec_float -> spec_float -> spec_float := SFsub prec emax.
Definition opp : spec_float -> spec_float := SFopp.

(** Python's [x < y], [x <= y], [x > y] on floats: false on NaN. *)
Definition ltb : spec_float -> spec_float -> bool := SFltb.
Definition leb : spec_float -> spec_float -> bool := SFleb.
Definition gtb (x y : spec_float) : bool :=
  match SFcompare x y with Some Gt => true | _ => false end.

Definition zero : spec_float := S754_zero false.

(** An [int] converted to the nearest float. *)
Definition of_Z (n : Z) : spec_float := binary_normalize prec emax n 0 false.

(** The float nearest to [(-1)^neg * m * 10^e10], ties to even; overflow
    gives an infinity. *)
Definition of_decimal (neg : bool) (m : Z) (e10 : Z) : spec_float :=
  match m with
  | Zpos p =>
      if 0 <=? e10 then
        match Zpos p * 10 ^ e10 with
        | Zpos q => binary_round prec emax neg q 0
        | _ => S754_zero neg
        end
      else
        let '(q, e, l) :=
          SFdiv_core_binary prec emax (Zpos p) 0 (10 ^ (- e10)) 0 in
        binary_round_aux prec emax neg q e l
  | _ => S754_zero neg
  end.

(** [int(x)]: truncation toward zero; [None] on an infinity or a NaN
    (Python raises [OverflowError], [ValueError]). *)
Definition to_Z (x : spec_float) : option Z :=
  match x with
  | S754_zero _ => Some 0
  | S754_finite s m e =>
      let a := if 0 <=? e then Zpos m * 2 ^ e else Zpos m / 2 ^ (- e) in
      Some (if s then - a else a)
  | _ => None
  end.

(** [x == n] for a float [x] and an [int] [n]: Python compares the two
    values exactly, without rounding [n] to a float. *)
Definition eq_Z (x : spec_float) (n : Z) : bool :=
  match x with
  | S754_zero _ => n =? 0
  | S754_finite s m e =>
      let v := if s then Zneg m else Zpos m in
      if 0 <=? e then v * 2 ^ e =? n else v =? n * 2 ^ (- e)
  | _ => false
  end.
End F64.

(** ** [float()] and [int()] on a [str] *)

(** [Py_UNICODE_ISSPACE]. *)
Definition Py_UNICODE_ISSPACE `{UnicodeDB} (c : N) : bool :=
  if (c <? 128)%N
  then (((9 <=? c) && (c <=? 13)) || ((28 <=? c) && (c <=? 32)))%N
  else uni_isspace c.

(** [_PyUnicode_TransformDecimalAndSpaceToASCII]: an ASCII string is returned
    as it is; otherwise spaces become [' '], decimal digits their ASCII digit,
    and the first other non-ASCII character ends the result with ['?']. *)
Fixpoint transform_chars `{UnicodeDB} (s : str) : str :=
  match s with
  | [] => []
  | c :: s' =>
      if (c <? 127)%N then c :: transform_chars s'
      else if Py_UNICODE_ISSPACE c then 32%N :: transform_chars s'
      else match Py_UNICODE_TODECIMAL c with
           | Some d => (48 + d)%N :: transform_chars s'
           | None => [63%N]
           end
  end.

Definition TransformDecimalAndSpaceToASCII `{UnicodeDB} (s : str) : str :=
  if forallb (fun c => (c <? 128)%N) s then s else transform_chars s.

Fixpoint lstrip (s : str) : str :=
  match s with
  | c :: s' => if Py_ISSPACE c then lstrip s' else s
  | [] => []
  end.

Definition strip (s : str) : str := rev (lstrip (rev (lstrip s))).

(** An optional sign: [true] for ['-']. *)
Definition parse_sign (s : str) : bool * list N :=
  match s with
  | 45%N :: r => (true, r)
  | 43%N :: r => (false, r)
  | _ => (false, s)
  end.

(** The longest prefix of ASCII digits (as digit values) and the rest. *)
Fixpoint span_digits (s : str) : list N * list N :=
  match s with
  | c :: s' =>
      if is_ascii_digit c
      then let '(ds, r) := span_digits s' in ((c - 48)%N :: ds, r)
      else ([], s)
  | [] => ([], [])
  end.

Definition digits_value (ds : list N) : Z :=
  fold_left (fun acc d => 10 * acc + Z.of_N d) ds 0.

Definition lower (s : str) : str :=
  (fun c => if is_ascii_upper c then (c + 32)%N else c) <$> s.

(** [_Py_parse_inf_or_nan], on the whole string. *)
Definition parse_inf_or_nan (s : str) : option spec_float :=
  let '(neg, r) := parse_sign s in
  let w := lower r in
  if bool_decide (w = lit "inf") || bool_decide (w = lit "infinity")
  then Some (S754_infinity neg)
  else if bool_decide (w = lit "nan") then Some S754_nan
  else None.

(** [float_from_string_inner]: [PyOS_string_to_double] must consume the whole
    string.  A number is [[sign] digits [. digits] [(e|E) [sign] digits]] with
    a digit before or after the point; an exponent marker without digits is
    left unread, which is an error here. *)
Definition float_from_string_inner (s : str) : option spec_float :=
  let '(neg, s1) := parse_sign s in
  let '(ip, s2) := span_digits s1 in
  let '(fp, s3) :=
    match s2 with
    | 46%N :: r => span_digits r
    | _ => ([], s2)
    end in
  match ip ++ fp with
  | [] => parse_inf_or_nan s
  | ds =>
      let m := digits_value ds in
      let k := Z.of_nat (length fp) in
      match s3 with
      | [] => Some (F64.of_decimal neg m (- k))
      | c :: r =>
          if ((c =? 101) || (c =? 69))%N then
            let '(eneg, r1) := parse_sign r in
            let '(ed, r2) := span_digits r1 in
            match ed, r2 with
            | _ :: _, [] =>
                let x := digits_value ed in
                Some (F64.of_decimal neg m ((if eneg then - x else x) - k))
            | _, _ => None
            end
          else None
      end
  end.

(** [_Py_string_to_number_with_underscores]: an underscore is allowed only
    between two digits, and is dropped. *)
Fixpoint check_underscores (prev : N) (s : str) : option (list N) :=
  match s with
  | [] => if (prev =? 95)%N then None else Some []
  | c :: s' =>
      if (c =? 95)%N then
        if is_ascii_digit prev then check_underscores c s' else None
      else if (prev =? 95)%N && negb (is_ascii_digit c) then None
      else cons c <$> check_underscores c s'
  end.

Definition drop_underscores (s : str) : option (list N) :=
  if existsb (fun c => (c =? 95)%N) s then check_underscores 0%N s else Some s.

(** [float(s)]: [None] stands for [ValueError]. *)
Definition py_float `{UnicodeDB} (s : str) : option spec_float :=
  match drop_underscores (strip (TransformDecimalAndSpaceToASCII s)) with
  | Some u => float_from_string_inner u
  | None => None
  end.

(** The digits of [int(s)]: single underscores between digits only. *)
Fixpoint scan_int_digits (after_underscore : bool) (s : str) : option (list N) :=
  match s with
  | [] => if after_underscore then None else Some []
  | c :: s' =>
      if (c =? 95)%N then
        if after_underscore then None else scan_int_digits true s'
      else if is_ascii_digit c then cons (c - 48)%N <$> scan_int_digits false s'
      else None
  end.

(** [int(s)] in base 10: [None] stands for [ValueError]. *)
Definition py_int `{UnicodeDB} (s : str) : option Z :=
  let '(neg, r) := parse_sign (strip (TransformDecimalAndSpaceToASCII s)) in
  match r with
  | c :: _ =>
      if is_ascii_digit c then
        match scan_int_digits false r with
        | Some ds => Some (if neg then - digits_value ds else digits_value ds)
        | None => None
        end
      else None
  | [] => None
  end.

(** ** The fragment of [re] the sources use *)

Inductive regex :=
| Eps                          (* the empty pattern *)
| Bol                          (* ^ *)
| Eol                          (* $ *)
| Chr (c : N)                  (* a literal character *)
| Cls (p : N -> bool)          (* a character class *)
| Cat (r1 r2 : regex)
| Plus (r : regex)             (* r+, greedy *)
| Rep (n : nat) (r : regex).   (* r{n} *)

(** The loops of [r+] and [r{n}] over [step], the matcher of [r]; [k] is what
    remains to be matched.  An iteration of [r+] that consumes nothing is not
    repeated. *)
Fixpoint plus_loop (step : bool -> list N -> (bool -> list N -> bool) -> bool)
    (k : bool -> list N -> bool) (fuel : nat) (at_start : bool) (s : str)
    : bool :=
  match fuel with
  | O => false
  | S fuel' =>
      step at_start s (fun b' s' =>
        (if (length s' <? length s)%nat
         then plus_loop step k fuel' b' s' else false)
        || k b' s')
  end.

Fixpoint rep_loop (step : bool -> list N -> (bool -> list N -> bool) -> bool)
    (k : bool -> list N -> bool) (n : nat) (at_start : bool) (s : str)
    : bool :=
  match n with
  | O => k at_start s
  | S n' => step at_start s (fun b' s' => rep_loop step k n' b' s')
  end.

(** Backtracking matcher.  [at_start] says whether no character has been
    consumed yet.  Without [re.MULTILINE], [$] matches at the end of the
    string and just before a newline that ends the string. *)
Fixpoint exec (r : regex) (at_start : bool) (s : str)
    (k : bool -> list N -> bool) {struct r} : bool :=
  match r with
  | Eps => k at_start s
  | Bol => at_start && k at_start s
  | Eol =>
      match s with
      | [] => k at_start s
      | [10%N] => k at_start s
      | _ => false
      end
  | Chr c =>
      match s with
      | a :: s' => (a =? c)%N && k false s'
      | [] => false
      end
  | Cls p =>
      match s with
      | a :: s' => p a && k false s'
      | [] => false
      end
  | Cat r1 r2 => exec r1 at_start s (fun b s' => exec r2 b s' k)
  | Plus r1 => plus_loop (exec r1) k (S (length s)) at_start s
  | Rep n r1 => rep_loop (exec r1) k n at_start s
  end.

(** [bool(re.match(r, s))]: a match anchored at the start of [s]. *)
Definition re_match (r : regex) (s : str) : bool :=
  exec r true s (fun _ _ => true).

(** The loop of [r{0,n}], greedy: one more repetition is tried before the
    continuation. *)
Fixpoint rep_upto_loop
    (step : bool -> list N -> (bool -> list N -> bool) -> bool)
    (k : bool -> list N -> bool) (n : nat) (at_start : bool) (s : str)
    : bool :=
  match n with
  | O => k at_start s
  | S n' =>
      step at_start s (fun b' s' => rep_upto_loop step k n' b' s')
      || k at_start s
  end.

(** [r{m,n}] for [m <= n]: [m] repetitions, then up to [n - m] more. *)
Definition rep_range_loop
    (step : bool -> list N -> (bool -> list N -> bool) -> bool)
    (k : bool -> list N -> bool) (m n : nat) (at_start : bool) (s : str)
    : bool :=
  rep_loop step (rep_upto_loop step k (n - m)) m at_start s.

(** ** Slices and [rsplit] *)

(** [s[:k]]: a negative [k] counts from the end. *)
Definition slice_to (s : str) (k : Z) : str :=
  if 0 <=? k then take (Z.to_nat k) s
  else take (Z.to_nat (Z.of_nat (length s) + k)) s.

(** What follows the first [sep] of [l], if there is one. *)
Fixpoint after_first (sep : N) (l : list N) : option (list N) :=
  match l with
  | [] => None
  | c :: l' => if (c =? sep)%N then Some l' else after_first sep l'
  end.

(** [s.rsplit(sep, 1)[0]] for a one-character [sep]: what precedes the last
    [sep], or [s] itself when it has none. *)
Definition rsplit1_head (sep : N) (s : str) : str :=
  match after_first sep (rev s) with
  | Some r => rev r
  | None => s
  end.

(** ** [datetime] *)

(** A naive [datetime] is its number of microseconds since 0001-01-01
    00:00:00; [datetime.max] is 9999-12-31 23:59:59.999999. *)
Definition day_us : Z := 86400000000.
Definition datetime_max : Z := 3652059 * day_us - 1.

(** [dt + timedelta(days=d)]: [None] stands for [OverflowError], raised when
    the [timedelta] exceeds 999999999 days or the sum leaves the range of
    [datetime]. *)
Definition datetime_add_days (dt d : Z) : option Z :=
  if Z.abs d <=? 999999999 then
    let r := dt + d * day_us in
    if (0 <=? r) && (r <=? datetime_max) then Some r else None
  else None.

(** [(a - b).days]: a [timedelta] is normalised with a floor division. *)
Definition timedelta_days (a b : Z) : Z := (a - b) / day_us.

(** ** Statements that change a state and may raise *)

(** A computation over a state [S] that returns an [A] or raises an [E]; the
    state reached is kept in both cases, as a Python object mutated before an
    exception stays mutated. *)
Definition M (S E A : Type) : Type := S -> (E + A) * S.

Definition ret {S E A} (a : A) : M S E A := fun s => (inr a, s).

Definition bind {S E A B} (c : M S E A) (k : A -> M S E B) : M S E B :=
  fun s =>
    match c s with
    | (inr a, s') => k a s'
    | (inl e, s') => (inl e, s')
    end.

Definition raise {S E A} (e : E) : M S E A := fun s => (inl e, s).

(** [try: c except E as e: h e]. *)
Definition try_except {S E A} (c : M S E A) (h : E -> M S E A) : M S E A :=
  fun s =>
    match c s with
    | (inr a, s') => (inr a, s')
    | (inl e, s') => h e s'
    end.

Definition get_state {S E} : M S E S := fun s => (inr s, s).
Definition modify {S E} (f : S -> S) : M S E unit := fun s => (inr tt, f s).

Declare Scope py_scope.
Delimit Scope py_scope with py.
Notation "x <- c ;; k" := (bind c (fun x => k))
  (at level 100, c at next level, k at level 200, right associativity) : py_scope.
Notation "c ;; k" := (bind c (fun _ => k))
  (at level 100, k at level 200, right associativity) : py_scope.
Open Scope py_scope.

(* ===================================================================== *)
(** * Part II.  [models/user.py]                                          *)
(* ===================================================================== *)

Module user.

(** The attributes of a [User] that [save] writes ([created_at] and
    [updated_at] are maintained by the server). *)
Record User := {
  id : option Z;
  telegram_id : Z;
  username : option (list N);
  first_name : option (list N);
  last_name : option (list N);
  is_admin : bool;
  is_vip : bool;
  vip_until : option Z;
  balance : spec_float
}.

Definition set_id (n : Z) (u : User) : User :=
  {| id := Some n; telegram_id := telegram_id u; username := username u;
     first_name := first_name u; last_name := last_name u;
     is_admin := is_admin u; is_vip := is_vip u; vip_until := vip_until u;
     balance := balance u |}.

Definition set_balance (b : spec_float) (u : User) : User :=
  {| id := id u; telegram_id := telegram_id u; username := username u;
     first_name := first_name u; last_name := last_name u;
     is_admin := is_admin u; is_vip := is_vip u; vip_until := vip_until u;
     balance := b |}.

(** A row of the ledger table [transactions]. *)
Record transaction := {
  tx_id : Z;
  tx_user_id : Z;
  tx_amount : spec_float;
  tx_type : string;
  tx_status : string;
  tx_reference_id : option string;
  tx_description : option string
}.

(** The two tables the class writes; a row of [users] is a [User] whose
    [id] is set. *)
Record tables := {
  users : list User;
  transactions : list transaction
}.

(** A [mysql.connector] connection: what is committed, what the open
    transaction sees, the AUTO_INCREMENT counters (not rolled back), and
    the server's answers to come: every call that reaches the server
    ([cursor()], [execute()], [commit()]) takes the next entry of [faults]
    and raises [MySQLError] when it is [true]; with no entry left the call
    succeeds.  [rollback()] and [close()] are taken not to raise. *)
Record connection := {
  committed : tables;
  working : tables;
  next_user_id : Z;
  next_transaction_id : Z;
  faults : list bool
}.

Definition with_faults (f : list bool) (c : connection) : connection :=
  {| committed := committed c; working := working c;
     next_user_id := next_user_id c;
     next_transaction_id := next_transaction_id c; faults := f |}.

Definition with_working (w : tables) (c : connection) : connection :=
  {| committed := committed c; working := w;
     next_user_id := next_user_id c;
     next_transaction_id := next_transaction_id c; faults := faults c |}.

Definition with_committed (w : tables) (c : connection) : connection :=
  {| committed := w; working := working c;
     next_user_id := next_user_id c;
     next_transaction_id := next_transaction_id c; faults := faults c |}.

Definition with_next_user_id (n : Z) (c : connection) : connection :=
  {| committed := committed c; working := working c;
     next_user_id := n;
     next_transaction_id := next_transaction_id c; faults := faults c |}.

Definition with_next_transaction_id (n : Z) (c : connection) : connection :=
  {| committed := committed c; working := working c;
     next_user_id := next_user_id c;
     next_transaction_id := n; faults := faults c |}.

(** A method runs on [self] and [conn]; the only exception is [MySQLError]. *)
Inductive MySQLError := mysql_error.
Abbreviation Meth := (M (User * connection) MySQLError).

Definition self : Meth User := fun s => (inr (fst s), s).
Definition conn : Meth connection := fun s => (inr (snd s), s).
Definition set_self (f : User -> User) : Meth unit :=
  modify (fun s => (f (fst s), snd s)).
Definition set_conn (f : connection -> connection) : Meth unit :=
  modify (fun s => (fst s, f (snd s))).

(** One round trip to the server. *)
Definition server_call : Meth unit :=
  c <- conn ;;
  match faults c with
  | [] => ret tt
  | b :: rest =>
      set_conn (with_faults rest) ;;
      if b then raise mysql_error else ret tt
  end.

(** [conn.cursor()]. *)
Definition cursor : Meth unit := server_call.

(** [conn.commit()]. *)
Definition commit : Meth unit :=
  server_call ;;
  set_conn (fun c => with_committed (working c) c).

(** [conn.rollback()]. *)
Definition rollback : Meth unit :=
  set_conn (fun c => with_working (committed c) c).

(** [INSERT INTO transactions (user_id, amount, type, status, reference_id,
    description) VALUES (...)]; returns [cursor.lastrowid]. *)
Definition execute_insert_transaction (user_id : Z) (amount : spec_float)
    (type status : string) (reference_id description : option string)
    : Meth Z :=
  server_call ;;
  c <- conn ;;
  let n := next_transaction_id c in
  let row := {| tx_id := n; tx_user_id := user_id; tx_amount := amount;
                tx_type := type; tx_status := status;
                tx_reference_id := reference_id;
                tx_description := description |} in
  set_conn (fun c =>
    with_next_transaction_id (n + 1)
      (with_working {| users := users (working c);
                       transactions := transactions (working c) ++ [row] |}
         c)) ;;
  ret n.

(** [INSERT INTO users (...) VALUES (...)]; returns [cursor.lastrowid]. *)
Definition execute_insert_user (u : User) : Meth Z :=
  server_call ;;
  c <- conn ;;
  let n := next_user_id c in
  set_conn (fun c =>
    with_next_user_id (n + 1)
      (with_working {| users := users (working c) ++ [set_id n u];
                       transactions := transactions (working c) |}
         c)) ;;
  ret n.

(** The columns [UPDATE users SET ... WHERE id = %s] assigns. *)
Definition update_row (u row : User) : User :=
  {| id := id row; telegram_id := telegram_id row; username := username u;
     first_name := first_name u; last_name := last_name u;
     is_admin := is_admin u; is_vip := is_vip u; vip_until := vip_until u;
     balance := balance u |}.

Definition update_users (u : User) (i : Z) (rows : list User) : list User :=
  (fun row => if bool_decide (id row = Some i) then update_row u row else row)
  <$> rows.

Definition execute_update_user (u : User) (i : Z) : Meth unit :=
  server_call ;;
  set_conn (fun c =>
    with_working {| users := update_users u i (users (working c));
                    transactions := transactions (working c) |}
      c).

(** What a method returns: [False], [True] or an [int]. *)
Inductive result := PFalse | PTrue | PInt (n : Z).

(** Python truth value. *)
Definition truthy (r : result) : bool :=
  match r with
  | PFalse => false
  | PTrue => true
  | PInt n => negb (n =? 0)
  end.

(** [User.save]. *)
Definition save : Meth result :=
  try_except
    (cursor ;;
     u <- self ;;
     match id u with
     | None =>
         n <- execute_insert_user u ;;
         set_self (set_id n)
     | Some i => execute_update_user u i
     end ;;
     commit ;;
     ret PTrue)
    (fun _ => rollback ;; ret PFalse).

(** [User.add_balance]; the caller gives the optional arguments, whose
    defaults are ["deposit"], [None] and [None]. *)
Definition add_balance (amount : spec_float) (transaction_type : string)
    (reference_id description : option string) : Meth result :=
  try_except
    (cursor ;;
     set_self (fun u => set_balance (F64.add (balance u) amount) u) ;;
     u <- self ;;
     transaction_id <-
       execute_insert_transaction (telegram_id u) amount transaction_type
         "completed" reference_id description ;;
     save ;;
     commit ;;
     ret (PInt transaction_id))
    (fun _ => rollback ;; ret PFalse).

(** [User.remove_balance]; the default of [transaction_type] is
    ["withdrawal"]. *)
Definition remove_balance (amount : spec_float) (transaction_type : string)
    (reference_id description : option string) : Meth result :=
  u <- self ;;
  if F64.ltb (balance u) amount then ret PFalse
  else add_balance (F64.opp amount) transaction_type reference_id description.


Definition set_is_vip (b : bool) (u : User) : User :=
  {| id := id u; telegram_id := telegram_id u; username := username u;
     first_name := first_name u; last_name := last_name u;
     is_admin := is_admin u; is_vip := b; vip_until := vip_until u;
     balance := balance u |}.

Definition set_vip_until (v : option Z) (u : User) : User :=
  {| id := id u; telegram_id := telegram_id u; username := username u;
     first_name := first_name u; last_name := last_name u;
     is_admin := is_admin u; is_vip := is_vip u; vip_until := v;
     balance := balance u |}.

(** [User.activate_vip]; [now1] and [now2] are what the two calls of
    [datetime.now()] return.  [except Exception] catches the [OverflowError]
    of the date arithmetic; [save] catches its own [MySQLError]. *)
Definition activate_vip (days : Z) (now1 now2 : Z) : Meth result :=
  u <- self ;;
  let running :=
    is_vip u && match vip_until u with
                | Some v => now1 <? v
                | None => false
                end in
  if running then
    match vip_until u ≫= (fun v => datetime_add_days v days) with
    | Some v' => set_self (set_vip_until (Some v')) ;; save
    | None => ret PFalse
    end
  else
    set_self (set_is_vip true) ;;
    match datetime_add_days now2 days with
    | Some v' => set_self (set_vip_until (Some v')) ;; save
    | None => ret PFalse
    end.

End user.

(* ===================================================================== *)
(** * Part III.  The handlers' context                                    *)
(* ===================================================================== *)

#[global] Instance spec_float_eq_dec : EqDecision spec_float.
Proof. solve_decision. Defined.

(** The values the handlers keep in dictionaries: text, [int], [float]. *)
Inductive scalar :=
| SStr (s : list N)
| SInt (n : Z)
| SFloat (x : spec_float).

#[global] Instance scalar_eq_dec : EqDecision scalar.
Proof. solve_decision. Defined.

(** A value of [context.user_data]: a scalar, a flat [dict] with literal keys
    (a plan under construction), or a [list] of such dicts (the plans). *)
Inductive value :=
| VScalar (x : scalar)
| VDict (d : gmap string scalar)
| VList (l : list (gmap string scalar)).

#[global] Instance value_eq_dec : EqDecision value.
Proof. solve_decision. Defined.

(** A string literal stored as a value. *)
Definition VStr (s : string) : value := VScalar (SStr (lit s)).

(** Python truth value. *)
Definition scalar_truthy (x : scalar) : bool :=
  match x with
  | SStr s => negb (bool_decide (s = []))
  | SInt n => negb (n =? 0)
  | SFloat (S754_zero _) => false
  | SFloat _ => true
  end.

Definition truthy (v : value) : bool :=
  match v with
  | VScalar x => scalar_truthy x
  | VDict d => negb (bool_decide (d = ∅))
  | VList l => negb (bool_decide (l = []))
  end.

(** [v == 'literal']. *)
Definition eq_str (v : option value) (s : string) : bool :=
  match v with
  | Some (VScalar (SStr t)) => bool_decide (t = lit s)
  | _ => false
  end.

(** [x == n] for an [int] [n]: a float is compared with [n] exactly. *)
Definition scalar_eq_int (x : scalar) (n : Z) : bool :=
  match x with
  | SInt m => m =? n
  | SFloat y => F64.eq_Z y n
  | SStr _ => false
  end.

(** Message text: the pieces of an f-string, [V x] for [{x}] and [V2f x] for
    [{x:.2f}]. *)
Inductive piece :=
| T (s : string)
| V (x : scalar)
| V2f (x : scalar).

Inductive button_action :=
| callback_data (d : list N)
| url (u : list piece).

Inductive button := InlineKeyboardButton (label : list piece) (a : button_action).

(** What a handler sends through the transport. *)
Inductive event :=
| answer                                              (* query.answer() *)
| reply_text (t : list piece) (reply_markup : list (list button))
| edit_message_text (t : list piece) (reply_markup : list (list button))
| edit_text (t : list piece) (reply_markup : list (list button))
| send_message (chat_id : option scalar) (t : list piece).

(** [context.user_data] of the user, [context.bot_data] (a [dict] of tables
    keyed by text, each entry a flat [dict]) and the events sent. *)
Record session := {
  user_data : gmap string value;
  bot_data : gmap string (gmap (list N) (gmap string scalar));
  sent : list event
}.

Inductive exn :=
| ValueError
| KeyError (k : string)
| IndexError
| TypeError
| AttributeError
| OverflowError
| NameError (name : string).

Abbreviation Handler := (M session exn).

(** The part of [update] the handlers read. *)
Record Update := {
  message_text : list N;          (* update.message.text *)
  query_data : list N;            (* update.callback_query.data *)
  effective_user_id : Z;          (* update.effective_user.id *)
  chat_id_ : Z;                   (* update.message.chat.id *)
  chat_title : list N;            (* update.message.chat.title *)
  chat_type : list N              (* update.message.chat.type *)
}.

Definition emit (e : event) : Handler unit :=
  modify (fun s => {| user_data := user_data s; bot_data := bot_data s;
                      sent := sent s ++ [e] |}).

Definition set_user_data (f : gmap string value -> gmap string value)
    : Handler unit :=
  modify (fun s => {| user_data := f (user_data s); bot_data := bot_data s;
                      sent := sent s |}).

Definition set_bot_data
    (f : gmap string (gmap (list N) (gmap string scalar)) ->
         gmap string (gmap (list N) (gmap string scalar))) : Handler unit :=
  modify (fun s => {| user_data := user_data s; bot_data := f (bot_data s);
                      sent := sent s |}).

(** [context.user_data.get(k)]. *)
Definition user_data_get (k : string) : Handler (option value) :=
  s <- get_state ;; ret (user_data s !! k).

(** [context.user_data[k] = v]. *)
Definition user_data_set (k : string) (v : value) : Handler unit :=
  set_user_data (insert k v).

(** [context.user_data.pop(k, None)]. *)
Definition user_data_pop (k : string) : Handler unit :=
  set_user_data (delete k).

(** [context.user_data[k]], expected to be a [dict]. *)
Definition user_data_dict (k : string) : Handler (gmap string scalar) :=
  s <- get_state ;;
  match user_data s !! k with
  | Some (VDict d) => ret d
  | Some _ => raise TypeError
  | None => raise (KeyError k)
  end.

(** [context.user_data[k][f] = x]: the stored dict itself is updated. *)
Definition user_data_setitem (k f : string) (x : scalar) : Handler unit :=
  d <- user_data_dict k ;;
  user_data_set k (VDict (<[f := x]> d)).

(** [d[f]] on a flat dict. *)
Definition getitem {S} (d : gmap string scalar) (f : string)
    : M S exn scalar :=
  match d !! f with
  | Some x => ret x
  | None => raise (KeyError f)
  end.

(** [{x:.2f}] needs a number. *)
Definition fmt2f {S} (x : scalar) : M S exn piece :=
  match x with
  | SStr _ => raise ValueError
  | _ => ret (V2f x)
  end.

(** A global name of a module: [NameError] unless the module binds it. *)
Definition global_name {S} (globals : list string) (name : string)
    : M S exn unit :=
  if existsb (String.eqb name) globals then ret tt else raise (NameError name).

(** [lst[i]]. *)
Definition index {S A} (l : list A) (i : nat) : M S exn A :=
  match l !! i with
  | Some x => ret x
  | None => raise IndexError
  end.

(* ===================================================================== *)
(** * Part IV.  [utils/helpers.py] and the handlers                       *)
(* ===================================================================== *)

Module helpers.

(** The set [[A-Za-z0-9_-]]. *)
Definition token_char (c : N) : bool :=
  is_ascii_upper c || is_ascii_lower c || is_ascii_digit c
  || (c =? 95)%N || (c =? 45)%N.

(** [token_pattern = r'^\d+:[A-Za-z0-9_-]{35}$']. *)
Definition token_pattern `{UnicodeDB} : regex :=
  Cat Bol
    (Cat (Plus (Cls Py_UNICODE_ISDECIMAL))
       (Cat (Chr 58)
          (Cat (Rep 35 (Cls token_char)) Eol))).

(** [is_valid_bot_token]. *)
Definition is_valid_bot_token `{UnicodeDB} (token : str) : bool :=
  re_match token_pattern token.


(** The set [[a-zA-Z0-9_]]. *)
Definition username_char (c : N) : bool :=
  is_ascii_lower c || is_ascii_upper c || is_ascii_digit c || (c =? 95)%N.

(** [re.match(r'^[a-zA-Z0-9_]{5,32}$', username)]. *)
Definition username_match (username : str) : bool :=
  exec Bol true username (fun b s =>
    rep_range_loop (exec (Cls username_char))
      (fun b' s' => exec Eol b' s' (fun _ _ => true)) 5 32 b s).

(** [validate_username]: the empty string is refused before the pattern is
    tried. *)
Definition validate_username (username : str) : bool :=
  match username with
  | [] => false
  | _ => username_match username
  end.

(** [re.sub(r'\D', '', phone)]: every character that is not a decimal digit
    is removed. *)
Definition phone_clean `{UnicodeDB} (phone : str) : list N :=
  List.filter Py_UNICODE_ISDECIMAL phone.

(** [validate_phone]. *)
Definition validate_phone `{UnicodeDB} (phone : str) : bool :=
  let n := Z.of_nat (length (phone_clean phone)) in
  (10 <=? n) && (n <=? 15).

(** [string.ascii_uppercase + string.digits]. *)
Definition code_alphabet : list N :=
  lit "ABCDEFGHIJKLMNOPQRSTUVWXYZ0123456789".

(** [generate_random_code]: [length] draws of [random.choices]; [rng i] is
    the [i]-th draw.  A negative [length] gives no draw. *)
Definition generate_random_code (length : Z) (rng : nat -> nat) : list N :=
  (fun i => nth (rng i mod 36)%nat code_alphabet 0%N) <$> seq 0 (Z.to_nat length).

(** [format_duration]. *)
Definition format_duration (days : Z) : list N :=
  if days =? 9999 then lit "Vital" ++ [237%N] ++ lit "cio"
  else if 365 <=? days then
    let years := days / 365 in
    str_of_int years ++ lit " " ++ (if years =? 1 then lit "ano" else lit "anos")
  else if 30 <=? days then
    let months := days / 30 in
    str_of_int months ++ lit " "
    ++ (if months =? 1 then lit "m" ++ [234%N] ++ lit "s" else lit "meses")
  else
    str_of_int days ++ lit " " ++ (if days =? 1 then lit "dia" else lit "dias").

(** [truncate_text]. *)
Definition truncate_text (text : str) (max_length : Z) : list N :=
  if Z.of_nat (length text) <=? max_length then text
  else rsplit1_head 32 (slice_to text (max_length - 3)) ++ lit "...".

(** [is_plan_expired]; [now] is what [datetime.now()] returns. *)
Definition is_plan_expired (end_date : option Z) (now : Z) : bool :=
  match end_date with
  | None => false
  | Some e => e <? now
  end.

(** [days_until_expiration]. *)
Definition days_until_expiration (end_date : option Z) (now : Z) : option Z :=
  match end_date with
  | None => None
  | Some e => Some (Z.max 0 (timedelta_days e now))
  end.

End helpers.

Module menu_handler.

(** [menu_callback]. *)
Definition menu_callback (update : Update) : Handler unit :=
  emit answer ;;
  emit (edit_message_text
    [T "🔥 BOT CRIADOR DE BOTS 🔥

Este bot permite que você crie seu próprio bot para gerenciar grupos VIP com sistema de pagamento integrado."]
    [ [InlineKeyboardButton [T "🤖 Criar seu Bot"] (callback_data (lit "criar_bot"))];
      [InlineKeyboardButton [T "💰 Meu Saldo"] (callback_data (lit "meu_saldo"))];
      [InlineKeyboardButton [T "👥 Convide e Ganhe"] (callback_data (lit "convite"))];
      [InlineKeyboardButton [T "👑 Seja Admin VIP"] (callback_data (lit "admin_vip"))];
      [InlineKeyboardButton [T "ℹ️ Como Funciona"] (callback_data (lit "como_funciona"))] ]).

(** [criar_bot_callback]. *)
Definition criar_bot_callback (update : Update) : Handler unit :=
  emit answer ;;
  emit (edit_message_text
    [T "🤖 CRIAR SEU BOT

Instruções detalhadas:

1. Acesse o @BotFather e envie o comando /newbot
2. Siga o passo a passo e escolha nome/username para seu bot
3. Copie o token fornecido pelo BotFather
4. Volte neste chat e cole o token aqui

Exemplo de token:
123456789:ABCDefGhIJKlmNoPQRsTUVwxyZ"]
    [ [InlineKeyboardButton [T "🔙 Voltar"] (callback_data (lit "menu_principal"))] ]) ;;
  user_data_set "waiting_for" (VStr "bot_token").

End menu_handler.

Module channel_handler.

(** The names the module binds: its imports, constants and functions. *)
Definition globals : list string :=
  [ "os"; "logging"; "random"; "string"; "time"; "Update"; "ChatMember";
    "InlineKeyboardMarkup"; "InlineKeyboardButton"; "CallbackContext";
    "TelegramError"; "logger"; "CHANNEL_ID"; "CHANNEL_LINK";
    "verificar_canal"; "gerar_codigo_validacao"; "validar_codigo_canal"
  ]%string.

(** [string.ascii_uppercase + string.digits]. *)
Definition alphabet : list N := lit "ABCDEFGHIJKLMNOPQRSTUVWXYZ0123456789".

(** [gerar_codigo_validacao]: eight draws of [random.choices]; [rng i] is
    the [i]-th draw. *)
Definition gerar_codigo_validacao (rng : nat -> nat) : list N :=
  (fun i => nth (rng i mod 36)%nat alphabet 0%N) <$> seq 0 8.

(** [time.time() > expira]. *)
Definition expired (now : spec_float) (expira : scalar) : Handler bool :=
  match expira with
  | SFloat x => ret (F64.gtb now x)
  | SInt n => ret (F64.gtb now (F64.of_Z n))
  | SStr _ => raise TypeError
  end.

(** The loop of [validar_codigo_canal] over [list(codigos.items())]; the
    keys of a [dict] are distinct, so the order of the items is immaterial.
    [pop] acts on the table stored in [bot_data]. *)
Fixpoint validar_loop (update : Update) (now : spec_float)
    (items : list (list N * gmap string scalar)) : Handler unit :=
  match items with
  | [] => ret tt
  | (codigo, info) :: rest =>
      if bool_decide (codigo = message_text update) then
        let user_id := info !! "user_id" in
        let expira := default (SInt 0) (info !! "expira") in
        global_name globals "time" ;;
        late <- expired now expira ;;
        if late then
          set_bot_data (alter (delete codigo) "codigos_validacao") ;;
          validar_loop update now rest
        else
          emit (send_message user_id
            [T "✅ Canal/grupo '"; V (SStr (chat_title update));
             T "' vinculado com sucesso!"]) ;;
          set_bot_data (alter (delete codigo) "codigos_validacao") ;;
          emit (reply_text
            [T "✅ Este canal/grupo foi vinculado com sucesso ao sistema Zenyx!"] [])
      else validar_loop update now rest
  end.

(** [validar_codigo_canal]; [now] is what [time.time()] returns. *)
Definition validar_codigo_canal (update : Update) (now : spec_float)
    : Handler unit :=
  if negb (hasattr_dict "codigos_validacao") then ret tt
  else
    s <- get_state ;;
    let codigos_validacao :=
      default ∅ (bot_data s !! "codigos_validacao") in
    validar_loop update now (map_to_list codigos_validacao).

End channel_handler.

Module bot_handler.

(** The names the module binds: its imports ([os], [logging], [re], [json],
    the [telegram] classes, the two connection helpers of [main]), [logger]
    and its functions.  [time] is not among them. *)
Definition globals : list string :=
  [ "os"; "logging"; "re"; "json"; "Update"; "InlineKeyboardMarkup";
    "InlineKeyboardButton"; "CallbackContext"; "get_mysql_connection";
    "get_redis_connection"; "logger"; "verificar_token_bot";
    "iniciar_bot_usuario"; "configurar_mensagens"; "configurar_midia";
    "configurar_texto"; "configurar_planos"; "adicionar_plano";
    "processar_nome_plano"; "processar_preco_plano";
    "processar_duracao_plano"; "configurar_canal"; "gerar_codigo_canal"
  ]%string.

Definition invalid_token_text : list piece :=
  [T "❌ Token inválido! O formato deve ser semelhante a:
123456789:ABCDefGhIJKlmNoPQRsTUVwxyZ

Por favor, obtenha um token válido do @BotFather e tente novamente."].

Definition processing_text : list piece :=
  [T "🔄 INICIANDO SEU BOT...
Seu bot está sendo iniciado. Isso pode levar alguns segundos."].

(** The simulated user name of the new bot. *)
Definition bot_username : scalar := SStr (lit "SeuBot").

Definition success_text : list piece :=
  [T "✅ BOT INICIADO COM SUCESSO!
Seu bot @"; V bot_username; T " está online e pronto para uso."].

Definition success_keyboard : list (list button) :=
  [ [InlineKeyboardButton [T "🚀 Iniciar @"; V bot_username]
       (url [T "https://t.me/"; V bot_username])];
    [InlineKeyboardButton [T "📝 Configurar bot"] (callback_data (lit "config_bot"))];
    [InlineKeyboardButton [T "🔙 Voltar ao menu"] (callback_data (lit "menu_principal"))] ].

(** [verificar_token_bot].  Its [token_pattern] is the one of
    [is_valid_bot_token], written out again.  The token is checked against
    the pattern only: the look-up of the bot and the write to the database
    are simulated by the source, which makes no call to either. *)
Definition verificar_token_bot `{UnicodeDB} (update : Update) : Handler unit :=
  w <- user_data_get "waiting_for" ;;
  if negb (eq_str w "bot_token") then ret tt
  else
    let text := message_text update in
    user_data_pop "waiting_for" ;;
    if negb (re_match helpers.token_pattern text) then
      emit (reply_text invalid_token_text [])
    else
      emit (reply_text processing_text []) ;;
      try_except
        (emit (edit_text success_text success_keyboard))
        (fun _ =>
           emit (edit_text
             [T "❌ Ocorreu um erro ao iniciar seu bot. Por favor, verifique se o token é válido e tente novamente."]
             [])).

(** [configurar_mensagens]. *)
Definition configurar_mensagens (update : Update) : Handler unit :=
  emit answer ;;
  emit (edit_message_text
    [T "📝 CONFIGURAÇÃO PRINCIPAL
Escolha o que deseja configurar:"]
    [ [InlineKeyboardButton [T "🖼️ Mídia"] (callback_data (lit "config_midia"))];
      [InlineKeyboardButton [T "📝 Texto"] (callback_data (lit "config_texto"))];
      [InlineKeyboardButton [T "💰 Criar Planos"] (callback_data (lit "config_planos"))];
      [InlineKeyboardButton [T "👁️ Visualização completa"]
         (callback_data (lit "visualizacao_completa"))];
      [InlineKeyboardButton [T "🔙 Voltar"] (callback_data (lit "menu_bot"))] ]).

(** The lines of [configurar_planos], one per plan, numbered from [i]. *)
Fixpoint plan_lines (i : Z) (planos : list (gmap string scalar))
    : Handler (list piece) :=
  match planos with
  | [] => ret []
  | plano :: rest =>
      nome <- getitem plano "nome" ;;
      preco <- getitem plano "preco" ;;
      preco2f <- fmt2f preco ;;
      duracao <- getitem plano "duracao" ;;
      more <- plan_lines (i + 1) rest ;;
      ret ([V (SInt i); T ". "; V nome; T " - R$ "; preco2f; T " - ";
            V duracao; T " dias
"] ++ more)
  end.

Definition planos_keyboard : list (list button) :=
  [ [InlineKeyboardButton [T "➕ Adicionar Plano"] (callback_data (lit "adicionar_plano"))];
    [InlineKeyboardButton [T "🔙 Voltar"] (callback_data (lit "config_mensagens"))] ].

(** [configurar_planos]: the screen the cancel button of [adicionar_plano]
    leads to. *)
Definition configurar_planos (update : Update) : Handler unit :=
  emit answer ;;
  planos <- user_data_get "planos" ;;
  message_text <-
    match planos with
    | None => ret [T "💰 CONFIGURAÇÃO DE PLANOS

Nenhum plano configurado."]
    | Some v =>
        if negb (truthy v) then ret [T "💰 CONFIGURAÇÃO DE PLANOS

Nenhum plano configurado."]
        else match v with
             | VList l =>
                 lines <- plan_lines 1 l ;;
                 ret (T "💰 CONFIGURAÇÃO DE PLANOS

Planos configurados:
" :: lines)
             | _ => raise TypeError
             end
    end ;;
  emit (edit_message_text message_text planos_keyboard).

Definition adicionar_plano_keyboard : list (list button) :=
  [ [InlineKeyboardButton [T "🔙 Cancelar"] (callback_data (lit "config_planos"))] ].

(** [adicionar_plano]. *)
Definition adicionar_plano (update : Update) : Handler unit :=
  emit answer ;;
  emit (edit_message_text
    [T "💰 ADICIONAR PLANO

Envie o nome do plano (ex: Mensal, Vitalício, etc.):"]
    adicionar_plano_keyboard) ;;
  user_data_set "waiting_for" (VStr "plan_name") ;;
  user_data_set "new_plan" (VDict ∅).

(** [processar_nome_plano]. *)
Definition processar_nome_plano (update : Update) : Handler unit :=
  w <- user_data_get "waiting_for" ;;
  if negb (eq_str w "plan_name") then ret tt
  else
    let text := message_text update in
    user_data_setitem "new_plan" "nome" (SStr text) ;;
    emit (reply_text
      [T "💰 ADICIONAR PLANO

Agora, envie o preço do plano (ex: 19.90):"] []) ;;
    user_data_set "waiting_for" (VStr "plan_price").

Definition invalid_price_text : list piece :=
  [T "❌ Preço inválido! Por favor, envie um valor numérico válido (ex: 19.90):"].

Definition duration_keyboard : list (list button) :=
  [ [ InlineKeyboardButton [T "1 Dia"] (callback_data (lit "plan_duration_1"));
      InlineKeyboardButton [T "7 Dias"] (callback_data (lit "plan_duration_7"));
      InlineKeyboardButton [T "15 Dias"] (callback_data (lit "plan_duration_15")) ];
    [ InlineKeyboardButton [T "30 Dias"] (callback_data (lit "plan_duration_30"));
      InlineKeyboardButton [T "3 Meses"] (callback_data (lit "plan_duration_90"));
      InlineKeyboardButton [T "6 Meses"] (callback_data (lit "plan_duration_180")) ];
    [ InlineKeyboardButton [T "1 Ano"] (callback_data (lit "plan_duration_365"));
      InlineKeyboardButton [T "Vitalício"] (callback_data (lit "plan_duration_9999")) ] ].

(** The parse-and-validate step of [processar_preco_plano]:
    [float(text.replace(',', '.'))], then [ValueError] when [preco <= 0];
    [None] stands for [ValueError]. *)
Definition parse_preco `{UnicodeDB} (text : str) : option spec_float :=
  match py_float (str_replace 44 46 text) with
  | Some preco => if F64.leb preco F64.zero then None else Some preco
  | None => None
  end.

(** [processar_preco_plano]: only [ValueError] is caught. *)
Definition processar_preco_plano `{UnicodeDB} (update : Update) : Handler unit :=
  w <- user_data_get "waiting_for" ;;
  if negb (eq_str w "plan_price") then ret tt
  else
    let text := message_text update in
    try_except
      (preco <- match parse_preco text with
                | Some preco => ret preco
                | None => raise ValueError
                end ;;
       user_data_setitem "new_plan" "preco" (SFloat preco) ;;
       emit (reply_text
         [T "💰 ADICIONAR PLANO

Por fim, escolha a duração do plano:"] duration_keyboard) ;;
       user_data_set "waiting_for" (VStr "plan_duration"))
      (fun e =>
         match e with
         | ValueError => emit (reply_text invalid_price_text [])
         | _ => raise e
         end).

(** [processar_duracao_plano]. *)
Definition processar_duracao_plano `{UnicodeDB} (update : Update) : Handler unit :=
  emit answer ;;
  if negb (str_startswith (lit "plan_duration_") (query_data update)) then ret tt
  else
    duracao <-
      match py_int (default [] (last (str_split 95 (query_data update)))) with
      | Some n => ret n
      | None => raise ValueError
      end ;;
    user_data_setitem "new_plan" "duracao" (SInt duracao) ;;
    new_plan <- user_data_dict "new_plan" ;;
    nome <- getitem new_plan "nome" ;;
    preco <- getitem new_plan "preco" ;;
    let duracao_texto :=
      if duracao =? 9999 then [T "vitalício"]
      else [V (SInt duracao); T " dias"] in
    s <- get_state ;;
    match user_data s !! "planos" with
    | None => user_data_set "planos" (VList [])
    | Some _ => ret tt
    end ;;
    s <- get_state ;;
    match user_data s !! "planos" with
    | Some (VList l) => user_data_set "planos" (VList (l ++ [new_plan]))
    | Some (VDict _) => raise AttributeError
    | Some (VScalar _) => raise AttributeError
    | None => raise (KeyError "planos")
    end ;;
    preco2f <- fmt2f preco ;;
    emit (edit_message_text
      ([T "✅ PLANO ADICIONADO!

• Nome: "; V nome; T "
• Preço: R$ "; preco2f; T "
• Duração: "] ++ duracao_texto)
      [ [InlineKeyboardButton [T "➕ Adicionar outro plano"]
           (callback_data (lit "adicionar_plano"))];
        [InlineKeyboardButton [T "🔙 Voltar"] (callback_data (lit "config_planos"))] ]) ;;
    user_data_pop "waiting_for" ;;
    user_data_pop "new_plan".

(** [configurar_canal]. *)
Definition configurar_canal (update : Update) : Handler unit :=
  emit answer ;;
  emit (edit_message_text
    [T "👥 CONFIGURAÇÃO DE GRUPO/CANAL

Para vincular seu bot a um grupo ou canal, siga os passos:

1. Adicione seu bot ao grupo/canal como administrador
2. Conceda permissões para gerenciar membros
3. Clique em ➕ Adicionar canal/grupo
4. Envie o código gerado no seu grupo/canal"]
    [ [InlineKeyboardButton [T "➕ Adicionar canal/grupo"]
         (callback_data (lit "gerar_codigo_canal"))];
      [InlineKeyboardButton [T "🔙 Voltar"] (callback_data (lit "menu_bot"))] ]).

(** [gerar_codigo_canal]; [rng] gives the draws of [random.choices] and
    [now] is what [time.time()] would return.  The right-hand side of the
    assignment that stores the code is evaluated first: [user_id], then
    [context.user_data.get('bot_id', 0)], then [time.time() + 3600], where
    the name [time] is looked up in the module. *)
Definition gerar_codigo_canal (update : Update) (rng : nat -> nat)
    (now : spec_float) : Handler unit :=
  emit answer ;;
  let user_id := effective_user_id update in
  let codigo := channel_handler.gerar_codigo_validacao rng in
  (if negb (hasattr_dict "codigos_validacao")
   then set_bot_data (insert "codigos_validacao" ∅)
   else ret tt) ;;
  bot_id <- user_data_get "bot_id" ;;
  global_name globals "time" ;;
  let expira := F64.add now (F64.of_Z 3600) in
  bot_id <- match bot_id with
            | None => ret (SInt 0)
            | Some (VScalar x) => ret x
            | Some _ => raise TypeError
            end ;;
  s <- get_state ;;
  match bot_data s !! "codigos_validacao" with
  | Some table =>
      set_bot_data (insert "codigos_validacao"
        (<[codigo := {[ "user_id" := SInt user_id; "bot_id" := bot_id;
                        "expira" := SFloat expira ]}]> table))
  | None => raise (KeyError "codigos_validacao")
  end ;;
  emit (edit_message_text
    [T "👥 CÓDIGO DE VALIDAÇÃO GERADO

Código gerado: "; V (SStr codigo); T "
Validade: 1 hora

Basta enviar esse código no grupo/canal que deseja vincular"]
    [ [InlineKeyboardButton [T "🔙 Voltar"] (callback_data (lit "config_canal"))] ]).


(** [configurar_midia]. *)
Definition configurar_midia (update : Update) : Handler unit :=
  emit answer ;;
  emit (edit_message_text
    [T "🖼️ CONFIGURAÇÃO DE MÍDIA

Envie uma foto ou vídeo para ser usado como mídia de boas-vindas do seu bot.

A mídia será exibida na mensagem inicial que os usuários receberão ao iniciarem seu bot."]
    [ [InlineKeyboardButton [T "🗑️ Remover mídia atual"]
         (callback_data (lit "remover_midia"))];
      [InlineKeyboardButton [T "🔙 Voltar"] (callback_data (lit "config_mensagens"))] ]) ;;
  user_data_set "waiting_for" (VStr "media_upload").

(** [configurar_texto]; [str_] is Python's [str()] on a stored value, used to
    show the current text. *)
Definition configurar_texto (str_ : value -> list N) (update : Update)
    : Handler unit :=
  emit answer ;;
  current <- user_data_get "welcome_text" ;;
  let current_text :=
    match current with
    | Some v => V (SStr (str_ v))
    | None => T "👋🏻 Olá %firstname%, seja bem-vindo!"
    end in
  emit (edit_message_text
    [T "📝 CONFIGURAÇÃO DE TEXTO

Envie o texto que será exibido na mensagem de boas-vindas do seu bot.

Você pode usar as seguintes variáveis:
• %firstname% - Primeiro nome do usuário
• %lastname% - Sobrenome do usuário
• %username% - Nome de usuário (@username)

Texto atual:
"; current_text]
    [ [InlineKeyboardButton [T "🔙 Voltar"] (callback_data (lit "config_mensagens"))] ]) ;;
  user_data_set "waiting_for" (VStr "welcome_text").

End bot_handler.

Module payment_handler.

(** The names the module binds. *)
Definition globals : list string :=
  [ "os"; "logging"; "requests"; "json"; "time"; "Update";
    "InlineKeyboardMarkup"; "InlineKeyboardButton"; "CallbackContext";
    "get_mysql_connection"; "get_redis_connection"; "logger";
    "PUSHIN_PAY_TOKEN"; "PUSHIN_PAY_API_URL"; "processar_pagamento";
    "verificar_pagamento"; "callback_pagamento" ]%string.

(** [for p in planos] over [context.user_data.get('planos', [])]: the body
    calls [p.get]. *)
Definition iter_planos (v : option value)
    : Handler (list (gmap string scalar)) :=
  match v with
  | None => ret []
  | Some (VList l) => ret l
  | Some (VDict d) => if bool_decide (d = ∅) then ret [] else raise AttributeError
  | Some (VScalar (SStr s)) =>
      if bool_decide (s = []) then ret [] else raise AttributeError
  | Some (VScalar _) => raise TypeError
  end.

(** The plan made up when none is found. *)
Definition plano_teste (plano_id : Z) : gmap string scalar :=
  {[ "id" := SInt plano_id; "nome" := SStr (lit "Plano Teste");
     "preco" := SFloat (F64.of_decimal false 1990 (-2));
     "duracao" := SInt 30 ]}.

(** [int(time.time())]. *)
Definition int_of_time (t : spec_float) : Handler Z :=
  global_name globals "time" ;;
  match t, F64.to_Z t with
  | _, Some n => ret n
  | S754_nan, None => raise ValueError
  | _, None => raise OverflowError
  end.

Definition error_text : list piece :=
  [T "❌ Ocorreu um erro ao gerar o pagamento. Por favor, tente novamente mais tarde."].

(** [processar_pagamento]; [t1], [t2], [t3] are the three readings of
    [time.time()]. *)
Definition processar_pagamento `{UnicodeDB} (update : Update)
    (t1 t2 t3 : spec_float) : Handler unit :=
  emit answer ;;
  if negb (str_startswith (lit "pagar_") (query_data update)) then ret tt
  else
    parsed <-
      try_except
        (x <- index (str_split 95 (query_data update)) 1 ;;
         match py_int x with
         | Some n => ret (Some n)
         | None => raise ValueError
         end)
        (fun e =>
           match e with
           | IndexError | ValueError =>
               emit (edit_message_text
                 [T "❌ Erro ao processar o pagamento. Plano inválido."] []) ;;
               ret None
           | _ => raise e
           end) ;;
    match parsed with
    | None => ret tt
    | Some plano_id =>
        planos <- user_data_get "planos" ;;
        planos <- iter_planos planos ;;
        let found :=
          List.find (fun p => scalar_eq_int (default (SInt 0) (p !! "id")) plano_id)
            planos in
        let plano :=
          match found with
          | Some p => if bool_decide (p = ∅) then plano_teste plano_id else p
          | None => plano_teste plano_id
          end in
        let user_id := effective_user_id update in
        nome <- getitem plano "nome" ;;
        preco <- getitem plano "preco" ;;
        preco2f <- fmt2f preco ;;
        duracao <- getitem plano "duracao" ;;
        emit (edit_message_text
          [T "💰 PROCESSANDO PAGAMENTO

Plano: "; V nome; T "
Valor: R$ "; preco2f; T "
Duração: "; V duracao; T " dias

Gerando QR Code PIX..."] []) ;;
        try_except
          (n <- int_of_time t1 ;;
           let transaction_id := lit "TX" ++ str_of_int n in
           _ <- int_of_time t2 ;;
           emit (edit_message_text
             [T "💰 PAGAMENTO PIX GERADO

Plano: "; V nome; T "
Valor: R$ "; preco2f; T "
Duração: "; V duracao; T " dias

Escaneie o QR Code abaixo ou copie o código PIX:

`PIX_QR_CODE_EXAMPLE_12345`"]
             [ [InlineKeyboardButton [T "📋 Copiar Código PIX"]
                  (callback_data (lit "copy_pix_" ++ transaction_id))];
               [InlineKeyboardButton [T "🔄 Verificar Pagamento"]
                  (callback_data (lit "check_payment_" ++ transaction_id))];
               [InlineKeyboardButton [T "❌ Cancelar"]
                  (callback_data (lit "menu_principal"))] ]) ;;
           (if negb (hasattr_dict "pagamentos")
            then set_bot_data (insert "pagamentos" ∅)
            else ret tt) ;;
           global_name globals "time" ;;
           s <- get_state ;;
           match bot_data s !! "pagamentos" with
           | Some table =>
               set_bot_data (insert "pagamentos"
                 (<[transaction_id :=
                      {[ "user_id" := SInt user_id;
                         "plano_id" := SInt plano_id;
                         "valor" := preco;
                         "status" := SStr (lit "pending");
                         "created_at" := SFloat t3 ]}]> table))
           | None => raise (KeyError "pagamentos")
           end)
          (fun _ => emit (edit_message_text error_text []))
    end.

Definition not_found_text : list piece :=
  [T "❌ Pagamento não encontrado ou expirado."].

(** [getattr(context.bot_data, name, {})]: the attribute when the [dict]
    has one of that name (a method, which has no [get]); the default, a
    new empty [dict], otherwise.  The items of [bot_data] are not read. *)
Definition getattr_bot_data (name : string)
    : Handler (gmap (list N) (gmap string scalar)) :=
  if hasattr_dict name then raise AttributeError else ret ∅.

(** [verificar_pagamento].  [pagamento['status'] = 'approved'] updates the
    record inside the mapping [pagamentos] that [getattr] returned. *)
Definition verificar_pagamento (update : Update) : Handler unit :=
  emit answer ;;
  if negb (str_startswith (lit "check_payment_") (query_data update)) then ret tt
  else
    transaction_id <- index (str_split 95 (query_data update)) 2 ;;
    pagamentos <- getattr_bot_data "pagamentos" ;;
    match pagamentos !! transaction_id with
    | None => emit (edit_message_text not_found_text [])
    | Some pagamento =>
        if bool_decide (pagamento = ∅) then
          emit (edit_message_text not_found_text [])
        else
          try_except
            (let pagamentos :=
               <[transaction_id := <["status" := SStr (lit "approved")]> pagamento]>
                 pagamentos in
             emit (edit_message_text
               [T "✅ PAGAMENTO APROVADO!

Seu acesso foi liberado com sucesso.

Agradecemos pela sua compra!"]
               [ [InlineKeyboardButton [T "🔙 Voltar ao Menu"]
                    (callback_data (lit "menu_principal"))] ]))
            (fun _ =>
               emit (edit_message_text
                 [T "❌ Ocorreu um erro ao verificar o pagamento. Por favor, tente novamente mais tarde."]
                 []))
    end.

End payment_handler.

Module main.

(** The handlers [main] registers for button presses. *)
Inductive callback_handler :=
| verificar_canal
| menu_callback
| criar_bot_callback
| meu_saldo_callback
| convite_callback
| admin_vip_callback
| como_funciona_callback
| configurar_mensagens
| configurar_midia
| configurar_texto
| configurar_planos
| configurar_canal
| processar_pagamento.

(** The pattern [^name], and [^name$]. *)
Definition prefixed (name : string) : regex :=
  Cat Bol (fold_right (fun c r => Cat (Chr c) r) Eps (lit name)).

Definition anchored (name : string) : regex :=
  Cat Bol (fold_right (fun c r => Cat (Chr c) r) Eol (lit name)).

(** The [CallbackQueryHandler]s, in the order of [dispatcher.add_handler]. *)
Definition callback_query_handlers : list (regex * callback_handler) :=
  [ (anchored "verificar_canal", verificar_canal);
    (anchored "menu_principal", menu_callback);
    (anchored "criar_bot", criar_bot_callback);
    (anchored "meu_saldo", meu_saldo_callback);
    (anchored "convite", convite_callback);
    (anchored "admin_vip", admin_vip_callback);
    (anchored "como_funciona", como_funciona_callback);
    (anchored "config_mensagens", configurar_mensagens);
    (anchored "config_midia", configurar_midia);
    (anchored "config_texto", configurar_texto);
    (anchored "config_planos", configurar_planos);
    (anchored "config_canal", configurar_canal);
    (prefixed "pagar_", processar_pagamento) ].

(** The handler that receives a button press: the first one whose pattern
    matches the callback data. *)
Definition dispatch_callback (data : str) : option callback_handler :=
  snd <$> List.find (fun h => re_match (fst h) data) callback_query_handlers.

End main.

(* ===================================================================== *)
(** * Part V.  Vocabulary of the properties                               *)
(* ===================================================================== *)

(** The update of a button press and of a text message. *)
Definition callback_query (user_id : Z) (data : str) : Update :=
  {| message_text := []; query_data := data; effective_user_id := user_id;
     chat_id_ := user_id; chat_title := []; chat_type := lit "private" |}.

Definition message (user_id chat : Z) (title type text : str) : Update :=
  {| message_text := text; query_data := []; effective_user_id := user_id;
     chat_id_ := chat; chat_title := title; chat_type := type |}.

(** The session after more events were sent, everything else as it was. *)
Definition sending (s : session) (es : list event) : session :=
  {| user_data := user_data s; bot_data := bot_data s; sent := sent s ++ es |}.

(** A session with nothing stored and nothing sent. *)
Definition fresh_session : session :=
  {| user_data := ∅; bot_data := ∅; sent := [] |}.

(** The free-text message handlers and the tag each one waits for. *)
Inductive free_text_handler :=
| h_verificar_token_bot
| h_processar_nome_plano
| h_processar_preco_plano.

Definition expected_tag (h : free_text_handler) : string :=
  match h with
  | h_verificar_token_bot => "bot_token"
  | h_processar_nome_plano => "plan_name"
  | h_processar_preco_plano => "plan_price"
  end.

Definition run_free_text `{UnicodeDB} (h : free_text_handler)
    : Update -> Handler unit :=
  match h with
  | h_verificar_token_bot => bot_handler.verificar_token_bot
  | h_processar_nome_plano => bot_handler.processar_nome_plano
  | h_processar_preco_plano => bot_handler.processar_preco_plano
  end.

(** The handlers behind the back and cancel buttons: [menu_principal],
    [config_mensagens], [config_planos] and [config_canal] in [main.py] and
    in the keyboards above. *)
Inductive navigation_action :=
| nav_menu_principal
| nav_config_mensagens
| nav_config_planos
| nav_config_canal.

Definition run_navigation (a : navigation_action) : Update -> Handler unit :=
  match a with
  | nav_menu_principal => menu_handler.menu_callback
  | nav_config_mensagens => bot_handler.configurar_mensagens
  | nav_config_planos => bot_handler.configurar_planos
  | nav_config_canal => bot_handler.configurar_canal
  end.

(** The callback data of the buttons that lead to each of them, and the
    handler [main] registers for it. *)
Definition navigation_target (a : navigation_action) : string :=
  match a with
  | nav_menu_principal => "menu_principal"
  | nav_config_mensagens => "config_mensagens"
  | nav_config_planos => "config_planos"
  | nav_config_canal => "config_canal"
  end.

Definition navigation_handler (a : navigation_action) : main.callback_handler :=
  match a with
  | nav_menu_principal => main.menu_callback
  | nav_config_mensagens => main.configurar_mensagens
  | nav_config_planos => main.configurar_planos
  | nav_config_canal => main.configurar_canal
  end.

(** The entry stored under [key] in the table [table] of [bot_data]. *)
Definition table_entry (s : session) (table : string) (key : list N)
    : option (gmap string scalar) :=
  match bot_data s !! table with
  | Some t => t !! key
  | None => None
  end.

(** The server accepts every call still to come on the connection. *)
Definition accepting (c : user.connection) : Prop :=
  Forall (fun b => b = false) (user.faults c).

(** The connection after one accepted round trip. *)
Definition answered (c : user.connection) : user.connection :=
  user.with_faults (tail (user.faults c)) c.

(** The ledger row [add_balance] inserts for [u]. *)
Definition ledger_row (n : Z) (u : user.User) (amount : spec_float)
    (type : string) (reference_id description : option string)
    : user.transaction :=
  {| user.tx_id := n; user.tx_user_id := user.telegram_id u;
     user.tx_amount := amount; user.tx_type := type;
     user.tx_status := "completed"; user.tx_reference_id := reference_id;
     user.tx_description := description |}.

(** The user object [save] leaves in memory: an INSERT sets the id. *)
Definition saved_user (u : user.User) (c : user.connection) : user.User :=
  match user.id u with
  | Some _ => u
  | None => user.set_id (user.next_user_id c) u
  end.

(** The value of a finite float as a whole number of units of [2^-1074],
    the smallest positive binary64. *)
Definition exact_units (x : spec_float) : option Z :=
  match x with
  | S754_zero _ => Some 0
  | S754_finite s m e =>
      if -1074 <=? e
      then Some ((if s then Zneg m else Zpos m) * 2 ^ (e + 1074))
      else None
  | _ => None
  end.

(** [after] is [before - amount] as real numbers: the words "decreases by
    exactly [amount]". *)
Definition decreased_by_exactly (before after amount : spec_float) : Prop :=
  exists b a d,
    exact_units before = Some b /\ exact_units after = Some a /\
    exact_units amount = Some d /\ a = b - d.

(** The columns of a row other than the balance are those of [u]. *)
Definition same_profile (u row : user.User) : Prop :=
  user.username row = user.username u /\
  user.first_name row = user.first_name u /\
  user.last_name row = user.last_name u /\
  user.is_admin row = user.is_admin u /\
  user.is_vip row = user.is_vip u /\
  user.vip_until row = user.vip_until u.

(** [after] is the table [before] in which the rows of id [i] were written:
    they keep their id and [telegram_id] and satisfy [written]; every other
    row is as it was. *)
Definition updated_rows (i : Z) (written : user.User -> Prop)
    (before after : list user.User) : Prop :=
  Forall2 (fun old new =>
             user.id new = user.id old /\
             user.telegram_id new = user.telegram_id old /\
             if bool_decide (user.id old = Some i) then written new
             else new = old)
    before after.

(** [after] is the table [before] followed by one new row, of id [n], for
    the Telegram user [tg], that satisfies [written]. *)
Definition inserted_row (n tg : Z) (written : user.User -> Prop)
    (before after : list user.User) : Prop :=
  exists row,
    after = before ++ [row] /\ user.id row = Some n /\
    user.telegram_id row = tg /\ written row.

(** [c] run from [s] returns [a] in state [s']. *)
Definition returns {S E A} (c : M S E A) (s : S) (a : A) (s' : S) : Prop :=
  c s = (inr a, s').

(** The words of the specification for the token format,
    [^\d+:[A-Za-z0-9_-]{35}$]: one or more decimal digits, a colon, exactly 35
    characters of the set, and then the end of the string, which [$] also
    finds just before a final newline. *)
Definition matches_token_format `{UnicodeDB} (token : str) : Prop :=
  exists digits suffix tail,
    token = digits ++ 58%N :: suffix ++ tail /\
    digits <> [] /\
    forallb Py_UNICODE_ISDECIMAL digits = true /\
    length suffix = 35%nat /\
    forallb helpers.token_char suffix = true /\
    (tail = [] \/ tail = [10%N]).


(** Sample data for the examples: a user with a balance of 10, stored under
    id 1, and a connection with an empty ledger. *)
Definition alice : user.User :=
  {| user.id := Some 1; user.telegram_id := 77; user.username := Some (lit "alice");
     user.first_name := None; user.last_name := None; user.is_admin := false;
     user.is_vip := false; user.vip_until := None;
     user.balance := F64.of_Z 10 |}.

Definition sample_connection (answers : list bool) : user.connection :=
  {| user.committed := {| user.users := [alice]; user.transactions := [] |};
     user.working := {| user.users := [alice]; user.transactions := [] |};
     user.next_user_id := 2; user.next_transaction_id := 1;
     user.faults := answers |}.

(** A user with a balance of 10^16, stored under id 1, and a connection whose
    table holds that user. *)
Definition rich : user.User := user.set_balance (F64.of_Z (10 ^ 16)) alice.

Definition rich_connection (answers : list bool) : user.connection :=
  {| user.committed := {| user.users := [rich]; user.transactions := [] |};
     user.working := {| user.users := [rich]; user.transactions := [] |};
     user.next_user_id := 2; user.next_transaction_id := 1;
     user.faults := answers |}.

(** A session waiting for [tag], with an empty plan under construction. *)
Definition waiting_session (tag : string) : session :=
  {| user_data := {[ "waiting_for" := VStr tag; "new_plan" := VDict ∅ ]};
     bot_data := ∅; sent := [] |}.

(** A token of the right shape: nine digits, a colon, 35 characters. *)
Definition sample_token : list N :=
  lit "123456789:ABCDefGhIJKlmNoPQRsTUVwxyZ012345678".

(** The example of the messages and of the specification: its suffix has 26
    characters. *)
Definition example_token : list N :=
  lit "123456789:ABCDefGhIJKlmNoPQRsTUVwxyZ".

(** ** Vocabulary of the further properties *)

(** The words of [validate_username], [^[a-zA-Z0-9_]{5,32}$]: five to 32
    characters of the set and then the end of the string, which [$] also
    finds just before a final newline. *)
Definition matches_username_format (username : list N) : Prop :=
  exists body tail,
    username = body ++ tail /\
    (5 <= length body <= 32)%nat /\
    forallb helpers.username_char body = true /\
    (tail = [] \/ tail = [10%N]).

(** An upper-case ASCII letter or an ASCII digit. *)
Definition code_char (c : N) : bool := is_ascii_upper c || is_ascii_digit c.

(** The units [format_duration] counts in: days per unit, singular and
    plural ([234] is the letter e with circumflex). *)
Definition duration_units : list (Z * list N * list N) :=
  [ (365, lit "ano", lit "anos");
    (30, lit "m" ++ [234%N] ++ lit "s", lit "meses");
    (1, lit "dia", lit "dias") ].

(** No row of the table has the id [n]. *)
Definition unused_id (n : Z) (rows : list user.User) : Prop :=
  Forall (fun row => user.id row <> Some n) rows.

(** The VIP period of [u] is running at [now]. *)
Definition vip_running (u : user.User) (now : Z) : Prop :=
  user.is_vip u = true /\ exists v, user.vip_until u = Some v /\ now < v.

(** The moment a new VIP period is counted from: the end of the running
    period, or the time of the call. *)
Definition vip_start (u : user.User) (now1 now2 : Z) (start : Z) : Prop :=
  (vip_running u now1 /\ user.vip_until u = Some start) \/
  (~ vip_running u now1 /\ start = now2).

(** More sample data: a user never stored, and [alice] as a VIP until
    day 20. *)
Definition bob : user.User :=
  {| user.id := None; user.telegram_id := 88; user.username := None;
     user.first_name := Some (lit "Bob"); user.last_name := None;
     user.is_admin := false; user.is_vip := false; user.vip_until := None;
     user.balance := F64.zero |}.

Definition vip_alice : user.User :=
  user.set_vip_until (Some (20 * day_us)) (user.set_is_vip true alice).

(** The callback data of a button, and of the buttons of a keyboard. *)
Definition button_target (b : button) : option (list N) :=
  match b with
  | InlineKeyboardButton _ (callback_data d) => Some d
  | InlineKeyboardButton _ (url _) => None
  end.

Definition keyboard_targets (keyboard : list (list button)) : list (list N) :=
  omap button_target (concat keyboard).

(** The keyboard of the last message sent. *)
Definition last_keyboard (s : session) : list (list button) :=
  match last (sent s) with
  | Some (reply_text _ k) | Some (edit_message_text _ k)
  | Some (edit_text _ k) => k
  | _ => []
  end.

(** The plans [s] holds: [context.user_data.get('planos', [])]. *)
Definition holds_plans (s : session) (planos : list (gmap string scalar))
    : Prop :=
  match user_data s !! "planos" with
  | None => planos = []
  | Some v => v = VList planos
  end.

(** The record [processar_pagamento] stores for a payment of the test
    plan. *)
Definition pending_payment (user_id plano_id : Z) (created_at : spec_float)
    : gmap string scalar :=
  {[ "user_id" := SInt user_id;
     "plano_id" := SInt plano_id;
     "valor" := SFloat (F64.of_decimal false 1990 (-2));
     "status" := SStr (lit "pending");
     "created_at" := SFloat created_at ]}.

(** The four steps of the add-plan conversation, in order: the button
    [adicionar_plano], the name, the price, and a duration button. *)
Definition add_plan_conversation `{UnicodeDB} (user_id : Z)
    (nome price duration_data : list N) : Handler unit :=
  bot_handler.adicionar_plano (callback_query user_id (lit "adicionar_plano")) ;;
  bot_handler.processar_nome_plano
    (message user_id user_id [] (lit "private") nome) ;;
  bot_handler.processar_preco_plano
    (message user_id user_id [] (lit "private") price) ;;
  bot_handler.processar_duracao_plano (callback_query user_id duration_data).

(** The plan the conversation builds. *)
Definition built_plan (nome : list N) (preco : spec_float) (duracao : Z)
    : gmap string scalar :=
  <["duracao" := SInt duracao]>
    (<["preco" := SFloat preco]> (<["nome" := SStr nome]> ∅)).

(** A plan with a name, a numeric price and a duration. *)
Definition complete_plan (p : gmap string scalar) : Prop :=
  is_Some (p !! "nome") /\
  (exists x, p !! "preco" = Some (SFloat x)) /\
  is_Some (p !! "duracao").

(** The line of the plans screen for the plan numbered [i]:
    ["{i}. {nome} - R$ {preco:.2f} - {duracao} dias"] and a newline. *)
Definition plan_line (i : Z) (nome : scalar) (preco : spec_float)
    (duracao : scalar) : list piece :=
  [V (SInt i); T ". "; V nome; T " - R$ "; V2f (SFloat preco); T " - ";
   V duracao; T " dias
"].

(** The text of the plans screen: the heading and the lines of the plans, or
    the heading and a notice when there is no plan. *)
Definition plans_screen_text (lines : list (list piece)) : list piece :=
  match lines with
  | [] => [T "💰 CONFIGURAÇÃO DE PLANOS

Nenhum plano configurado."]
  | _ => T "💰 CONFIGURAÇÃO DE PLANOS

Planos configurados:
" :: concat lines
  end.

(** [lines] holds one line per plan of [planos], in order, numbered from
    [first]; each shows the name, the price and the duration of its plan. *)
Definition lines_of_plans (first : Z) (planos : list (gmap string scalar))
    (lines : list (list piece)) : Prop :=
  length lines = length planos /\
  forall (j : nat) (p : gmap string scalar),
    planos !! j = Some p ->
    exists nome preco duracao,
      p !! "nome" = Some nome /\ p !! "preco" = Some (SFloat preco) /\
      p !! "duracao" = Some duracao /\
      lines !! j = Some (plan_line (first + Z.of_nat j) nome preco duracao).

(** The screens that ask for an upload or for a text. *)
Inductive input_screen :=
| screen_midia
| screen_texto (str_ : value -> list N).

Definition run_input_screen (a : input_screen) : Update -> Handler unit :=
  match a with
  | screen_midia => bot_handler.configurar_midia
  | screen_texto str_ => bot_handler.configurar_texto str_
  end.

(** The tag each of them leaves in [waiting_for]. *)
Definition input_tag (a : input_screen) : string :=
  match a with
  | screen_midia => "media_upload"
  | screen_texto _ => "welcome_text"
  end.

(* ===================================================================== *)
(** * Part VI.  Properties                                                *)
(* ===================================================================== *)

(** ** Floats *)

Lemma SFcompare_antisym (x y : spec_float) :
  SFcompare y x = CompOpp <$> SFcompare x y.
Proof.
  destruct x as [[]|[]| |[] mx ex], y as [[]|[]| |[] my ey]; simpl;
    try reflexivity.
  - rewrite (Z.compare_antisym ey ex).
    destruct (ey ?= ex); simpl; try reflexivity.
    now rewrite (Pos.compare_cont_antisym mx my Eq).
  - rewrite (Z.compare_antisym ey ex).
    destruct (ey ?= ex); simpl; try reflexivity.
    now rewrite (Pos.compare_cont_antisym mx my Eq).
Qed.

(** [x > y] is [y < x]. *)
Lemma gtb_ltb (x y : spec_float) : F64.gtb x y = F64.ltb y x.
Proof.
  unfold F64.gtb, F64.ltb, SFltb. rewrite (SFcompare_antisym x y).
  destruct (SFcompare x y) as [[]|]; reflexivity.
Qed.

(** [x <= y] excludes [y < x]. *)
Lemma leb_not_ltb (x y : spec_float) :
  F64.leb x y = true -> F64.ltb y x = false.
Proof.
  unfold F64.leb, F64.ltb, SFleb, SFltb. rewrite (SFcompare_antisym x y).
  destruct (SFcompare x y) as [[]|]; simpl; congruence.
Qed.

(** [x + (-y)] is [x - y], for all floats. *)
Lemma add_opp_sub (x y : spec_float) : F64.add x (F64.opp y) = F64.sub x y.
Proof.
  destruct x as [[]|[]| |[] mx ex], y as [[]|[]| |[] my ey]; reflexivity.
Qed.

(** ** The parsers on sample inputs *)

(** [float("0.5")], [float(" 1_0.5e-1 ")] (1.05), [float("-0")],
    [float("1e400")], [float("1e-400")], [float("NaN")], and strings
    [float] refuses. *)
Example py_float_samples `{UnicodeDB} :
  py_float (lit "0.5") = Some (S754_finite false 4503599627370496 (-53)) /\
  py_float (lit " 1_0.5e-1 ") = Some (S754_finite false 4728779608739021 (-52)) /\
  py_float (lit "-0") = Some (S754_zero true) /\
  py_float (lit "1e400") = Some (S754_infinity false) /\
  py_float (lit "1e-400") = Some (S754_zero false) /\
  py_float (lit "NaN") = Some S754_nan /\
  py_float (lit "19,90") = None /\
  py_float (lit "1__0") = None /\
  py_float (lit "1e") = None /\
  py_float (lit ".") = None /\
  py_float [] = None.
Proof. repeat split. Qed.

(** Digits and spaces outside ASCII are read through the database. *)
Example py_float_arabic_indic :
  @py_float arabic_indic_db [1633%N; 1634%N; 160%N] = Some (F64.of_Z 12) /\
  @py_float ascii_only_db [1633%N; 1634%N; 160%N] = None.
Proof. split; reflexivity. Qed.

Example py_int_samples `{UnicodeDB} :
  py_int (lit "30") = Some 30 /\
  py_int (lit " -0_7 ") = Some (-7) /\
  py_int [] = None /\
  py_int (lit "1_") = None /\
  py_int (lit "4 2") = None.
Proof. repeat split. Qed.

(** [float == int] compares exactly: [2.0**53 == 2**53 + 1] is [False]
    although [float(2**53 + 1)] is [2.0**53]. *)
Example scalar_eq_int_samples :
  scalar_eq_int (SFloat (F64.of_Z (2 ^ 53))) (2 ^ 53) = true /\
  scalar_eq_int (SFloat (F64.of_Z (2 ^ 53))) (2 ^ 53 + 1) = false /\
  F64.of_Z (2 ^ 53 + 1) = F64.of_Z (2 ^ 53) /\
  scalar_eq_int (SFloat (F64.of_decimal false 5 (-1))) 0 = false /\
  scalar_eq_int (SFloat (F64.of_Z (-3))) (-3) = true /\
  scalar_eq_int (SFloat (S754_zero true)) 0 = true /\
  scalar_eq_int (SFloat S754_nan) 0 = false.
Proof. repeat split. Qed.

Example str_split_samples :
  str_split 95 (lit "plan_duration_30")
  = [lit "plan"; lit "duration"; lit "30"] /\
  str_split 95 (lit "pagar_") = [lit "pagar"; []] /\
  str_of_int 1700000000 = lit "1700000000".
Proof. repeat split. Qed.

(** ** Text *)

Lemma str_startswith_app (p s : list N) : str_startswith p (p ++ s) = true.
Proof. induction p; simpl; [reflexivity|]. now rewrite N.eqb_refl. Qed.

Lemma str_split_nonempty (sep : N) (s : list N) : str_split sep s <> [].
Proof.
  destruct s as [|c s]; simpl; [discriminate|].
  destruct (c =? sep)%N; [discriminate|].
  destruct (str_split sep s); discriminate.
Qed.

Lemma str_split_app (sep : N) (a b : list N) :
  Forall (fun c => c <> sep) a ->
  str_split sep (a ++ sep :: b) = a :: str_split sep b.
Proof.
  induction 1 as [|c a Hc _ IH]; simpl.
  - now rewrite N.eqb_refl.
  - apply N.eqb_neq in Hc. rewrite Hc. simpl in IH. now rewrite IH.
Qed.


(** ** The matcher on the shapes of [token_pattern] *)

(** [[class]+]: a non-empty run of the class, then the continuation. *)
Lemma plus_loop_class (p : N -> bool) (k : bool -> list N -> bool)
    (s : list N) :
  forall (fuel : nat) (b : bool),
    (length s < fuel)%nat ->
    plus_loop (exec (Cls p)) k fuel b s = true <->
    exists ds rest,
      s = ds ++ rest /\ ds <> [] /\ forallb p ds = true /\ k false rest = true.
Proof.
  induction s as [|a s IH]; intros fuel b Hfuel;
    (destruct fuel as [|fuel]; [simpl in Hfuel; lia|]); simpl.
  - split; [discriminate|].
    intros (ds & rest & Heq & Hne & _). symmetry in Heq.
    apply app_eq_nil in Heq as [-> _]. congruence.
  - assert (Hlt : (length s <? S (length s))%nat = true)
      by (apply Nat.ltb_lt; lia).
    rewrite Hlt. simpl in Hfuel.
    rewrite andb_true_iff, orb_true_iff, (IH fuel false) by lia.
    split.
    + intros [Hp [(ds & rest & -> & _ & Hds & Hk) | Hk]].
      * exists (a :: ds), rest. simpl. rewrite Hp.
        repeat split; try discriminate; assumption.
      * exists [a], s. simpl. rewrite Hp.
        repeat split; try discriminate; assumption.
    + intros (ds & rest & Heq & Hne & Hds & Hk).
      destruct ds as [|d ds]; [congruence|].
      simpl in Heq, Hds. injection Heq as <- ->.
      apply andb_true_iff in Hds as [Hp Hds]. split; [assumption|].
      destruct ds as [|d' ds].
      * right. assumption.
      * left. exists (d' :: ds), rest.
        repeat split; try discriminate; assumption.
Qed.

(** [[class]{n}]: exactly [n] characters of the class. *)
Lemma rep_loop_class (p : N -> bool) (k : bool -> list N -> bool) (n : nat) :
  (forall b1 b2 s, k b1 s = k b2 s) ->
  forall (b : bool) (s : list N),
    rep_loop (exec (Cls p)) k n b s = true <->
    exists pre rest,
      s = pre ++ rest /\ length pre = n /\ forallb p pre = true /\
      k false rest = true.
Proof.
  intros Hk. induction n as [|n IH]; intros b s; simpl.
  - rewrite (Hk b false). split.
    + intros Hrest. exists [], s. repeat split; assumption.
    + intros (pre & rest & -> & Hlen & _ & Hrest).
      destruct pre; [assumption|discriminate].
  - destruct s as [|a s].
    + split; [discriminate|].
      intros (pre & rest & Heq & Hlen & _).
      destruct pre; discriminate.
    + rewrite andb_true_iff, IH. split.
      * intros [Hp (pre & rest & -> & Hlen & Hpre & Hrest)].
        exists (a :: pre), rest. simpl. rewrite Hp, Hlen.
        repeat split; assumption.
      * intros (pre & rest & Heq & Hlen & Hpre & Hrest).
        destruct pre as [|c pre]; [discriminate|].
        simpl in Heq, Hlen, Hpre. injection Heq as <- ->.
        injection Hlen as Hlen.
        apply andb_true_iff in Hpre as [Hp Hpre]. split; [assumption|].
        exists pre, rest. repeat split; assumption.
Qed.

(** [$] as the last item of a pattern. *)
Lemma exec_Eol_end (b : bool) (s : list N) :
  exec Eol b s (fun _ _ => true) = true <-> s = [] \/ s = [10%N].
Proof.
  destruct s as [|a [|a' s]].
  - simpl. intuition.
  - destruct (N.eq_dec a 10%N) as [->|Hne]; [simpl; intuition|].
    split; [|intros [|]; congruence].
    intros Hex. exfalso. apply Hne. clear Hne.
    destruct a as [|p]; [discriminate|].
    do 4 (try destruct p as [p|p|]); try discriminate; reflexivity.
  - split; [|intros [|]; discriminate].
    intros Hex. exfalso.
    destruct a as [|p]; [discriminate|].
    do 4 (try destruct p as [p|p|]); discriminate.
Qed.

(** The validator decides the format of the specification. *)
Lemma is_valid_bot_token_format `{UnicodeDB} (token : list N) :
  helpers.is_valid_bot_token token = true <-> matches_token_format token.
Proof.
  unfold helpers.is_valid_bot_token, re_match, helpers.token_pattern,
    matches_token_format.
  change (plus_loop (exec (Cls Py_UNICODE_ISDECIMAL))
            (fun b s' =>
               exec (Cat (Chr 58) (Cat (Rep 35 (Cls helpers.token_char)) Eol))
                 b s' (fun _ _ => true))
            (S (length token)) true token = true <->
          exists digits suffix tail,
            token = digits ++ 58%N :: suffix ++ tail /\
            digits <> [] /\
            forallb Py_UNICODE_ISDECIMAL digits = true /\
            length suffix = 35%nat /\
            forallb helpers.token_char suffix = true /\
            (tail = [] \/ tail = [10%N])).
  rewrite plus_loop_class by lia.
  split.
  - intros (ds & rest & -> & Hne & Hds & Hrest).
    destruct rest as [|c rest]; [discriminate|].
    change (((c =? 58)%N
             && rep_loop (exec (Cls helpers.token_char))
                  (fun b s' => exec Eol b s' (fun _ _ => true)) 35 false rest)
            = true) in Hrest.
    apply andb_true_iff in Hrest as [Hc Hrest]. apply N.eqb_eq in Hc. subst c.
    apply rep_loop_class in Hrest as (pre & tail & -> & Hlen & Hpre & Htail).
    2:{ intros b1 b2 s. destruct s as [|a [|a' s]]; reflexivity. }
    apply exec_Eol_end in Htail.
    exists ds, pre, tail. repeat split; assumption.
  - intros (ds & sfx & tail & -> & Hne & Hds & Hlen & Hsfx & Htail).
    exists ds, (58%N :: sfx ++ tail). repeat split; try assumption.
    change (((58 =? 58)%N
             && rep_loop (exec (Cls helpers.token_char))
                  (fun b s' => exec Eol b s' (fun _ _ => true)) 35 false
                  (sfx ++ tail)) = true).
    rewrite N.eqb_refl. cbn [andb].
    apply rep_loop_class.
    { intros b1 b2 s. destruct s as [|a [|a' s]]; reflexivity. }
    exists sfx, tail. repeat split; try assumption.
    apply exec_Eol_end. assumption.
Qed.

(** C7 (amended).  The token validator accepts exactly the strings made of
    one or more decimal digits, a colon and 35 characters of [A-Za-z0-9_-],
    optionally followed by one final newline (Python's reading of the pattern
    [^\d+:[A-Za-z0-9_-]{35}$] under [re.match]).  It accepts a nine-digit
    identifier followed by a colon and a 35-character suffix, and rejects
    ["123:short"], every string that starts with ["abc:"], and the example
    ["123456789:ABCDefGhIJKlmNoPQRsTUVwxyZ"], whose suffix has 26 characters. *)
Theorem C7_token_validator `{UnicodeDB} :
  (forall token : list N,
     helpers.is_valid_bot_token token = true <-> matches_token_format token) /\
  helpers.is_valid_bot_token sample_token = true /\
  helpers.is_valid_bot_token (lit "123:short") = false /\
  (forall rest : list N,
     helpers.is_valid_bot_token (lit "abc:" ++ rest) = false) /\
  helpers.is_valid_bot_token example_token = false /\
  length example_token = (10 + 26)%nat.
Proof.
  split; [exact is_valid_bot_token_format|].
  repeat split; try reflexivity.
Qed.

(** C7 (counterexample).  No Unicode database makes the validator accept the
    literal ["123456789:ABCDefGhIJKlmNoPQRsTUVwxyZ"] that the claim says it
    accepts. *)
Lemma C7_example_token_rejected :
  ~ exists U : UnicodeDB,
      @helpers.is_valid_bot_token U (lit "123456789:ABCDefGhIJKlmNoPQRsTUVwxyZ")
      = true.
Proof. intros [U HU]. vm_compute in HU. discriminate. Qed.

(** ** [models/user.py]: runs in which the server accepts every call *)

Lemma returns_bind {S E A B} (c : M S E A) (k : A -> M S E B)
    (s s1 s2 : S) (a : A) (b : B) :
  returns c s a s1 -> returns (k a) s1 b s2 -> returns (bind c k) s b s2.
Proof. unfold returns, bind. now intros -> ->. Qed.

Lemma returns_try {S E A} (c : M S E A) (h : E -> M S E A) (s s' : S) (a : A) :
  returns c s a s' -> returns (try_except c h) s a s'.
Proof. unfold returns, try_except. now intros ->. Qed.

Lemma returns_ret {S E A} (a : A) (s : S) : returns (ret (E := E) a) s a s.
Proof. reflexivity. Qed.

(** What [server_call] does with the next answer of the server. *)
Lemma server_call_head (u : user.User) (c : user.connection) :
  user.server_call (u, c)
  = match user.faults c with
    | [] => (inr tt, (u, c))
    | b :: rest =>
        (if b then inl user.mysql_error else inr tt,
         (u, user.with_faults rest c))
    end.
Proof.
  unfold user.server_call, bind, user.conn, user.set_conn, modify, raise, ret.
  cbn [fst snd].
  destruct (user.faults c) as [|[] rest]; reflexivity.
Qed.

Lemma returns_server_call (u : user.User) (c : user.connection) :
  accepting c -> returns user.server_call (u, c) tt (u, answered c).
Proof.
  unfold returns, accepting, answered. rewrite server_call_head.
  destruct c as [cm wk nu nt fs]; cbn [user.faults].
  intros Hok. destruct Hok as [|b fs Hb Hfs]; [reflexivity|].
  now rewrite Hb.
Qed.

Lemma accepting_answered (c : user.connection) :
  accepting c -> accepting (answered c).
Proof.
  unfold accepting, answered. cbn [user.faults user.with_faults].
  intros Hok. destruct Hok; [constructor|assumption].
Qed.

(** Closes [accepting c'] when [c'] differs from an accepting connection by
    answered calls and by fields other than [faults]. *)
Ltac accepted :=
  repeat first
    [ match goal with H : accepting _ |- accepting _ => exact H end
    | apply accepting_answered ].

Lemma commit_accepted (u : user.User) (c : user.connection) :
  accepting c ->
  returns user.commit (u, c) tt
    (u, user.with_committed (user.working c) (answered c)).
Proof.
  intros Hok. unfold user.commit, user.set_conn.
  eapply returns_bind; [apply returns_server_call; accepted|].
  reflexivity.
Qed.

(** [save] of a user without id on an accepting connection. *)
Lemma save_insert_accepted (u : user.User) (c : user.connection) :
  user.id u = None -> accepting c ->
  exists c',
    returns user.save (u, c) user.PTrue (user.set_id (user.next_user_id c) u, c') /\
    user.users (user.working c')
    = user.users (user.working c) ++ [user.set_id (user.next_user_id c) u] /\
    user.transactions (user.working c') = user.transactions (user.working c) /\
    user.committed c' = user.working c' /\
    user.next_user_id c' = user.next_user_id c + 1 /\
    accepting c'.
Proof.
  intros Hid Hok. unfold user.save, user.cursor, user.self.
  eexists. split.
  - apply returns_try.
    eapply returns_bind; [apply returns_server_call; accepted|cbn beta].
    eapply returns_bind; [reflexivity|cbn beta iota; cbn [fst]].
    rewrite Hid.
    eapply returns_bind.
    { unfold user.execute_insert_user, user.set_conn, user.set_self,
        user.conn.
      eapply returns_bind.
      { eapply returns_bind; [apply returns_server_call; accepted|cbn beta].
        eapply returns_bind; [reflexivity|cbn beta iota].
        eapply returns_bind; [reflexivity|apply returns_ret]. }
      reflexivity. }
    eapply returns_bind; [apply commit_accepted; accepted|].
    apply returns_ret.
  - cbn [fst snd]. repeat split. accepted.
Qed.

(** [save] of a user with an id on an accepting connection. *)
Lemma save_update_accepted (u : user.User) (c : user.connection) (i : Z) :
  user.id u = Some i -> accepting c ->
  exists c',
    returns user.save (u, c) user.PTrue (u, c') /\
    user.users (user.working c')
    = user.update_users u i (user.users (user.working c)) /\
    user.transactions (user.working c') = user.transactions (user.working c) /\
    user.committed c' = user.working c' /\
    user.next_user_id c' = user.next_user_id c /\
    accepting c'.
Proof.
  intros Hid Hok. unfold user.save, user.cursor, user.self.
  eexists. split.
  - apply returns_try.
    eapply returns_bind; [apply returns_server_call; accepted|cbn beta].
    eapply returns_bind; [reflexivity|cbn beta iota; cbn [fst]].
    rewrite Hid.
    eapply returns_bind.
    { unfold user.execute_update_user, user.set_conn.
      eapply returns_bind; [apply returns_server_call; accepted|].
      reflexivity. }
    eapply returns_bind; [apply commit_accepted; accepted|].
    apply returns_ret.
  - cbn [fst snd]. repeat split. accepted.
Qed.

(** [save] on an accepting connection, with or without id. *)
Lemma save_accepted_user (u : user.User) (c : user.connection) :
  accepting c ->
  exists c',
    returns user.save (u, c) user.PTrue (saved_user u c, c') /\
    user.transactions (user.working c') = user.transactions (user.working c) /\
    user.committed c' = user.working c' /\
    accepting c' /\
    (forall i, user.id u = Some i ->
       user.users (user.working c')
       = user.update_users u i (user.users (user.working c))) /\
    (user.id u = None ->
     user.users (user.working c')
     = user.users (user.working c) ++ [user.set_id (user.next_user_id c) u]).
Proof.
  intros Hok. unfold saved_user. destruct (user.id u) as [i|] eqn:Hid.
  - destruct (save_update_accepted u c i Hid Hok)
      as (c' & Hrun & Husers & Htx & Hcommit & _ & Hok').
    exists c'. split; [exact Hrun|]. split; [exact Htx|].
    split; [exact Hcommit|].
    split; [exact Hok'|]. split; [|discriminate].
    now intros j [= <-].
  - destruct (save_insert_accepted u c Hid Hok)
      as (c' & Hrun & Husers & Htx & Hcommit & _ & Hok').
    exists c'. split; [exact Hrun|]. split; [exact Htx|].
    split; [exact Hcommit|].
    split; [exact Hok'|]. split; [discriminate|].
    intros _. exact Husers.
Qed.

(** What [UPDATE users SET ... WHERE id = i] writes, row by row. *)
Lemma update_users_rows (u : user.User) (i : Z) (rows : list user.User) :
  updated_rows i
    (fun row => user.balance row = user.balance u /\ same_profile u row)
    rows (user.update_users u i rows).
Proof.
  unfold updated_rows, user.update_users.
  induction rows as [|row rows IH]; [constructor|].
  cbn [fmap list_fmap]. constructor; [|exact IH].
  destruct (bool_decide (user.id row = Some i)); repeat split.
Qed.

Lemma update_users_written (u : user.User) (i : Z) (rows : list user.User)
    (written : user.User -> Prop) :
  (forall row, user.balance row = user.balance u -> same_profile u row ->
               written row) ->
  updated_rows i written rows (user.update_users u i rows).
Proof.
  intros Hw. pose proof (update_users_rows u i rows) as Hrows.
  unfold updated_rows in *.
  induction Hrows as [|old new olds news (Hid & Htg & Hrow) _ IH];
    constructor; [|exact IH].
  split; [exact Hid|]. split; [exact Htg|].
  destruct (bool_decide (user.id old = Some i)); [|exact Hrow].
  destruct Hrow as [Hbal Hprof]. now apply Hw.
Qed.

(** [add_balance] on an accepting connection. *)
Lemma add_balance_accepted (u : user.User) (c : user.connection)
    (amount : spec_float) (type : string)
    (reference_id description : option string) :
  accepting c ->
  let u1 := user.set_balance (F64.add (user.balance u) amount) u in
  exists c',
    returns (user.add_balance amount type reference_id description) (u, c)
      (user.PInt (user.next_transaction_id c)) (saved_user u1 c, c') /\
    user.transactions (user.working c')
    = user.transactions (user.working c)
      ++ [ledger_row (user.next_transaction_id c) u amount type reference_id
            description] /\
    user.committed c' = user.working c' /\
    (forall i, user.id u = Some i ->
       user.users (user.working c')
       = user.update_users u1 i (user.users (user.working c))) /\
    (user.id u = None ->
     user.users (user.working c')
     = user.users (user.working c) ++ [user.set_id (user.next_user_id c) u1]).
Proof.
  intros Hok u1. unfold user.add_balance, user.cursor, user.self, user.set_self.
  set (c2 :=
         user.with_next_transaction_id (user.next_transaction_id c + 1)
           (user.with_working
              {| user.users := user.users (user.working (answered (answered c)));
                 user.transactions :=
                   user.transactions (user.working (answered (answered c)))
                   ++ [ledger_row (user.next_transaction_id c) u amount type
                         reference_id description] |}
              (answered (answered c)))).
  assert (Hok2 : accepting c2) by (subst c2; accepted).
  destruct (save_accepted_user u1 c2 Hok2)
    as (c' & Hsave & Htx & Hcommit & Hok' & Hupdate & Hinsert).
  exists (user.with_committed (user.working c') (answered c')). split.
  - apply returns_try.
    eapply returns_bind; [apply returns_server_call; accepted|cbn beta].
    eapply returns_bind; [reflexivity|cbn beta iota; cbn [fst snd]].
    eapply returns_bind; [reflexivity|cbn beta iota; cbn [fst snd]].
    eapply returns_bind.
    { unfold user.execute_insert_transaction, user.set_conn, user.conn.
      eapply returns_bind; [apply returns_server_call; accepted|cbn beta].
      eapply returns_bind; [reflexivity|cbn beta iota; cbn [fst snd]].
      eapply returns_bind; [reflexivity|apply returns_ret]. }
    cbn beta.
    eapply returns_bind; [exact Hsave|].
    eapply returns_bind; [apply commit_accepted; accepted|].
    apply returns_ret.
  - cbn [user.working user.committed user.with_committed answered
           user.with_faults].
    rewrite Htx. split; [reflexivity|]. split; [reflexivity|]. split.
    + intros i Hi. apply (Hupdate i Hi).
    + intros Hnone. apply (Hinsert Hnone).
Qed.

(** C1 (amended).  [remove_balance(amount)] returns [False] and changes
    neither the user nor the store whenever [amount > balance].  Whenever
    [amount <= balance] and the server accepts every call, it returns the id
    of the new ledger row and the balance becomes the float
    [balance - amount], Python's binary64 subtraction, in memory and in the
    user's stored row: for a user with an id the rows of that id are written
    with the new balance and every other row is left as it was, and for a
    user without id one new row with the new balance is inserted.  The
    ledger is the former ledger followed by exactly one new row, for that
    user, of amount [-amount]; all of it is committed. *)
Theorem C1_remove_balance (u : user.User) (c : user.connection)
    (amount : spec_float) (type : string)
    (reference_id description : option string) :
  (F64.gtb amount (user.balance u) = true ->
   user.remove_balance amount type reference_id description (u, c)
   = (inr user.PFalse, (u, c)) /\
   user.truthy user.PFalse = false) /\
  (F64.leb amount (user.balance u) = true ->
   accepting c ->
   exists u' c',
     user.remove_balance amount type reference_id description (u, c)
     = (inr (user.PInt (user.next_transaction_id c)), (u', c')) /\
     user.balance u' = F64.sub (user.balance u) amount /\
     user.transactions (user.working c')
     = user.transactions (user.working c)
       ++ [ledger_row (user.next_transaction_id c) u (F64.opp amount) type
             reference_id description] /\
     user.committed c' = user.working c' /\
     (forall i, user.id u = Some i ->
        updated_rows i
          (fun row =>
             user.balance row = F64.sub (user.balance u) amount /\
             same_profile u row)
          (user.users (user.working c)) (user.users (user.working c'))) /\
     (user.id u = None ->
      inserted_row (user.next_user_id c) (user.telegram_id u)
        (fun row =>
           user.balance row = F64.sub (user.balance u) amount /\
           same_profile u row)
        (user.users (user.working c)) (user.users (user.working c')))).
Proof.
  split.
  - intros Hgt. rewrite gtb_ltb in Hgt.
    unfold user.remove_balance, bind, user.self. cbn [fst]. rewrite Hgt.
    split; reflexivity.
  - intros Hle Hok. apply leb_not_ltb in Hle.
    unfold user.remove_balance, bind, user.self. cbn [fst]. rewrite Hle.
    destruct (add_balance_accepted u c (F64.opp amount) type reference_id
                description Hok)
      as (c' & Hrun & Htx & Hcommit & Hupdate & Hinsert).
    set (u1 := user.set_balance
                 (F64.add (user.balance u) (F64.opp amount)) u) in *.
    assert (Hbal : user.balance u1 = F64.sub (user.balance u) amount)
      by apply add_opp_sub.
    exists (saved_user u1 c), c'. rewrite Hrun.
    split; [reflexivity|]. split.
    { unfold saved_user. destruct (user.id u1); exact Hbal. }
    split; [exact Htx|]. split; [exact Hcommit|]. split.
    + intros i Hi. rewrite (Hupdate i Hi). apply update_users_written.
      intros row Hrow Hprofile. split; [now rewrite Hrow|exact Hprofile].
    + intros Hnone. rewrite (Hinsert Hnone).
      exists (user.set_id (user.next_user_id c) u1).
      split; [reflexivity|]. split; [reflexivity|]. split; [reflexivity|].
      split; [exact Hbal|]. repeat split.
Qed.

(** C1 (witness): a balance of 10; removing 14 fails; removing 4 succeeds
    with two accepted calls already scripted, and there the new balance, 6,
    is the old one decreased by exactly 4. *)
Lemma C1_remove_balance_witness :
  (user.remove_balance (F64.of_Z 14) "withdrawal" None None
     (alice, sample_connection [])
   = (inr user.PFalse, (alice, sample_connection [])) /\
   user.truthy user.PFalse = false) /\
  (exists u' c',
     user.remove_balance (F64.of_Z 4) "withdrawal" None None
       (alice, sample_connection [false; false])
     = (inr (user.PInt 1), (u', c')) /\
     user.balance u' = F64.sub (F64.of_Z 10) (F64.of_Z 4) /\
     user.transactions (user.working c')
     = [ledger_row 1 alice (F64.opp (F64.of_Z 4)) "withdrawal" None None] /\
     user.committed c' = user.working c' /\
     (forall i, user.id alice = Some i ->
        updated_rows i
          (fun row =>
             user.balance row = F64.sub (F64.of_Z 10) (F64.of_Z 4) /\
             same_profile alice row)
          [alice] (user.users (user.working c'))) /\
     (user.id alice = None ->
      inserted_row 2 77
        (fun row =>
           user.balance row = F64.sub (F64.of_Z 10) (F64.of_Z 4) /\
           same_profile alice row)
        [alice] (user.users (user.working c')))) /\
  F64.sub (F64.of_Z 10) (F64.of_Z 4) = F64.of_Z 6 /\
  decreased_by_exactly (F64.of_Z 10) (F64.sub (F64.of_Z 10) (F64.of_Z 4))
    (F64.of_Z 4).
Proof.
  split; [|split; [|split]].
  - apply (proj1 (C1_remove_balance alice (sample_connection [])
                    (F64.of_Z 14) "withdrawal" None None)).
    reflexivity.
  - apply (proj2 (C1_remove_balance alice (sample_connection [false; false])
                    (F64.of_Z 4) "withdrawal" None None)).
    + reflexivity.
    + repeat constructor.
  - reflexivity.
  - exists (10 * 2 ^ 1074), (6 * 2 ^ 1074), (4 * 2 ^ 1074).
    repeat split; vm_compute; reflexivity.
Defined.

(** C1 (counterexample).  A balance of 10^16 and a withdrawal of 1, with
    [1 <= 10^16] and a server that accepts every call: the call returns the
    id of the new ledger row, a row of amount -1 is committed, and the
    balance is still 10^16, in memory and in the stored row: it has not
    decreased by exactly 1.  (10^16 - 1 is not a binary64 value; the
    subtraction rounds it back to 10^16.) *)
Lemma C1_balance_not_decreased :
  let before := (rich, rich_connection []) in
  let run := user.remove_balance (F64.of_Z 1) "withdrawal" None None before in
  F64.leb (F64.of_Z 1) (user.balance rich) = true /\
  accepting (rich_connection []) /\
  fst run = inr (user.PInt 1) /\
  user.transactions (user.committed (snd (snd run)))
  = [ledger_row 1 rich (F64.opp (F64.of_Z 1)) "withdrawal" None None] /\
  user.balance (fst (snd run)) = user.balance rich /\
  user.balance <$> user.users (user.committed (snd (snd run)))
  = [user.balance rich] /\
  ~ decreased_by_exactly (user.balance rich) (user.balance (fst (snd run)))
      (F64.of_Z 1).
Proof.
  cbv zeta.
  split; [reflexivity|]. split; [constructor|].
  split; [vm_compute; reflexivity|]. split; [vm_compute; reflexivity|].
  split; [vm_compute; reflexivity|]. split; [vm_compute; reflexivity|].
  intros (b & a & d & Hb & Ha & Hd & Heq).
  vm_compute in Hb, Ha, Hd.
  injection Hb as <-. injection Ha as <-. injection Hd as <-.
  vm_compute in Heq. discriminate Heq.
Qed.

(** C2 (amended).  When the INSERT of the ledger row raises, [add_balance]
    returns [False] and rolls the connection back, so that neither a ledger
    row nor a balance update is stored; the in-memory [self.balance] is not
    restored: it keeps the value [balance + amount].  When [conn.cursor()]
    itself raises, nothing has been changed yet, in memory or in the store. *)
Theorem C2_add_balance_failed_write (u : user.User) (c : user.connection)
    (amount : spec_float) (type : string)
    (reference_id description : option string) (rest : list bool) :
  (user.faults c = false :: true :: rest ->
   exists c',
     user.add_balance amount type reference_id description (u, c)
     = (inr user.PFalse,
        (user.set_balance (F64.add (user.balance u) amount) u, c')) /\
     user.truthy user.PFalse = false /\
     user.committed c' = user.committed c /\
     user.working c' = user.committed c) /\
  (user.faults c = true :: rest ->
   exists c',
     user.add_balance amount type reference_id description (u, c)
     = (inr user.PFalse, (u, c')) /\
     user.committed c' = user.committed c /\
     user.working c' = user.committed c).
Proof.
  destruct c as [cm wk nu nt fs]. cbn [user.faults].
  split; intros ->; eexists; (split; [reflexivity|]); repeat split.
Qed.

(** C2 (witness): a deposit of 5 whose INSERT is refused, and one whose
    cursor is refused. *)
Lemma C2_add_balance_failed_write_witness :
  (exists c',
     user.add_balance (F64.of_Z 5) "deposit" None None
       (alice, sample_connection [false; true])
     = (inr user.PFalse,
        (user.set_balance (F64.add (user.balance alice) (F64.of_Z 5)) alice,
         c')) /\
     user.truthy user.PFalse = false /\
     user.committed c' = user.committed (sample_connection [false; true]) /\
     user.working c' = user.committed (sample_connection [false; true])) /\
  (exists c',
     user.add_balance (F64.of_Z 5) "deposit" None None
       (alice, sample_connection [true])
     = (inr user.PFalse, (alice, c')) /\
     user.committed c' = user.committed (sample_connection [true]) /\
     user.working c' = user.committed (sample_connection [true])).
Proof.
  split.
  - apply (proj1 (C2_add_balance_failed_write alice
                    (sample_connection [false; true]) (F64.of_Z 5) "deposit"
                    None None [])).
    reflexivity.
  - apply (proj2 (C2_add_balance_failed_write alice
                    (sample_connection [true]) (F64.of_Z 5) "deposit"
                    None None [])).
    reflexivity.
Defined.

(** C2 (counterexample).  A balance of 10, a deposit of 5, the INSERT
    refused: the call returns [False] and the store is unchanged, but
    [self.balance] is 15 afterwards, not the 10 it was before the call. *)
Lemma C2_balance_not_rolled_back :
  let before := (alice, sample_connection [false; true]) in
  let run := user.add_balance (F64.of_Z 5) "deposit" None None before in
  fst run = inr user.PFalse /\
  user.committed (snd (snd run)) = user.committed (snd before) /\
  user.balance (fst before) = F64.of_Z 10 /\
  user.balance (fst (snd run)) = F64.of_Z 15 /\
  user.balance (fst (snd run)) <> user.balance (fst before).
Proof. vm_compute. repeat split. discriminate. Qed.

(** ** The handlers *)

Lemma eq_str_true (v : option value) (tag : string) :
  eq_str v tag = true <-> v = Some (VStr tag).
Proof.
  unfold eq_str, VStr. split.
  - destruct v as [[[t| |]| |]|]; try discriminate.
    intros Ht. apply bool_decide_eq_true in Ht. now subst.
  - intros ->. now apply bool_decide_eq_true.
Qed.

Lemma eq_str_false (v : option value) (tag : string) :
  eq_str v tag = false <-> v <> Some (VStr tag).
Proof.
  rewrite <- eq_str_true. destruct (eq_str v tag); split; congruence.
Qed.

(** C3 (what the code does).  In a session waiting for [bot_token] the
    handler clears the tag before it looks at the text.  On a text that does
    not match the token format it replies with the invalid-token message and
    the tag is absent afterwards: the session does not stay in [bot_token].
    On a text that matches, the tag is absent afterwards as well and the
    handler sends the processing message and edits it into the success
    screen of the simulated bot.  In both cases [user_data] is the former
    one without [waiting_for] and [bot_data] is unchanged: nothing is
    stored, no ManagedBot either. *)
Theorem C3_verificar_token_bot `{UnicodeDB} (update : Update) (s : session) :
  user_data s !! "waiting_for" = Some (VStr "bot_token") ->
  (helpers.is_valid_bot_token (message_text update) = false ->
   exists s',
     bot_handler.verificar_token_bot update s = (inr tt, s') /\
     user_data s' !! "waiting_for" = None /\
     sent s' = sent s ++ [reply_text bot_handler.invalid_token_text []] /\
     user_data s' = delete "waiting_for" (user_data s) /\
     bot_data s' = bot_data s /\
     forall k, k <> "waiting_for" -> user_data s' !! k = user_data s !! k) /\
  (helpers.is_valid_bot_token (message_text update) = true ->
   exists s',
     bot_handler.verificar_token_bot update s = (inr tt, s') /\
     user_data s' !! "waiting_for" = None /\
     sent s' = sent s ++ [reply_text bot_handler.processing_text [];
                          edit_text bot_handler.success_text
                            bot_handler.success_keyboard] /\
     user_data s' = delete "waiting_for" (user_data s) /\
     bot_data s' = bot_data s /\
     forall k, k <> "waiting_for" -> user_data s' !! k = user_data s !! k).
Proof.
  intros Htag. apply eq_str_true in Htag.
  unfold helpers.is_valid_bot_token, bot_handler.verificar_token_bot,
    user_data_get, user_data_pop, set_user_data, emit, modify, try_except,
    bind, get_state, ret.
  cbn beta iota. rewrite Htag. cbn [negb user_data bot_data sent].
  split; intros Hvalid; rewrite Hvalid; cbn [negb user_data bot_data sent];
    eexists; (split; [reflexivity|]); cbn [user_data bot_data sent].
  - split; [apply lookup_delete_eq|]. repeat split.
    intros k Hk. now apply lookup_delete_ne.
  - split; [apply lookup_delete_eq|]. rewrite <- app_assoc. repeat split.
    intros k Hk. now apply lookup_delete_ne.
Qed.

(** C3 (witness): a session waiting for [bot_token] that holds a plan under
    construction; ["123:short"] is refused and [sample_token] accepted, and
    the tag is absent after both. *)
Lemma C3_verificar_token_bot_witness :
  (exists s',
     @bot_handler.verificar_token_bot ascii_only_db
       (message 7 7 [] (lit "private") (lit "123:short"))
       (waiting_session "bot_token") = (inr tt, s') /\
     user_data s' !! "waiting_for" = None /\
     sent s' = [reply_text bot_handler.invalid_token_text []] /\
     user_data s'
     = delete "waiting_for" (user_data (waiting_session "bot_token")) /\
     bot_data s' = ∅ /\
     forall k, k <> "waiting_for" ->
       user_data s' !! k = user_data (waiting_session "bot_token") !! k) /\
  (exists s',
     @bot_handler.verificar_token_bot ascii_only_db
       (message 7 7 [] (lit "private") sample_token)
       (waiting_session "bot_token") = (inr tt, s') /\
     user_data s' !! "waiting_for" = None /\
     sent s' = [reply_text bot_handler.processing_text [];
                edit_text bot_handler.success_text bot_handler.success_keyboard] /\
     user_data s'
     = delete "waiting_for" (user_data (waiting_session "bot_token")) /\
     bot_data s' = ∅ /\
     forall k, k <> "waiting_for" ->
       user_data s' !! k = user_data (waiting_session "bot_token") !! k).
Proof.
  split.
  - apply (proj1 (@C3_verificar_token_bot ascii_only_db
                    (message 7 7 [] (lit "private") (lit "123:short"))
                    (waiting_session "bot_token") eq_refl)).
    reflexivity.
  - apply (proj2 (@C3_verificar_token_bot ascii_only_db
                    (message 7 7 [] (lit "private") sample_token)
                    (waiting_session "bot_token") eq_refl)).
    reflexivity.
Defined.

(** C3 (failing input).  In a session waiting for [bot_token], the text
    ["123:short"] does not match the format; the handler replies with the
    invalid-token message, whose last words ask to try again, and the tag
    is absent afterwards: the session does not stay in [bot_token], and
    the next message is not read as a token. *)
Lemma C3_invalid_token_clears_tag :
  let s := waiting_session "bot_token" in
  let update := message 7 7 [] (lit "private") (lit "123:short") in
  let s' := snd (@bot_handler.verificar_token_bot ascii_only_db update s) in
  user_data s !! "waiting_for" = Some (VStr "bot_token") /\
  @helpers.is_valid_bot_token ascii_only_db (message_text update) = false /\
  sent s' = [reply_text bot_handler.invalid_token_text []] /\
  user_data s' !! "waiting_for" = None /\
  user_data s' !! "waiting_for" <> Some (VStr "bot_token").
Proof. vm_compute. repeat split. discriminate. Qed.

(** C4 (what the code does).  [validar_codigo_canal] returns at its first
    test, [hasattr(context.bot_data, 'codigos_validacao')], which is false for
    a [dict]: whatever the table holds and whatever the message and the time
    are, it sends nothing and leaves the session as it is.  In particular an
    unexpired stored code sent as a message is not redeemed (no owner
    notification, the code still stored), and an expired one is not removed. *)
Theorem C4_validar_codigo_canal_never_redeems :
  (forall (update : Update) (now : spec_float) (s : session),
     channel_handler.validar_codigo_canal update now s = (inr tt, s)) /\
  (let codigo := lit "AB12CD34" in
   let info : gmap string scalar :=
     {[ "user_id" := SInt 7; "bot_id" := SInt 0;
        "expira" := SFloat (F64.of_Z 2000) ]} in
   let s := {| user_data := ∅;
               bot_data := {[ "codigos_validacao" := {[ codigo := info ]} ]};
               sent := [] |} in
   let update := message 9 (-1001) (lit "Canal VIP") (lit "channel") codigo in
   let early := snd (channel_handler.validar_codigo_canal update (F64.of_Z 1000) s) in
   let late := snd (channel_handler.validar_codigo_canal update (F64.of_Z 3000) s) in
   F64.gtb (F64.of_Z 1000) (F64.of_Z 2000) = false /\
   sent early = [] /\
   table_entry early "codigos_validacao" codigo = Some info /\
   F64.gtb (F64.of_Z 3000) (F64.of_Z 2000) = true /\
   sent late = [] /\
   table_entry late "codigos_validacao" codigo = Some info).
Proof.
  split; [reflexivity|]. cbv zeta.
  repeat match goal with |- _ /\ _ => split end; vm_compute; reflexivity.
Qed.

(** C5.  A free-text handler run in a session whose [waiting_for] entry is
    not the tag it expects (absent, another tag, or not a string) returns at
    once: nothing is sent and the session is unchanged. *)
Theorem C5_other_tag_is_pass_through `{UnicodeDB}
    (h : free_text_handler) (update : Update) (s : session) :
  user_data s !! "waiting_for" <> Some (VStr (expected_tag h)) ->
  run_free_text h update s = (inr tt, s).
Proof.
  intros Htag. apply eq_str_false in Htag.
  destruct h; simpl in Htag |- *;
    unfold bot_handler.verificar_token_bot, bot_handler.processar_nome_plano,
      bot_handler.processar_preco_plano, bind, user_data_get, get_state, ret;
    simpl; rewrite Htag; reflexivity.
Qed.

(** C5 (witness): a price sent while the session waits for the plan name is
    ignored by the price handler. *)
Lemma C5_other_tag_is_pass_through_witness :
  @run_free_text ascii_only_db h_processar_preco_plano
    (message 7 7 [] (lit "private") (lit "19.90")) (waiting_session "plan_name")
  = (inr tt, waiting_session "plan_name").
Proof.
  apply (@C5_other_tag_is_pass_through ascii_only_db h_processar_preco_plano).
  vm_compute. discriminate.
Defined.



(** The lines of the plans screen are computed without touching the
    session, whether or not a plan lacks a key. *)
Lemma plan_lines_state (planos : list (gmap string scalar)) (i : Z)
    (s : session) :
  snd (bot_handler.plan_lines i planos s) = s.
Proof.
  revert i. induction planos as [|plano rest IH]; intros i; simpl;
    [reflexivity|].
  unfold bind, getitem, fmt2f, raise, ret.
  destruct (plano !! "nome"); [|reflexivity].
  destruct (plano !! "preco") as [[]|]; try reflexivity;
    (destruct (plano !! "duracao"); [|reflexivity]);
    specialize (IH (i + 1));
    destruct (bot_handler.plan_lines (i + 1) rest s) as [[err|ls] st];
    exact IH.
Qed.

(** C8 (amended).  A back or cancel navigation action ([menu_principal],
    [config_mensagens], [config_planos], the target of the cancel button of
    the add-plan flow, and [config_canal]) only renders its screen: whether it
    completes or raises, it leaves [user_data], and so the [waiting_for] tag
    and the plan under construction, and [bot_data] exactly as they were. *)
Theorem C8_navigation_keeps_session (a : navigation_action) (update : Update)
    (s : session) :
  main.dispatch_callback (lit (navigation_target a))
  = Some (navigation_handler a) /\
  user_data (snd (run_navigation a update s)) = user_data s /\
  bot_data (snd (run_navigation a update s)) = bot_data s.
Proof.
  split; [destruct a; reflexivity|].
  destruct a; simpl; try (split; reflexivity).
  unfold bot_handler.configurar_planos, bind, emit, modify, user_data_get,
    get_state, ret.
  simpl.
  destruct (user_data s !! "planos") as [v|]; simpl; [|split; reflexivity].
  destruct (truthy v); simpl; [|split; reflexivity].
  destruct v as [x|d|planos]; simpl; try (split; reflexivity).
  match goal with |- context [bot_handler.plan_lines ?i planos ?s0] =>
    pose proof (plan_lines_state planos i s0) as Hs;
    destruct (bot_handler.plan_lines i planos s0) as [[e|ls] s1] end;
  simpl in *; subst; split; reflexivity.
Qed.

(** C8 (counterexample).  After [adicionar_plano], whose only button is the
    cancel button with target [config_planos], the session waits for
    [plan_name] and holds an empty plan under construction; after the cancel
    action, [configurar_planos], both are still there. *)
Lemma C8_cancel_keeps_tag_and_scratch :
  let s1 := snd (bot_handler.adicionar_plano
                   (callback_query 7 (lit "adicionar_plano")) fresh_session) in
  let s2 := snd (bot_handler.configurar_planos
                   (callback_query 7 (lit "config_planos")) s1) in
  bot_handler.adicionar_plano_keyboard
  = [[InlineKeyboardButton [T "🔙 Cancelar"]
        (callback_data (lit "config_planos"))]] /\
  main.dispatch_callback (lit "config_planos") = Some main.configurar_planos /\
  user_data s1 !! "waiting_for" = Some (VStr "plan_name") /\
  user_data s1 !! "new_plan" = Some (VDict ∅) /\
  user_data s2 !! "waiting_for" = Some (VStr "plan_name") /\
  user_data s2 !! "new_plan" = Some (VDict ∅) /\
  user_data s2 !! "waiting_for" <> None /\
  user_data s2 !! "new_plan" <> None.
Proof.
  cbv zeta.
  repeat match goal with |- _ /\ _ => split end;
    vm_compute; (reflexivity || discriminate).
Qed.

(** C9 (what the code does).  Every call of [gerar_codigo_canal] answers the
    query, replaces the table of validation codes by an empty one, and then
    raises [NameError]: [bot_handler.py] does not import [time].  The new
    code is not stored and no message shows it: the table is empty after the
    call, whatever it held before. *)
Theorem C9_gerar_codigo_canal_empties_table (update : Update)
    (rng : nat -> nat) (now : spec_float) (s : session) :
  bot_handler.gerar_codigo_canal update rng now s
  = (inl (NameError "time"),
     {| user_data := user_data s;
        bot_data := <["codigos_validacao" := ∅]> (bot_data s);
        sent := sent s ++ [answer] |}) /\
  bot_data (snd (bot_handler.gerar_codigo_canal update rng now s))
    !! "codigos_validacao" = Some ∅.
Proof.
  split; [reflexivity|]. cbn [snd bot_data].
  change (bot_data (snd (bot_handler.gerar_codigo_canal update rng now s)))
    with (<["codigos_validacao" := ∅]> (bot_data s)).
  apply lookup_insert_eq.
Qed.

(** The parts of the callback data of the verify button. *)
Lemma split_check_payment (transaction_id : list N) :
  exists seg rest,
    str_split 95 (lit "check_payment_" ++ transaction_id)
    = lit "check" :: lit "payment" :: seg :: rest.
Proof.
  destruct (str_split 95 transaction_id) as [|seg rest] eqn:E.
  - now apply str_split_nonempty in E.
  - exists seg, rest.
    change (lit "check_payment_" ++ transaction_id)
      with (lit "check" ++ 95%N :: (lit "payment" ++ 95%N :: transaction_id)).
    rewrite str_split_app.
    2:{ vm_compute. repeat constructor; discriminate. }
    rewrite str_split_app.
    2:{ vm_compute. repeat constructor; discriminate. }
    now rewrite E.
Qed.

(** C10.  For every transaction id and every session, the verify-payment
    action reports the payment as not found and leaves the session, hence
    every stored payment record, unchanged: [getattr] on the [dict] yields
    the empty default.  This holds in particular in the session
    [processar_pagamento] leaves behind, whatever it stored. *)
Theorem C10_verificar_pagamento_finds_nothing
    (user_id : Z) (transaction_id : list N) (s : session) :
  let update :=
    callback_query user_id (lit "check_payment_" ++ transaction_id) in
  payment_handler.verificar_pagamento update s
  = (inr tt,
     sending s [answer; edit_message_text payment_handler.not_found_text []]) /\
  bot_data (snd (payment_handler.verificar_pagamento update s)) = bot_data s /\
  (forall (U : UnicodeDB) (pay : Update) (t1 t2 t3 : spec_float),
     let stored := snd (payment_handler.processar_pagamento pay t1 t2 t3 s) in
     payment_handler.verificar_pagamento update stored
     = (inr tt,
        sending stored
          [answer; edit_message_text payment_handler.not_found_text []])).
Proof.
  assert (Hrun : forall s0,
            payment_handler.verificar_pagamento
              (callback_query user_id (lit "check_payment_" ++ transaction_id))
              s0
            = (inr tt,
               sending s0
                 [answer;
                  edit_message_text payment_handler.not_found_text []])).
  { intros s0.
    destruct (split_check_payment transaction_id) as (seg & rest & Hsplit).
    unfold payment_handler.verificar_pagamento, bind, emit, modify, index.
    cbn [callback_query query_data].
    rewrite str_startswith_app. cbn [negb].
    rewrite Hsplit. simpl. rewrite lookup_empty.
    unfold sending. simpl. rewrite <- app_assoc. reflexivity. }
  cbv zeta. split; [apply Hrun|]. split.
  - rewrite Hrun. reflexivity.
  - intros U pay t1 t2 t3. apply Hrun.
Qed.

(** A payment created at time 1700000000.5 for plan 3 is stored as pending
    under ["TX1700000000"], the id on the verify button; pressing the button
    reports it as not found and the record is still pending. *)
Lemma payment_stays_pending :
  let now := F64.of_decimal false 17000000005 (-1) in
  let s1 := snd (@payment_handler.processar_pagamento ascii_only_db
                   (callback_query 7 (lit "pagar_3")) now now now
                   fresh_session) in
  let s2 := snd (payment_handler.verificar_pagamento
                   (callback_query 7 (lit "check_payment_TX1700000000")) s1) in
  let status (s : session) : option scalar :=
    match table_entry s "pagamentos" (lit "TX1700000000") with
    | Some pagamento => pagamento !! "status"
    | None => None
    end in
  status s1 = Some (SStr (lit "pending")) /\
  status s2 = Some (SStr (lit "pending")) /\
  last (sent s2)
  = Some (edit_message_text payment_handler.not_found_text []).
Proof.
  cbv zeta.
  repeat match goal with |- _ /\ _ => split end; vm_compute; reflexivity.
Qed.

(* ===================================================================== *)
(** * Part VII.  Further properties of the same modules                   *)
(* ===================================================================== *)

(** ** [utils/helpers.py] *)

(** [[class]{0,n}]: at most [n] characters of the class. *)
Lemma rep_upto_loop_class (p : N -> bool) (k : bool -> list N -> bool)
    (n : nat) :
  (forall b1 b2 s, k b1 s = k b2 s) ->
  forall (b : bool) (s : list N),
    rep_upto_loop (exec (Cls p)) k n b s = true <->
    exists pre rest,
      s = pre ++ rest /\ (length pre <= n)%nat /\ forallb p pre = true /\
      k false rest = true.
Proof.
  intros Hk. induction n as [|n IH]; intros b s; simpl.
  - rewrite (Hk b false). split.
    + intros Hrest. exists [], s. repeat split; [simpl; lia|assumption].
    + intros (pre & rest & -> & Hlen & _ & Hrest).
      destruct pre; [assumption|simpl in Hlen; lia].
  - rewrite orb_true_iff, (Hk b false). split.
    + intros [Hstep|Hrest].
      * destruct s as [|a s]; [discriminate|].
        apply andb_true_iff in Hstep as [Hp Hstep].
        apply IH in Hstep as (pre & rest & -> & Hlen & Hpre & Hrest).
        exists (a :: pre), rest. simpl. rewrite Hp.
        repeat split; [lia|assumption|assumption].
      * exists [], s. repeat split; [simpl; lia|assumption].
    + intros (pre & rest & -> & Hlen & Hpre & Hrest).
      destruct pre as [|a pre]; [right; assumption|].
      left. simpl in Hpre, Hlen |- *.
      apply andb_true_iff in Hpre as [Hp Hpre]. rewrite Hp. simpl.
      apply IH. exists pre, rest. repeat split; [lia|assumption|assumption].
Qed.

Lemma rep_upto_loop_start (p : N -> bool) (k : bool -> list N -> bool)
    (n : nat) :
  (forall b1 b2 s, k b1 s = k b2 s) ->
  forall (b1 b2 : bool) (s : list N),
    rep_upto_loop (exec (Cls p)) k n b1 s
    = rep_upto_loop (exec (Cls p)) k n b2 s.
Proof.
  intros Hk. destruct n as [|n]; intros b1 b2 s; simpl.
  - apply Hk.
  - now rewrite (Hk b1 b2).
Qed.

(** X1.  [validate_username] accepts exactly the strings made of 5 to 32
    characters of [a-zA-Z0-9_], optionally followed by one final newline:
    the empty string, shorter or longer names and any other character are
    refused, and a name followed by a newline is accepted. *)
Theorem validate_username_format :
  (forall username : list N,
     helpers.validate_username username = true
     <-> matches_username_format username) /\
  helpers.validate_username (lit "zenyx_bot" ++ [10%N]) = true /\
  helpers.validate_username (lit "zeny") = false /\
  helpers.validate_username [] = false.
Proof.
  split; [|repeat split]. intros username.
  assert (Hk : forall b1 b2 s,
             exec Eol b1 s (fun _ _ => true) = exec Eol b2 s (fun _ _ => true)).
  { intros b1 b2 s. destruct s as [|a [|a' s]]; reflexivity. }
  assert (Hmatch : helpers.username_match username = true
                   <-> matches_username_format username).
  { change (rep_loop (exec (Cls helpers.username_char))
              (rep_upto_loop (exec (Cls helpers.username_char))
                 (fun b' s' => exec Eol b' s' (fun _ _ => true)) 27)
              5 true username = true
            <-> matches_username_format username).
    unfold matches_username_format.
    rewrite rep_loop_class
      by (apply rep_upto_loop_start; exact Hk).
    split.
    - intros (pre & rest & -> & Hlen & Hpre & Hrest).
      apply rep_upto_loop_class in Hrest
          as (more & tail & -> & Hmore & Hpmore & Htail); [|exact Hk].
      apply exec_Eol_end in Htail.
      exists (pre ++ more), tail. rewrite <- app_assoc.
      repeat split; try assumption.
      + rewrite length_app. lia.
      + rewrite length_app. simpl in Hmore. lia.
      + rewrite forallb_app, Hpre, Hpmore. reflexivity.
    - intros (body & tail & -> & [Hmin Hmax] & Hbody & Htail).
      exists (take 5 body), (drop 5 body ++ tail).
      rewrite app_assoc, take_drop.
      repeat split.
      + rewrite length_take. lia.
      + rewrite <- (take_drop 5 body), forallb_app in Hbody.
        apply andb_true_iff in Hbody. tauto.
      + apply rep_upto_loop_class; [exact Hk|].
        exists (drop 5 body), tail. repeat split.
        * rewrite length_drop. simpl. lia.
        * rewrite <- (take_drop 5 body), forallb_app in Hbody.
          apply andb_true_iff in Hbody. tauto.
        * apply exec_Eol_end. assumption. }
  unfold helpers.validate_username. destruct username as [|c username].
  - split; [discriminate|].
    intros (body & tail & Heq & [Hmin _] & _).
    destruct body; [simpl in Hmin; lia|discriminate].
  - exact Hmatch.
Qed.

(** X2.  [validate_phone] looks at the decimal digits only: a character that
    is not a decimal digit can be inserted anywhere without changing the
    answer, and a string of digits is accepted exactly when it has 10 to 15
    of them. *)
Theorem validate_phone_counts_digits `{UnicodeDB}
    (before after digits : list N) (c : N) :
  Py_UNICODE_ISDECIMAL c = false ->
  forallb Py_UNICODE_ISDECIMAL digits = true ->
  helpers.validate_phone (before ++ c :: after)
  = helpers.validate_phone (before ++ after) /\
  (helpers.validate_phone digits = true
   <-> (10 <= length digits <= 15)%nat).
Proof.
  intros Hc Hdigits. unfold helpers.validate_phone, helpers.phone_clean. split.
  - rewrite !List.filter_app. cbn [List.filter]. rewrite Hc. reflexivity.
  - assert (Hall : List.filter Py_UNICODE_ISDECIMAL digits = digits).
    { induction digits as [|d ds IH]; [reflexivity|].
      cbn [forallb] in Hdigits. apply andb_true_iff in Hdigits as [Hd Hds].
      cbn [List.filter]. rewrite Hd, (IH Hds). reflexivity. }
    rewrite Hall, andb_true_iff, !Z.leb_le. lia.
Qed.

(** X2 (witness): a number with brackets, a space and a dash, and the same
    eleven digits alone. *)
Lemma validate_phone_counts_digits_witness :
  @helpers.validate_phone ascii_only_db (lit "(11)" ++ 32%N :: lit "98765-4321")
  = @helpers.validate_phone ascii_only_db (lit "(11)" ++ lit "98765-4321") /\
  (@helpers.validate_phone ascii_only_db (lit "11987654321") = true
   <-> (10 <= length (lit "11987654321") <= 15)%nat).
Proof.
  apply (@validate_phone_counts_digits ascii_only_db
           (lit "(11)") (lit "98765-4321") (lit "11987654321") 32%N);
    reflexivity.
Defined.

Lemma code_alphabet_chars (i : nat) :
  (i < 36)%nat -> code_char (nth i helpers.code_alphabet 0%N) = true.
Proof.
  intros Hi.
  do 36 (destruct i as [|i]; [reflexivity|]).
  lia.
Qed.

(** X3.  Whatever the random draws are, [generate_random_code(length)] has
    [length] characters (none for a negative [length]), all of them upper-case
    ASCII letters or digits; [gerar_codigo_validacao] of [channel_handler.py]
    is [generate_random_code(8)] and so has eight characters. *)
Theorem generated_codes_shape (rng : nat -> nat) (length : Z) :
  List.length (helpers.generate_random_code length rng) = Z.to_nat length /\
  forallb code_char (helpers.generate_random_code length rng) = true /\
  channel_handler.gerar_codigo_validacao rng
  = helpers.generate_random_code 8 rng /\
  List.length (channel_handler.gerar_codigo_validacao rng) = 8%nat.
Proof.
  assert (Hall : forall n,
            forallb code_char (helpers.generate_random_code n rng) = true).
  { intros n. unfold helpers.generate_random_code.
    apply forallb_forall. intros c Hc.
    apply in_map_iff in Hc as (i & <- & _).
    apply code_alphabet_chars. apply Nat.mod_upper_bound. discriminate. }
  split; [|split; [|split]].
  - unfold helpers.generate_random_code.
    now rewrite length_fmap, length_seq.
  - apply Hall.
  - reflexivity.
  - unfold channel_handler.gerar_codigo_validacao.
    now rewrite length_fmap, length_seq.
Qed.

(** X4.  For a number of days that is at least 1 and not 9999,
    [format_duration] shows a whole number [n >= 1] of the largest unit that
    fits (years of 365 days, months of 30 days, days), rounded down: the
    remainder is dropped, and the singular is used exactly for [n = 1]. *)
Theorem format_duration_rounds_down (days : Z) :
  1 <= days -> days <> 9999 ->
  exists n unit singular plural,
    In (unit, singular, plural) duration_units /\
    helpers.format_duration days
    = str_of_int n ++ lit " " ++ (if n =? 1 then singular else plural) /\
    1 <= n /\ n * unit <= days < (n + 1) * unit /\
    (unit = 365 \/ days < 365) /\ (unit = 1 -> days < 30).
Proof.
  intros Hpos Hlife. unfold helpers.format_duration, duration_units.
  destruct (days =? 9999) eqn:E9; [apply Z.eqb_eq in E9; contradiction|].
  destruct (365 <=? days) eqn:E365.
  - apply Z.leb_le in E365.
    exists (days / 365), 365, (lit "ano"), (lit "anos").
    split; [now left|]. split; [reflexivity|].
    pose proof (Z.div_mod days 365 ltac:(lia)) as Hdm.
    pose proof (Z.mod_pos_bound days 365 ltac:(lia)) as Hm.
    assert (1 <= days / 365) by (apply Z.div_le_lower_bound; lia).
    repeat split; lia.
  - apply Z.leb_gt in E365. destruct (30 <=? days) eqn:E30.
    + apply Z.leb_le in E30.
      exists (days / 30), 30, (lit "m" ++ [234%N] ++ lit "s"), (lit "meses").
      split; [right; now left|]. split; [reflexivity|].
      pose proof (Z.div_mod days 30 ltac:(lia)) as Hdm.
      pose proof (Z.mod_pos_bound days 30 ltac:(lia)) as Hm.
      assert (1 <= days / 30) by (apply Z.div_le_lower_bound; lia).
      repeat split; lia.
    + apply Z.leb_gt in E30.
      exists days, 1, (lit "dia"), (lit "dias").
      split; [right; right; now left|]. split; [reflexivity|].
      repeat split; lia.
Qed.

(** X4 (witness): 364 days are shown as 12 months. *)
Lemma format_duration_rounds_down_witness :
  exists n unit singular plural,
    In (unit, singular, plural) duration_units /\
    helpers.format_duration 364
    = str_of_int n ++ lit " " ++ (if n =? 1 then singular else plural) /\
    1 <= n /\ n * unit <= 364 < (n + 1) * unit /\
    (unit = 365 \/ 364 < 365) /\ (unit = 1 -> 364 < 30).
Proof. apply (format_duration_rounds_down 364); lia. Defined.

Lemma after_first_spec (sep : N) (l : list N) :
  match after_first sep l with
  | Some r => exists pre, l = pre ++ sep :: r /\ ~ In sep pre
  | None => ~ In sep l
  end.
Proof.
  induction l as [|c l IH]; simpl; [tauto|].
  destruct (N.eqb_spec c sep) as [->|Hne].
  - exists []. split; [reflexivity|simpl; tauto].
  - destruct (after_first sep l) as [r|].
    + destruct IH as (pre & -> & Hpre). exists (c :: pre).
      split; [reflexivity|]. simpl. intuition.
    + simpl. intuition.
Qed.

(** [rsplit(sep, 1)[0]] keeps what precedes the last separator. *)
Lemma rsplit1_head_spec (sep : N) (s : list N) :
  (rsplit1_head sep s = s /\ ~ In sep s) \/
  (exists word, s = rsplit1_head sep s ++ sep :: word /\ ~ In sep word).
Proof.
  unfold rsplit1_head. pose proof (after_first_spec sep (rev s)) as Hspec.
  destruct (after_first sep (rev s)) as [r|].
  - right. destruct Hspec as (pre & Heq & Hpre). exists (rev pre). split.
    + rewrite <- (rev_involutive s), Heq, rev_app_distr. simpl.
      now rewrite <- app_assoc.
    + now rewrite <- in_rev.
  - left. split; [reflexivity|]. now rewrite in_rev.
Qed.

(** X5.  [truncate_text] returns a text that fits unchanged.  A longer text
    becomes a prefix of itself followed by ["..."]; for [max_length >= 3] the
    result has at most [max_length] characters and the prefix is the first
    [max_length - 3] characters cut back to just before their last space (the
    whole of them when they hold no space); for [max_length < 3] the result
    is longer than [max_length]. *)
Theorem truncate_text_cut (text : list N) (max_length : Z) :
  (Z.of_nat (length text) <= max_length ->
   helpers.truncate_text text max_length = text) /\
  (max_length < Z.of_nat (length text) ->
   exists kept dropped,
     helpers.truncate_text text max_length = kept ++ lit "..." /\
     text = kept ++ dropped /\
     (0 <= max_length -> dropped <> []) /\
     (3 <= max_length ->
      Z.of_nat (length (helpers.truncate_text text max_length)) <= max_length /\
      ((kept = take (Z.to_nat (max_length - 3)) text /\ ~ In 32%N kept) \/
       exists word,
         take (Z.to_nat (max_length - 3)) text = kept ++ 32%N :: word /\
         ~ In 32%N word)) /\
     (max_length < 3 ->
      max_length < Z.of_nat (length (helpers.truncate_text text max_length)))).
Proof.
  unfold helpers.truncate_text. split.
  - intros Hfit. apply Z.leb_le in Hfit. now rewrite Hfit.
  - intros Hlong. pose proof Hlong as Hgt. apply Z.leb_gt in Hgt. rewrite Hgt.
    assert (Hslice : exists n, slice_to text (max_length - 3) = take n text
                               /\ (0 <= max_length -> (n < length text)%nat)
                               /\ (3 <= max_length ->
                                   n = Z.to_nat (max_length - 3))).
    { unfold slice_to. destruct (0 <=? max_length - 3) eqn:E.
      - apply Z.leb_le in E. exists (Z.to_nat (max_length - 3)).
        split; [reflexivity|]. split; [lia|reflexivity].
      - apply Z.leb_gt in E.
        exists (Z.to_nat (Z.of_nat (length text) + (max_length - 3))).
        split; [reflexivity|]. split; lia. }
    destruct Hslice as (n & Hslice & Hn & Hmax). rewrite Hslice.
    set (kept := rsplit1_head 32 (take n text)).
    assert (Hkept : exists rest, take n text = kept ++ rest).
    { destruct (rsplit1_head_spec 32 (take n text)) as [[Heq _]|(w & Heq & _)].
      - exists []. fold kept in Heq. now rewrite Heq, app_nil_r.
      - exists (32%N :: w). exact Heq. }
    destruct Hkept as (rest & Hrest).
    assert (Hlen : (length kept <= n)%nat /\ (length kept <= length text)%nat).
    { pose proof (f_equal length Hrest) as Hl.
      rewrite length_app, length_take in Hl. lia. }
    exists kept, (rest ++ drop n text). split; [reflexivity|]. split.
    { now rewrite app_assoc, <- Hrest, take_drop. }
    split.
    { intros H0 Hnil. specialize (Hn H0). apply app_eq_nil in Hnil as [_ Hdrop].
      apply (f_equal length) in Hdrop. rewrite length_drop in Hdrop.
      simpl in Hdrop. lia. }
    split.
    + intros H3. specialize (Hmax H3). split.
      * rewrite length_app. change (length (lit "...")) with 3%nat. lia.
      * rewrite <- Hmax.
        destruct (rsplit1_head_spec 32 (take n text)) as [[Heq Hno]|(w & Heq & Hno)].
        -- left. fold kept in Heq. split; [exact Heq|]. now rewrite Heq.
        -- right. exists w. split; assumption.
    + intros H3. rewrite length_app. change (length (lit "...")) with 3%nat. lia.
Qed.

(** X5 (witness): a text that fits, and one cut at a word boundary. *)
Lemma truncate_text_cut_witness :
  helpers.truncate_text (lit "bem-vindo") 9 = lit "bem-vindo" /\
  exists kept dropped,
    helpers.truncate_text (lit "seja bem-vindo ao bot") 12 = kept ++ lit "..." /\
    lit "seja bem-vindo ao bot" = kept ++ dropped /\
    (0 <= 12 -> dropped <> []) /\
    (3 <= 12 ->
     Z.of_nat (length (helpers.truncate_text (lit "seja bem-vindo ao bot") 12))
     <= 12 /\
     ((kept = take (Z.to_nat (12 - 3)) (lit "seja bem-vindo ao bot")
       /\ ~ In 32%N kept) \/
      exists word,
        take (Z.to_nat (12 - 3)) (lit "seja bem-vindo ao bot")
        = kept ++ 32%N :: word /\
        ~ In 32%N word)) /\
    (12 < 3 ->
     12 < Z.of_nat (length (helpers.truncate_text (lit "seja bem-vindo ao bot") 12))).
Proof.
  split.
  - apply (proj1 (truncate_text_cut (lit "bem-vindo") 9)). vm_compute. discriminate.
  - apply (proj2 (truncate_text_cut (lit "seja bem-vindo ao bot") 12)).
    reflexivity.
Defined.

(** X6.  A plan without end date never expires and has no number of days
    left.  For a plan with an end date, [days_until_expiration] is never
    negative, it is 0 once [is_plan_expired] holds, and until then it is the
    number of whole days left, so it is also 0 during the last 24 hours. *)
Theorem expiration_days_left (end_date now : Z) :
  helpers.is_plan_expired None now = false /\
  helpers.days_until_expiration None now = None /\
  exists days,
    helpers.days_until_expiration (Some end_date) now = Some days /\
    0 <= days /\
    (helpers.is_plan_expired (Some end_date) now = true -> days = 0) /\
    (helpers.is_plan_expired (Some end_date) now = false ->
     days * day_us <= end_date - now < (days + 1) * day_us).
Proof.
  split; [reflexivity|]. split; [reflexivity|].
  unfold helpers.days_until_expiration, helpers.is_plan_expired,
    timedelta_days.
  eexists. split; [reflexivity|].
  assert (Hday : 0 < day_us) by reflexivity.
  pose proof (Z.div_mod (end_date - now) day_us ltac:(lia)) as Hdm.
  pose proof (Z.mod_pos_bound (end_date - now) day_us Hday) as Hm.
  repeat split.
  - lia.
  - intros Hexp. apply Z.ltb_lt in Hexp.
    assert ((end_date - now) / day_us < 0)
      by (apply Z.div_lt_upper_bound; lia).
    lia.
  - apply Z.ltb_ge in H.
    assert (0 <= (end_date - now) / day_us) by (apply Z.div_pos; lia).
    rewrite Z.max_r by lia. lia.
  - apply Z.ltb_ge in H.
    assert (0 <= (end_date - now) / day_us) by (apply Z.div_pos; lia).
    rewrite Z.max_r by lia. lia.
Qed.

(** ** [models/user.py]: runs with refused calls *)

(** Stepping through a run that ends in an exception or in a handler. *)
Lemma bind_step {S E A B} (c : M S E A) (k : A -> M S E B)
    (s s1 : S) (a : A) (r : (E + B) * S) :
  returns c s a s1 -> k a s1 = r -> bind c k s = r.
Proof. unfold returns, bind. now intros -> ->. Qed.

Lemma bind_raises {S E A B} (c : M S E A) (k : A -> M S E B)
    (s s1 : S) (e : E) :
  c s = (inl e, s1) -> bind c k s = (inl e, s1).
Proof. unfold bind. now intros ->. Qed.

Lemma try_raises {S E A} (c : M S E A) (h : E -> M S E A)
    (s s1 : S) (e : E) (r : (E + A) * S) :
  c s = (inl e, s1) -> h e s1 = r -> try_except c h s = r.
Proof. unfold try_except. now intros -> ->. Qed.

(** What [server_call] does when the next answer is known. *)
Lemma server_call_accepts (u : user.User) (c : user.connection)
    (rest : list bool) :
  user.faults c = false :: rest ->
  returns user.server_call (u, c) tt (u, user.with_faults rest c).
Proof. intros Hf. unfold returns. rewrite server_call_head, Hf. reflexivity. Qed.

Lemma server_call_refuses (u : user.User) (c : user.connection)
    (rest : list bool) :
  user.faults c = true :: rest ->
  user.server_call (u, c) = (inl user.mysql_error, (u, user.with_faults rest c)).
Proof. intros Hf. rewrite server_call_head, Hf. reflexivity. Qed.

Lemma update_users_unused (u : user.User) (n : Z) (rows : list user.User) :
  unused_id n rows -> user.update_users u n rows = rows.
Proof.
  unfold unused_id, user.update_users. induction 1 as [|row rows Hrow _ IH].
  - reflexivity.
  - cbn [fmap list_fmap]. rewrite bool_decide_eq_false_2 by exact Hrow.
    f_equal. exact IH.
Qed.

(** [save] of a stored user when the next three calls are accepted. *)
Lemma save_update_three (u : user.User) (c : user.connection) (i : Z)
    (rest : list bool) :
  user.id u = Some i ->
  user.faults c = false :: false :: false :: rest ->
  let w := {| user.users := user.update_users u i (user.users (user.working c));
              user.transactions := user.transactions (user.working c) |} in
  returns user.save (u, c) user.PTrue
    (u, {| user.committed := w; user.working := w;
           user.next_user_id := user.next_user_id c;
           user.next_transaction_id := user.next_transaction_id c;
           user.faults := rest |}).
Proof.
  intros Hid Hf w. destruct c as [cm wk nu nt fs]. cbn [user.faults] in Hf.
  subst fs. unfold user.save, user.cursor, user.self.
  apply returns_try.
  eapply returns_bind; [apply server_call_accepts; reflexivity|cbn beta].
  eapply returns_bind; [reflexivity|cbn beta iota; cbn [fst]].
  rewrite Hid.
  eapply returns_bind.
  { unfold user.execute_update_user, user.set_conn.
    eapply returns_bind; [apply server_call_accepts; reflexivity|].
    reflexivity. }
  eapply returns_bind.
  { unfold user.commit, user.set_conn.
    eapply returns_bind; [apply server_call_accepts; reflexivity|].
    reflexivity. }
  reflexivity.
Qed.

(** [save] when the server refuses its INSERT or UPDATE: the open
    transaction is rolled back and [False] returned. *)
Lemma save_refused_execute (u : user.User) (c : user.connection)
    (rest : list bool) :
  user.faults c = false :: true :: rest ->
  returns user.save (u, c) user.PFalse
    (u, {| user.committed := user.committed c;
           user.working := user.committed c;
           user.next_user_id := user.next_user_id c;
           user.next_transaction_id := user.next_transaction_id c;
           user.faults := rest |}).
Proof.
  intros Hf. destruct c as [cm wk nu nt fs]. cbn [user.faults] in Hf. subst fs.
  unfold returns, user.save, user.cursor, user.self.
  eapply try_raises.
  { eapply bind_step; [apply server_call_accepts; reflexivity|cbn beta].
    eapply bind_step; [reflexivity|cbn beta iota; cbn [fst]].
    apply bind_raises.
    destruct (user.id u) as [i|].
    - unfold user.execute_update_user.
      apply bind_raises. apply server_call_refuses. reflexivity.
    - apply bind_raises. unfold user.execute_insert_user.
      apply bind_raises. apply server_call_refuses. reflexivity. }
  reflexivity.
Qed.

(** X7.  On a connection that accepts every call, the first [save] of a
    user without id inserts one row, sets [self.id] to its id and commits;
    a second [save] takes the UPDATE branch: it inserts nothing, so the table
    has exactly one row more than before the first [save], and it is the same
    table as after the first [save] when the id was unused. *)
Theorem save_inserts_once (u : user.User) (c : user.connection) :
  user.id u = None -> accepting c ->
  let n := user.next_user_id c in
  exists c1 c2,
    returns user.save (u, c) user.PTrue (user.set_id n u, c1) /\
    user.users (user.working c1)
    = user.users (user.working c) ++ [user.set_id n u] /\
    user.committed c1 = user.working c1 /\
    returns user.save (user.set_id n u, c1) user.PTrue (user.set_id n u, c2) /\
    (unused_id n (user.users (user.working c)) ->
     user.users (user.working c2) = user.users (user.working c1)) /\
    length (user.users (user.working c2))
    = S (length (user.users (user.working c))) /\
    user.committed c2 = user.working c2.
Proof.
  intros Hid Hok n.
  destruct (save_insert_accepted u c Hid Hok)
    as (c1 & Hrun1 & Husers1 & _ & Hcommit1 & _ & Hok1).
  destruct (save_update_accepted (user.set_id n u) c1 n eq_refl Hok1)
    as (c2 & Hrun2 & Husers2 & _ & Hcommit2 & _ & _).
  exists c1, c2. repeat split; try assumption.
  - intros Hfresh. rewrite Husers2, Husers1.
    unfold user.update_users. rewrite fmap_app.
    fold (user.update_users (user.set_id n u) n (user.users (user.working c))).
    rewrite (update_users_unused _ _ _ Hfresh). f_equal.
    cbn [fmap list_fmap user.set_id user.id].
    rewrite bool_decide_eq_true_2 by reflexivity. reflexivity.
  - rewrite Husers2. unfold user.update_users.
    rewrite length_fmap, Husers1, length_app. simpl. lia.
Qed.

(** X7 (witness): [bob] saved twice into the table that holds [alice]. *)
Lemma save_inserts_once_witness :
  exists c1 c2,
    returns user.save (bob, sample_connection []) user.PTrue
      (user.set_id 2 bob, c1) /\
    user.users (user.working c1) = [alice] ++ [user.set_id 2 bob] /\
    user.committed c1 = user.working c1 /\
    returns user.save (user.set_id 2 bob, c1) user.PTrue
      (user.set_id 2 bob, c2) /\
    (unused_id 2 [alice] ->
     user.users (user.working c2) = user.users (user.working c1)) /\
    length (user.users (user.working c2)) = S (length [alice]) /\
    user.committed c2 = user.working c2.
Proof.
  apply (save_inserts_once bob (sample_connection [])).
  - reflexivity.
  - constructor.
Defined.

(** X8.  When the server accepts the INSERT of a new user and then refuses
    the commit, [save] returns [False] and rolls back, but [self.id] keeps
    the id of the row that was rolled back.  Every later [save] therefore
    takes the UPDATE branch: on an accepting connection it returns [True]
    while the user's row is still not in the table. *)
Theorem save_refused_commit_loses_user (u : user.User) (c : user.connection)
    (rest : list bool) :
  user.id u = None ->
  user.faults c = false :: false :: true :: rest ->
  Forall (fun b => b = false) rest ->
  unused_id (user.next_user_id c) (user.users (user.committed c)) ->
  let u1 := user.set_id (user.next_user_id c) u in
  exists c1 c2,
    user.save (u, c) = (inr user.PFalse, (u1, c1)) /\
    user.working c1 = user.committed c /\
    user.committed c1 = user.committed c /\
    user.save (u1, c1) = (inr user.PTrue, (u1, c2)) /\
    user.users (user.committed c2) = user.users (user.committed c) /\
    ~ In u1 (user.users (user.committed c2)).
Proof.
  intros Hid Hfaults Hrest Hfresh u1.
  destruct c as [cm wk nu nt fs]. cbn [user.faults] in Hfaults. subst fs.
  cbn [user.next_user_id user.committed] in *.
  set (c1 := {| user.committed := cm; user.working := cm;
                user.next_user_id := nu + 1; user.next_transaction_id := nt;
                user.faults := rest |}).
  assert (Hfirst : user.save (u, {| user.committed := cm; user.working := wk;
                                    user.next_user_id := nu;
                                    user.next_transaction_id := nt;
                                    user.faults := false :: false :: true :: rest |})
                   = (inr user.PFalse, (u1, c1))).
  { subst u1 c1. destruct u as [i tg un fn ln ad vp vu bl].
    cbn [user.id] in Hid. subst i. reflexivity. }
  destruct (save_update_accepted u1 c1 nu eq_refl Hrest)
    as (c2 & Hrun2 & Husers2 & _ & Hcommit2 & _ & _).
  exists c1, c2. split; [exact Hfirst|]. split; [reflexivity|].
  split; [reflexivity|]. split; [exact Hrun2|].
  rewrite Hcommit2, Husers2. cbn [user.working c1].
  rewrite (update_users_unused _ _ _ Hfresh). split; [reflexivity|].
  intros Hin. unfold unused_id in Hfresh. rewrite List.Forall_forall in Hfresh.
  apply (Hfresh u1 Hin). reflexivity.
Qed.

(** X8 (witness): [bob] on a connection whose third answer is a refusal. *)
Lemma save_refused_commit_loses_user_witness :
  exists c1 c2,
    user.save (bob, sample_connection [false; false; true])
    = (inr user.PFalse, (user.set_id 2 bob, c1)) /\
    user.working c1 = user.committed (sample_connection [false; false; true]) /\
    user.committed c1 = user.committed (sample_connection [false; false; true]) /\
    user.save (user.set_id 2 bob, c1) = (inr user.PTrue, (user.set_id 2 bob, c2)) /\
    user.users (user.committed c2) = [alice] /\
    ~ In (user.set_id 2 bob) (user.users (user.committed c2)).
Proof.
  apply (save_refused_commit_loses_user bob
           (sample_connection [false; false; true]) []).
  - reflexivity.
  - reflexivity.
  - constructor.
  - repeat constructor. discriminate.
Defined.

(** X9.  When the write of [save] inside [add_balance] is refused, [save]
    rolls the whole transaction back, the ledger row included, and its
    [False] is ignored: [add_balance] commits and returns the id of the
    ledger row, which is truthy unless it is 0, although neither the row nor
    the new balance is stored.  [self.balance] keeps the increased value. *)
Theorem add_balance_reports_unsaved_deposit (u : user.User)
    (c : user.connection) (amount : spec_float) (type : string)
    (reference_id description : option string) (rest : list bool) :
  user.faults c = false :: false :: false :: true :: false :: rest ->
  exists c',
    user.add_balance amount type reference_id description (u, c)
    = (inr (user.PInt (user.next_transaction_id c)),
       (user.set_balance (F64.add (user.balance u) amount) u, c')) /\
    user.truthy (user.PInt (user.next_transaction_id c))
    = negb (user.next_transaction_id c =? 0) /\
    user.committed c' = user.committed c /\
    user.working c' = user.committed c.
Proof.
  destruct c as [cm wk nu nt fs]. cbn [user.faults]. intros ->.
  eexists. split.
  - unfold user.add_balance, user.cursor, user.self, user.set_self.
    apply returns_try.
    eapply returns_bind; [apply server_call_accepts; reflexivity|cbn beta].
    eapply returns_bind; [reflexivity|cbn beta iota; cbn [fst snd]].
    eapply returns_bind; [reflexivity|cbn beta iota; cbn [fst snd]].
    eapply returns_bind.
    { unfold user.execute_insert_transaction, user.set_conn, user.conn.
      eapply returns_bind; [apply server_call_accepts; reflexivity|cbn beta].
      eapply returns_bind; [reflexivity|cbn beta iota; cbn [fst snd]].
      eapply returns_bind; [reflexivity|apply returns_ret]. }
    cbn beta.
    eapply returns_bind; [apply save_refused_execute; reflexivity|].
    eapply returns_bind.
    { unfold user.commit, user.set_conn.
      eapply returns_bind; [apply server_call_accepts; reflexivity|].
      reflexivity. }
    apply returns_ret.
  - repeat split.
Qed.

(** X9 (witness): a deposit of 5 whose UPDATE is refused. *)
Lemma add_balance_reports_unsaved_deposit_witness :
  exists c',
    user.add_balance (F64.of_Z 5) "deposit" None None
      (alice, sample_connection [false; false; false; true; false])
    = (inr (user.PInt 1),
       (user.set_balance (F64.add (user.balance alice) (F64.of_Z 5)) alice, c')) /\
    user.truthy (user.PInt 1) = negb (1 =? 0) /\
    user.committed c'
    = user.committed (sample_connection [false; false; false; true; false]) /\
    user.working c'
    = user.committed (sample_connection [false; false; false; true; false]).
Proof.
  apply (add_balance_reports_unsaved_deposit alice
           (sample_connection [false; false; false; true; false])
           (F64.of_Z 5) "deposit" None None []).
  reflexivity.
Defined.

(** X10.  [save] inside [add_balance] commits the ledger row together with
    the new balance.  When the last [commit] of [add_balance] is then
    refused, [add_balance] returns [False] although the deposit is stored:
    the ledger row and the updated user row are committed. *)
Theorem add_balance_refused_last_commit (u : user.User)
    (c : user.connection) (amount : spec_float) (type : string)
    (reference_id description : option string) (rest : list bool) (i : Z) :
  user.id u = Some i ->
  user.faults c = [false; false; false; false; false; true] ++ rest ->
  exists c',
    user.add_balance amount type reference_id description (u, c)
    = (inr user.PFalse,
       (user.set_balance (F64.add (user.balance u) amount) u, c')) /\
    user.truthy user.PFalse = false /\
    user.transactions (user.committed c')
    = user.transactions (user.working c)
      ++ [ledger_row (user.next_transaction_id c) u amount type reference_id
            description] /\
    user.users (user.committed c')
    = user.update_users
        (user.set_balance (F64.add (user.balance u) amount) u) i
        (user.users (user.working c)) /\
    user.working c' = user.committed c'.
Proof.
  destruct c as [cm wk nu nt fs]. cbn [user.faults]. intros Hid ->.
  set (u1 := user.set_balance (F64.add (user.balance u) amount) u).
  eexists. split.
  - unfold user.add_balance, user.cursor, user.self, user.set_self.
    eapply try_raises.
    { eapply bind_step; [apply server_call_accepts; reflexivity|cbn beta].
      eapply bind_step; [reflexivity|cbn beta iota; cbn [fst snd]].
      eapply bind_step; [reflexivity|cbn beta iota; cbn [fst snd]].
      eapply bind_step.
      { unfold user.execute_insert_transaction, user.set_conn, user.conn.
        eapply returns_bind; [apply server_call_accepts; reflexivity|cbn beta].
        eapply returns_bind; [reflexivity|cbn beta iota; cbn [fst snd]].
        eapply returns_bind; [reflexivity|apply returns_ret]. }
      cbn beta.
      eapply bind_step.
      { apply (save_update_three u1 _ i); [exact Hid|reflexivity]. }
      cbn beta zeta.
      apply bind_raises. unfold user.commit.
      apply bind_raises. apply server_call_refuses. reflexivity. }
    reflexivity.
  - repeat split.
Qed.

(** X10 (witness): a deposit of 5 whose last commit is refused. *)
Lemma add_balance_refused_last_commit_witness :
  exists c',
    user.add_balance (F64.of_Z 5) "deposit" None None
      (alice, sample_connection [false; false; false; false; false; true])
    = (inr user.PFalse,
       (user.set_balance (F64.add (user.balance alice) (F64.of_Z 5)) alice, c')) /\
    user.truthy user.PFalse = false /\
    user.transactions (user.committed c')
    = [] ++ [ledger_row 1 alice (F64.of_Z 5) "deposit" None None] /\
    user.users (user.committed c')
    = user.update_users
        (user.set_balance (F64.add (user.balance alice) (F64.of_Z 5)) alice) 1
        [alice] /\
    user.working c' = user.committed c'.
Proof.
  apply (add_balance_refused_last_commit alice
           (sample_connection [false; false; false; false; false; true])
           (F64.of_Z 5) "deposit" None None [] 1); reflexivity.
Defined.

Lemma vip_running_test (u : user.User) (now : Z) :
  user.is_vip u && match user.vip_until u with
                   | Some v => now <? v
                   | None => false
                   end = true
  <-> vip_running u now.
Proof.
  unfold vip_running. rewrite andb_true_iff. split.
  - intros [Hvip Huntil]. split; [exact Hvip|].
    destruct (user.vip_until u) as [v|]; [|discriminate].
    exists v. split; [reflexivity|]. now apply Z.ltb_lt.
  - intros [Hvip (v & -> & Hlt)]. split; [exact Hvip|]. now apply Z.ltb_lt.
Qed.

Lemma datetime_add_days_sum (dt d r : Z) :
  datetime_add_days dt d = Some r ->
  r = dt + d * day_us /\ 0 <= r <= datetime_max /\ Z.abs d <= 999999999.
Proof.
  unfold datetime_add_days.
  destruct (Z.abs d <=? 999999999) eqn:Hd; [|discriminate].
  destruct ((0 <=? dt + d * day_us) && (dt + d * day_us <=? datetime_max))
    eqn:Hr; [|discriminate].
  intros [= <-]. apply Z.leb_le in Hd.
  apply andb_true_iff in Hr as [H0 H1].
  apply Z.leb_le in H0. apply Z.leb_le in H1. lia.
Qed.

(** X11.  On a connection that accepts every call, when the date arithmetic
    does not overflow, [activate_vip(days)] returns [True]; the user is VIP
    until [start + days], where [start] is the end of the VIP period still
    running at the time of the call and the time of the call otherwise (a
    running period is extended, not restarted).  The stored row of the user
    carries the new state: for a user with an id the rows of that id are
    written with [is_vip] set and the new end, every other row being left
    as it was, and for a user without id one such row is inserted; the
    store is committed. *)
Theorem activate_vip_extends (u : user.User) (c : user.connection)
    (days now1 now2 start expiry : Z) :
  accepting c ->
  vip_start u now1 now2 start ->
  datetime_add_days start days = Some expiry ->
  let u1 := user.set_vip_until (Some expiry) (user.set_is_vip true u) in
  let written (row : user.User) :=
    user.is_vip row = true /\ user.vip_until row = Some expiry /\
    user.balance row = user.balance u /\
    user.username row = user.username u /\
    user.first_name row = user.first_name u /\
    user.last_name row = user.last_name u /\
    user.is_admin row = user.is_admin u in
  exists c',
    returns (user.activate_vip days now1 now2) (u, c) user.PTrue
      (saved_user u1 c, c') /\
    user.is_vip (saved_user u1 c) = true /\
    user.vip_until (saved_user u1 c) = Some expiry /\
    expiry = start + days * day_us /\
    user.committed c' = user.working c' /\
    (forall i, user.id u = Some i ->
       updated_rows i written
         (user.users (user.working c)) (user.users (user.working c'))) /\
    (user.id u = None ->
     inserted_row (user.next_user_id c) (user.telegram_id u) written
       (user.users (user.working c)) (user.users (user.working c'))).
Proof.
  intros Hok Hstart Huntil u1 written.
  pose proof (datetime_add_days_sum _ _ _ Huntil) as (Hsum & _).
  destruct (save_accepted_user u1 c Hok)
    as (c' & Hsave & _ & Hcommit & _ & Hupdate & Hinsert).
  exists c'. split; [|split; [|split; [|split; [|split; [|split]]]]].
  - unfold user.activate_vip, user.self, user.set_self.
    eapply returns_bind; [reflexivity|cbn beta iota zeta; cbn [fst]].
    destruct Hstart as [[Hrun Hv]|[Hrun ->]].
    + rewrite (proj2 (vip_running_test u now1) Hrun), Hv.
      cbn [mbind option_bind]. rewrite Huntil.
      eapply returns_bind; [reflexivity|]. cbn [fst snd].
      replace (user.set_vip_until (Some expiry) u) with u1; [exact Hsave|].
      subst u1. destruct Hrun as [Hvip _].
      destruct u as [i tg un fn ln ad vp vu bl]. cbn [user.is_vip] in Hvip.
      subst vp. reflexivity.
    + destruct (user.is_vip u && _) eqn:Htest.
      { apply vip_running_test in Htest. contradiction. }
      eapply returns_bind; [reflexivity|]. rewrite Huntil.
      eapply returns_bind; [reflexivity|]. exact Hsave.
  - unfold saved_user. destruct (user.id u1); reflexivity.
  - unfold saved_user. destruct (user.id u1); reflexivity.
  - exact Hsum.
  - exact Hcommit.
  - intros i Hi. rewrite (Hupdate i Hi). apply update_users_written.
    intros row Hbal (Hun & Hfn & Hln & Had & Hvip & Hvu).
    split; [exact Hvip|]. split; [exact Hvu|]. split; [exact Hbal|].
    split; [exact Hun|]. split; [exact Hfn|]. split; [exact Hln|exact Had].
  - intros Hnone. rewrite (Hinsert Hnone).
    exists (user.set_id (user.next_user_id c) u1).
    split; [reflexivity|]. split; [reflexivity|]. split; [reflexivity|].
    repeat split.
Qed.

(** X11 (witness): 30 days added on day 10 to a period that runs until
    day 20 give day 50, and 30 days for [bob], never stored and not a VIP,
    give day 40 in the row inserted for him. *)
Lemma activate_vip_extends_witness :
  (let u1 := user.set_vip_until (Some (50 * day_us))
               (user.set_is_vip true vip_alice) in
   let written (row : user.User) :=
     user.is_vip row = true /\ user.vip_until row = Some (50 * day_us) /\
     user.balance row = user.balance vip_alice /\
     user.username row = user.username vip_alice /\
     user.first_name row = user.first_name vip_alice /\
     user.last_name row = user.last_name vip_alice /\
     user.is_admin row = user.is_admin vip_alice in
   exists c',
     returns (user.activate_vip 30 (10 * day_us) (10 * day_us + 1))
       (vip_alice, sample_connection []) user.PTrue
       (saved_user u1 (sample_connection []), c') /\
     user.is_vip (saved_user u1 (sample_connection [])) = true /\
     user.vip_until (saved_user u1 (sample_connection []))
     = Some (50 * day_us) /\
     50 * day_us = 20 * day_us + 30 * day_us /\
     user.committed c' = user.working c' /\
     (forall i, user.id vip_alice = Some i ->
        updated_rows i written
          (user.users (user.working (sample_connection [])))
          (user.users (user.working c'))) /\
     (user.id vip_alice = None ->
      inserted_row (user.next_user_id (sample_connection []))
        (user.telegram_id vip_alice) written
        (user.users (user.working (sample_connection [])))
        (user.users (user.working c')))) /\
  (let u1 := user.set_vip_until (Some (40 * day_us))
               (user.set_is_vip true bob) in
   let written (row : user.User) :=
     user.is_vip row = true /\ user.vip_until row = Some (40 * day_us) /\
     user.balance row = user.balance bob /\
     user.username row = user.username bob /\
     user.first_name row = user.first_name bob /\
     user.last_name row = user.last_name bob /\
     user.is_admin row = user.is_admin bob in
   exists c',
     returns (user.activate_vip 30 (10 * day_us) (10 * day_us))
       (bob, sample_connection []) user.PTrue
       (saved_user u1 (sample_connection []), c') /\
     user.is_vip (saved_user u1 (sample_connection [])) = true /\
     user.vip_until (saved_user u1 (sample_connection []))
     = Some (40 * day_us) /\
     40 * day_us = 10 * day_us + 30 * day_us /\
     user.committed c' = user.working c' /\
     (forall i, user.id bob = Some i ->
        updated_rows i written
          (user.users (user.working (sample_connection [])))
          (user.users (user.working c'))) /\
     (user.id bob = None ->
      inserted_row (user.next_user_id (sample_connection []))
        (user.telegram_id bob) written
        (user.users (user.working (sample_connection [])))
        (user.users (user.working c')))).
Proof.
  split.
  - apply (activate_vip_extends vip_alice (sample_connection []) 30
             (10 * day_us) (10 * day_us + 1) (20 * day_us) (50 * day_us)).
    + constructor.
    + left. split; [|reflexivity]. split; [reflexivity|].
      exists (20 * day_us). split; [reflexivity|]. reflexivity.
    + reflexivity.
  - apply (activate_vip_extends bob (sample_connection []) 30
             (10 * day_us) (10 * day_us) (10 * day_us) (40 * day_us)).
    + constructor.
    + right. split; [|reflexivity]. intros [Hvip _]. discriminate Hvip.
    + reflexivity.
Defined.

(** X12.  When no VIP period is running, [activate_vip] sets [is_vip] before
    anything can fail: if the date arithmetic overflows, or if the server
    refuses the first call of [save], it returns [False] while the object in
    memory is marked VIP; the store is left as committed. *)
Theorem activate_vip_failure_marks_vip (u : user.User) (c : user.connection)
    (days now1 now2 : Z) :
  ~ vip_running u now1 ->
  (datetime_add_days now2 days = None ->
   user.activate_vip days now1 now2 (u, c)
   = (inr user.PFalse, (user.set_is_vip true u, c))) /\
  (forall expiry rest,
     datetime_add_days now2 days = Some expiry ->
     user.faults c = true :: rest ->
     exists c',
       user.activate_vip days now1 now2 (u, c)
       = (inr user.PFalse,
          (user.set_vip_until (Some expiry) (user.set_is_vip true u), c')) /\
       user.committed c' = user.committed c /\
       user.working c' = user.committed c).
Proof.
  intros Hrun.
  assert (Htest : user.is_vip u && match user.vip_until u with
                                   | Some v => now1 <? v
                                   | None => false
                                   end = false).
  { destruct (user.is_vip u && _) eqn:Htest; [|reflexivity].
    apply vip_running_test in Htest. contradiction. }
  split.
  - intros Hover. unfold user.activate_vip, bind, user.self, user.set_self,
      modify, ret. cbn [fst snd]. rewrite Htest, Hover. reflexivity.
  - intros expiry rest Huntil Hf.
    destruct c as [cm wk nu nt fs]. cbn [user.faults] in Hf. subst fs.
    eexists. split.
    + unfold user.activate_vip, user.self, user.set_self.
      eapply bind_step; [reflexivity|cbn beta iota zeta; cbn [fst]].
      rewrite Htest.
      eapply bind_step; [reflexivity|]. rewrite Huntil.
      eapply bind_step; [reflexivity|].
      unfold user.save, user.cursor.
      eapply try_raises.
      { apply bind_raises. apply server_call_refuses. reflexivity. }
      reflexivity.
    + split; reflexivity.
Qed.

(** X12 (witness): a period of 10^9 days, and a refused cursor. *)
Lemma activate_vip_failure_marks_vip_witness :
  (user.activate_vip 1000000000 0 (10 * day_us) (alice, sample_connection [])
   = (inr user.PFalse, (user.set_is_vip true alice, sample_connection []))) /\
  (exists c',
     user.activate_vip 30 0 (10 * day_us) (alice, sample_connection [true])
     = (inr user.PFalse,
        (user.set_vip_until (Some (40 * day_us)) (user.set_is_vip true alice),
         c')) /\
     user.committed c' = user.committed (sample_connection [true]) /\
     user.working c' = user.committed (sample_connection [true])).
Proof.
  assert (Hidle : ~ vip_running alice 0).
  { intros [Hvip _]. discriminate. }
  split.
  - apply (proj1 (activate_vip_failure_marks_vip alice (sample_connection [])
                    1000000000 0 (10 * day_us) Hidle)).
    reflexivity.
  - apply (proj2 (activate_vip_failure_marks_vip alice
                    (sample_connection [true]) 30 0 (10 * day_us) Hidle)
             (40 * day_us) []); reflexivity.
Defined.

(** ** [main.py]: which button presses reach a handler *)

(** A literal at the head of a pattern. *)
Lemma exec_literal (cs : list N) (r0 : regex) :
  forall (b : bool) (s : list N) (k : bool -> list N -> bool),
    exec (fold_right (fun c r => Cat (Chr c) r) r0 cs) b s k
    = match cs with
      | [] => exec r0 b s k
      | _ => str_startswith cs s && exec r0 false (drop (length cs) s) k
      end.
Proof.
  induction cs as [|c cs IH]; intros b s k; [reflexivity|].
  change (exec (fold_right (fun c r => Cat (Chr c) r) r0 (c :: cs)) b s k)
    with (match s with
          | a :: s' =>
              (a =? c)%N
              && exec (fold_right (fun c r => Cat (Chr c) r) r0 cs) false s' k
          | [] => false
          end).
  destruct s as [|a s]; [reflexivity|].
  rewrite IH. rewrite (N.eqb_sym a c).
  destruct cs as [|c' cs].
  - cbn [str_startswith length drop]. now rewrite andb_true_r.
  - change (str_startswith (c :: c' :: cs) (a :: s))
      with ((c =? a)%N && str_startswith (c' :: cs) s).
    change (drop (length (c :: c' :: cs)) (a :: s))
      with (drop (length (c' :: cs)) s).
    now rewrite andb_assoc.
Qed.

Lemma re_match_prefixed (data : list N) :
  re_match (main.prefixed "pagar_") data
  = str_startswith (lit "pagar_") data.
Proof.
  unfold re_match, main.prefixed.
  change (exec (Cat Bol ?r) true data ?k) with (exec r true data k).
  rewrite exec_literal.
  change (lit "pagar_") with [112; 97; 103; 97; 114; 95]%N.
  cbv beta iota. now rewrite andb_true_r.
Qed.

Lemma str_startswith_prefix (p s : list N) :
  str_startswith p s = true -> exists rest, s = p ++ rest.
Proof.
  revert s. induction p as [|a p IH]; intros s; [now exists s|].
  destruct s as [|b s]; [discriminate|]. cbn [str_startswith].
  intros H. apply andb_true_iff in H as [Hab Hps].
  apply N.eqb_eq in Hab. subst b.
  destruct (IH s Hps) as (rest & ->). now exists rest.
Qed.

(** X13.  A button press is routed to [processar_pagamento] exactly when its
    callback data starts with ["pagar_"]: no earlier pattern of
    [main.py] takes such data, and no other data reaches the handler, so the
    handler's own test of the prefix never fails there. *)
Theorem dispatch_processar_pagamento (data : list N) :
  (main.dispatch_callback data = Some main.processar_pagamento
   <-> str_startswith (lit "pagar_") data = true) /\
  (main.dispatch_callback data = Some main.processar_pagamento ->
   negb (str_startswith (lit "pagar_") data) = false).
Proof.
  assert (Hiff : main.dispatch_callback data = Some main.processar_pagamento
                 <-> str_startswith (lit "pagar_") data = true).
  { split.
    - unfold main.dispatch_callback, main.callback_query_handlers.
      cbn [List.find fst snd].
      repeat match goal with
             | |- context [if re_match (main.anchored ?n) data then _ else _] =>
                 destruct (re_match (main.anchored n) data);
                 [cbn [fmap option_fmap option_map snd]; discriminate|]
             end.
      rewrite re_match_prefixed.
      destruct (str_startswith (lit "pagar_") data); [reflexivity|discriminate].
    - intros Hpre. apply str_startswith_prefix in Hpre as (rest & ->).
      reflexivity. }
  split; [exact Hiff|].
  intros Hroute. apply Hiff in Hroute. now rewrite Hroute.
Qed.

(** X14.  [main.py] registers no handler for several buttons the screens
    show: every duration button of the add-plan flow (any data starting with
    ["plan_duration_"]), the verify and copy buttons of a payment (any data
    starting with ["check_payment_"] or ["copy_pix_"]), and
    ["adicionar_plano"], ["gerar_codigo_canal"], ["config_bot"],
    ["menu_bot"], ["remover_midia"] and ["visualizacao_completa"]. *)
Theorem buttons_without_handler :
  Forall (fun d => main.dispatch_callback d = None)
    (keyboard_targets bot_handler.duration_keyboard) /\
  (forall rest, main.dispatch_callback (lit "plan_duration_" ++ rest) = None) /\
  (forall rest, main.dispatch_callback (lit "check_payment_" ++ rest) = None) /\
  (forall rest, main.dispatch_callback (lit "copy_pix_" ++ rest) = None) /\
  Forall (fun d => main.dispatch_callback d = None)
    [lit "adicionar_plano"; lit "gerar_codigo_canal"; lit "config_bot";
     lit "menu_bot"; lit "remover_midia"; lit "visualizacao_completa"].
Proof.
  split; [|split; [|split; [|split]]].
  - repeat constructor.
  - reflexivity.
  - reflexivity.
  - reflexivity.
  - repeat constructor.
Qed.

(** ** [handlers/payment_handler.py]: creating a payment *)

Lemma int_of_time_finite (t : spec_float) (n : Z) (s : session) :
  F64.to_Z t = Some n -> payment_handler.int_of_time t s = (inr n, s).
Proof.
  intros Ht. unfold payment_handler.int_of_time, bind, global_name.
  cbn [existsb]. 
  destruct t; rewrite Ht; reflexivity.
Qed.

Lemma find_plan_without_id (planos : list (gmap string scalar)) (plano_id : Z) :
  plano_id <> 0 ->
  Forall (fun p => p !! "id" = None) planos ->
  List.find (fun p => scalar_eq_int (default (SInt 0) (p !! "id")) plano_id)
    planos = None.
Proof.
  intros Hid. induction 1 as [|p planos Hp _ IH]; [reflexivity|].
  cbn [List.find]. rewrite Hp. cbn [default scalar_eq_int].
  apply Z.eqb_neq in Hid. rewrite Z.eqb_sym, Hid. exact IH.
Qed.

(** X15.  For callback data ["pagar_<n>"] with [n <> 0], stored plans that
    carry no ["id"] key (none does after the add-plan flow) and finite clock
    readings, [processar_pagamento] charges the test plan: it stores a
    pending record of 19.90 under ["TX<int(time)>"], the id carried by the
    copy and verify buttons of the last message.  The table [pagamentos] is
    replaced by the one that holds this record only, so every payment
    stored before is dropped; [user_data] is unchanged. *)
Theorem processar_pagamento_stores_pending `{UnicodeDB} (update : Update)
    (t1 t2 t3 : spec_float) (s : session) (x seg : list N)
    (more : list (list N)) (plano_id n1 n2 : Z)
    (planos : list (gmap string scalar)) :
  query_data update = lit "pagar_" ++ x ->
  str_split 95 x = seg :: more ->
  py_int seg = Some plano_id ->
  plano_id <> 0 ->
  holds_plans s planos ->
  Forall (fun p => p !! "id" = None) planos ->
  F64.to_Z t1 = Some n1 ->
  F64.to_Z t2 = Some n2 ->
  let transaction_id := lit "TX" ++ str_of_int n1 in
  let record := pending_payment (effective_user_id update) plano_id t3 in
  exists s',
    payment_handler.processar_pagamento update t1 t2 t3 s = (inr tt, s') /\
    user_data s' = user_data s /\
    bot_data s' = <["pagamentos" := {[ transaction_id := record ]}]> (bot_data s) /\
    table_entry s' "pagamentos" transaction_id = Some record /\
    (forall other, other <> transaction_id ->
       table_entry s' "pagamentos" other = None) /\
    keyboard_targets (last_keyboard s')
    = [lit "copy_pix_" ++ transaction_id;
       lit "check_payment_" ++ transaction_id; lit "menu_principal"].
Proof.
  intros Hdata Hsplit Hint Hid Hplanos Hnoid Ht1 Ht2 transaction_id record.
  assert (Hiter : payment_handler.iter_planos (user_data s !! "planos")
                  = ret planos).
  { unfold holds_plans in Hplanos.
    destruct (user_data s !! "planos") as [v|]; subst; reflexivity. }
  eexists. split.
  - unfold payment_handler.processar_pagamento.
    rewrite Hdata, str_startswith_app. cbn [negb].
    change (lit "pagar_" ++ x) with (lit "pagar" ++ 95%N :: x).
    rewrite str_split_app by (vm_compute; repeat constructor; discriminate).
    rewrite Hsplit.
    eapply bind_step; [reflexivity|].
    eapply bind_step.
    { apply returns_try. unfold index. cbn [lookup list_lookup].
      eapply returns_bind; [reflexivity|]. rewrite Hint. reflexivity. }
    cbn beta iota.
    eapply bind_step; [reflexivity|cbn beta; cbn [user_data]]. rewrite Hiter.
    eapply bind_step; [reflexivity|cbn beta].
    rewrite (find_plan_without_id planos plano_id Hid Hnoid).
    cbn beta iota zeta.
    eapply bind_step; [reflexivity|cbn beta].
    eapply bind_step; [reflexivity|cbn beta].
    eapply bind_step; [reflexivity|cbn beta].
    eapply bind_step; [reflexivity|cbn beta].
    eapply bind_step; [reflexivity|cbn beta].
    apply returns_try.
    eapply returns_bind; [apply int_of_time_finite; exact Ht1|cbn beta].
    eapply returns_bind; [apply int_of_time_finite; exact Ht2|cbn beta].
    eapply returns_bind; [reflexivity|cbn beta].
    eapply returns_bind; [reflexivity|cbn beta].
    eapply returns_bind; [reflexivity|cbn beta].
    eapply returns_bind; [reflexivity|cbn beta; cbn [bot_data]].
    rewrite lookup_insert_eq. reflexivity.
  - subst transaction_id record. unfold table_entry, last_keyboard, pending_payment.
    cbn [user_data bot_data sent].
    rewrite insert_insert_eq, insert_empty, last_snoc, lookup_insert_eq.
    split; [reflexivity|]. split; [reflexivity|].
    split; [apply lookup_singleton_eq|].
    split; [|reflexivity].
    intros other Hother. apply lookup_singleton_ne. congruence.
Qed.

(** X15 (witness): a user with a plan ["Mensal"] at 50 and an earlier
    pending payment presses ["pagar_3"]. *)
Lemma processar_pagamento_stores_pending_witness :
  let now := F64.of_decimal false 17000000005 (-1) in
  let update := callback_query 7 (lit "pagar_3") in
  let transaction_id := lit "TX" ++ str_of_int 1700000000 in
  let record := pending_payment 7 3 now in
  let s := {| user_data :=
                {[ "planos" := VList [ {[ "nome" := SStr (lit "Mensal");
                                          "preco" := SFloat (F64.of_Z 50);
                                          "duracao" := SInt 30 ]} ] ]};
              bot_data :=
                {[ "pagamentos" := {[ lit "TX1600000000" := pending_payment 7 1 now ]} ]};
              sent := [] |} in
  exists s',
    @payment_handler.processar_pagamento ascii_only_db update now now now s
    = (inr tt, s') /\
    user_data s' = user_data s /\
    bot_data s' = <["pagamentos" := {[ transaction_id := record ]}]> (bot_data s) /\
    table_entry s' "pagamentos" transaction_id = Some record /\
    (forall other, other <> transaction_id ->
       table_entry s' "pagamentos" other = None) /\
    keyboard_targets (last_keyboard s')
    = [lit "copy_pix_" ++ transaction_id;
       lit "check_payment_" ++ transaction_id; lit "menu_principal"].
Proof.
  cbv zeta.
  eapply (@processar_pagamento_stores_pending ascii_only_db
            (callback_query 7 (lit "pagar_3")) _ _ _ _ (lit "3") (lit "3") []
            3 1700000000 1700000000
            [ {[ "nome" := SStr (lit "Mensal");
                 "preco" := SFloat (F64.of_Z 50);
                 "duracao" := SInt 30 ]} ]).
  - reflexivity.
  - reflexivity.
  - reflexivity.
  - discriminate.
  - reflexivity.
  - repeat constructor.
  - reflexivity.
  - reflexivity.
Defined.

(** X16.  When the text between ["pagar_"] and the next underscore is not
    an [int], [processar_pagamento] answers the query, reports the invalid
    plan and changes nothing else.  The segment always exists, so the
    [IndexError] branch is never taken. *)
Theorem processar_pagamento_invalid_plan `{UnicodeDB} (update : Update)
    (t1 t2 t3 : spec_float) (s : session) (x seg : list N)
    (more : list (list N)) :
  query_data update = lit "pagar_" ++ x ->
  str_split 95 x = seg :: more ->
  py_int seg = None ->
  payment_handler.processar_pagamento update t1 t2 t3 s
  = (inr tt,
     sending s
       [answer;
        edit_message_text
          [T "❌ Erro ao processar o pagamento. Plano inválido."] []]).
Proof.
  intros Hdata Hsplit Hint.
  unfold payment_handler.processar_pagamento.
  rewrite Hdata, str_startswith_app. cbn [negb].
  change (lit "pagar_" ++ x) with (lit "pagar" ++ 95%N :: x).
  rewrite str_split_app by (vm_compute; repeat constructor; discriminate).
  rewrite Hsplit.
  eapply bind_step; [reflexivity|].
  eapply bind_step.
  { unfold returns. eapply try_raises.
    - unfold index. cbn [lookup list_lookup].
      eapply bind_step; [reflexivity|]. rewrite Hint. reflexivity.
    - reflexivity. }
  unfold sending. cbn [user_data bot_data sent]. rewrite <- app_assoc.
  reflexivity.
Qed.

(** X16 (witness): the data ["pagar_"] alone. *)
Lemma processar_pagamento_invalid_plan_witness :
  @payment_handler.processar_pagamento ascii_only_db
    (callback_query 7 (lit "pagar_")) F64.zero F64.zero F64.zero fresh_session
  = (inr tt,
     sending fresh_session
       [answer;
        edit_message_text
          [T "❌ Erro ao processar o pagamento. Plano inválido."] []]).
Proof.
  apply (@processar_pagamento_invalid_plan ascii_only_db
           (callback_query 7 (lit "pagar_")) F64.zero F64.zero F64.zero
           fresh_session [] [] []); reflexivity.
Defined.

(** ** [handlers/bot_handler.py]: the add-plan conversation *)

Lemma adicionar_plano_run (update : Update) (s : session) :
  exists s',
    returns (bot_handler.adicionar_plano update) s tt s' /\
    user_data s'
    = <["new_plan" := VDict ∅]>
        (<["waiting_for" := VStr "plan_name"]> (user_data s)) /\
    bot_data s' = bot_data s.
Proof. eexists. split; [reflexivity|]. split; reflexivity. Qed.

Lemma processar_nome_plano_run (update : Update) (s : session)
    (plan : gmap string scalar) :
  user_data s !! "waiting_for" = Some (VStr "plan_name") ->
  user_data s !! "new_plan" = Some (VDict plan) ->
  exists s',
    returns (bot_handler.processar_nome_plano update) s tt s' /\
    user_data s'
    = <["waiting_for" := VStr "plan_price"]>
        (<["new_plan" := VDict (<["nome" := SStr (message_text update)]> plan)]>
           (user_data s)) /\
    bot_data s' = bot_data s.
Proof.
  intros Htag Hplan. apply eq_str_true in Htag.
  eexists. split.
  - unfold bot_handler.processar_nome_plano, user_data_get.
    eapply returns_bind.
    { eapply returns_bind; [reflexivity|apply returns_ret]. }
    cbn beta. rewrite Htag. cbn [negb].
    eapply returns_bind.
    { unfold user_data_setitem, user_data_dict.
      eapply returns_bind.
      { eapply returns_bind; [reflexivity|cbn beta]. rewrite Hplan.
        apply returns_ret. }
      reflexivity. }
    eapply returns_bind; [reflexivity|]. reflexivity.
  - split; reflexivity.
Qed.

Lemma processar_preco_plano_run `{UnicodeDB} (update : Update) (s : session)
    (plan : gmap string scalar) (preco : spec_float) :
  user_data s !! "waiting_for" = Some (VStr "plan_price") ->
  user_data s !! "new_plan" = Some (VDict plan) ->
  bot_handler.parse_preco (message_text update) = Some preco ->
  exists s',
    returns (bot_handler.processar_preco_plano update) s tt s' /\
    user_data s'
    = <["waiting_for" := VStr "plan_duration"]>
        (<["new_plan" := VDict (<["preco" := SFloat preco]> plan)]>
           (user_data s)) /\
    bot_data s' = bot_data s.
Proof.
  intros Htag Hplan Hpreco. apply eq_str_true in Htag.
  eexists. split.
  - unfold bot_handler.processar_preco_plano, user_data_get.
    eapply returns_bind.
    { eapply returns_bind; [reflexivity|apply returns_ret]. }
    cbn beta. rewrite Htag. cbn [negb]. rewrite Hpreco.
    apply returns_try.
    eapply returns_bind; [reflexivity|cbn beta].
    eapply returns_bind.
    { unfold user_data_setitem, user_data_dict.
      eapply returns_bind.
      { eapply returns_bind; [reflexivity|cbn beta]. rewrite Hplan.
        apply returns_ret. }
      reflexivity. }
    eapply returns_bind; [reflexivity|]. reflexivity.
  - split; reflexivity.
Qed.

Lemma str_split_no_sep (sep : N) (s : list N) :
  Forall (fun c => c <> sep) s -> str_split sep s = [s].
Proof.
  induction 1 as [|c s Hc _ IH]; [reflexivity|].
  cbn [str_split]. apply N.eqb_neq in Hc. now rewrite Hc, IH.
Qed.

Lemma last_duration_segment (digits : list N) :
  Forall (fun c => c <> 95%N) digits ->
  last (str_split 95 (lit "plan_duration_" ++ digits)) = Some digits.
Proof.
  intros Hdigits.
  change (lit "plan_duration_" ++ digits)
    with (lit "plan" ++ 95%N :: (lit "duration" ++ 95%N :: digits)).
  rewrite !str_split_app by (vm_compute; repeat constructor; discriminate).
  now rewrite str_split_no_sep.
Qed.

(** The steps of [processar_duracao_plano] up to the test of [planos]. *)
Ltac duration_head Hdata Hlast Hint Hplan Hnome Hpreco Hstored :=
  unfold bot_handler.processar_duracao_plano;
  eapply returns_bind; [reflexivity|cbn beta];
  rewrite Hdata, str_startswith_app, Hlast;
  cbn beta iota; cbn [negb default from_option id];
  rewrite Hint;
  eapply returns_bind; [reflexivity|cbn beta];
  eapply returns_bind;
  [ unfold user_data_setitem, user_data_dict;
    eapply returns_bind;
    [ eapply returns_bind; [reflexivity|cbn beta; cbn [user_data]];
      rewrite Hplan; apply returns_ret
    | reflexivity ]
  | ];
  eapply returns_bind;
  [ unfold user_data_dict;
    eapply returns_bind; [reflexivity|cbn beta; cbn [user_data]];
    rewrite lookup_insert_eq; apply returns_ret
  | cbn beta ];
  eapply returns_bind;
  [ unfold getitem; rewrite lookup_insert_ne by discriminate;
    rewrite Hnome; apply returns_ret | ];
  eapply returns_bind;
  [ unfold getitem; rewrite lookup_insert_ne by discriminate;
    rewrite Hpreco; apply returns_ret | cbn beta zeta ];
  eapply returns_bind; [reflexivity|cbn beta; cbn [user_data]];
  rewrite lookup_insert_ne, Hstored by discriminate.

Lemma processar_duracao_plano_run `{UnicodeDB} (update : Update) (s : session)
    (digits : list N) (duracao : Z) (plan : gmap string scalar)
    (nome : scalar) (preco : spec_float)
    (planos : list (gmap string scalar)) :
  query_data update = lit "plan_duration_" ++ digits ->
  Forall (fun c => c <> 95%N) digits ->
  py_int digits = Some duracao ->
  user_data s !! "new_plan" = Some (VDict plan) ->
  plan !! "nome" = Some nome ->
  plan !! "preco" = Some (SFloat preco) ->
  holds_plans s planos ->
  exists s',
    returns (bot_handler.processar_duracao_plano update) s tt s' /\
    user_data s'
    = delete "new_plan"
        (delete "waiting_for"
           (<["planos" := VList (planos ++ [<["duracao" := SInt duracao]> plan])]>
              (<["new_plan" := VDict (<["duracao" := SInt duracao]> plan)]>
                 (user_data s)))) /\
    bot_data s' = bot_data s.
Proof.
  intros Hdata Hdigits Hint Hplan Hnome Hpreco Hplanos.
  pose proof (last_duration_segment digits Hdigits) as Hlast.
  unfold holds_plans in Hplanos.
  destruct (user_data s !! "planos") as [v|] eqn:Hstored;
    [subst v|subst planos]; eexists; (split; [|split]).
  - duration_head Hdata Hlast Hint Hplan Hnome Hpreco Hstored.
    eapply returns_bind; [apply returns_ret|].
    eapply returns_bind; [reflexivity|cbn beta; cbn [user_data]].
    rewrite lookup_insert_ne, Hstored by discriminate.
    do 4 (eapply returns_bind; [reflexivity|]).
    reflexivity.
  - reflexivity.
  - reflexivity.
  - duration_head Hdata Hlast Hint Hplan Hnome Hpreco Hstored.
    eapply returns_bind; [reflexivity|].
    eapply returns_bind; [reflexivity|cbn beta; cbn [user_data]].
    rewrite lookup_insert_eq.
    do 4 (eapply returns_bind; [reflexivity|]).
    reflexivity.
  - cbn [user_data]. now rewrite insert_insert_eq.
  - reflexivity.
Qed.

(** X17.  The four handlers of the add-plan conversation run in order
    (button, name, a price that parses to a positive value, a duration
    button) complete without exception; the plan [{nome, preco, duracao}]
    is appended to the stored plans, it has no ["id"] key, the tag
    [waiting_for] and the plan under construction are removed, and no other
    entry of [user_data] and nothing in [bot_data] changes. *)
Theorem add_plan_conversation_appends `{UnicodeDB} (s : session) (user_id : Z)
    (nome price digits : list N) (preco : spec_float) (duracao : Z)
    (planos : list (gmap string scalar)) :
  bot_handler.parse_preco price = Some preco ->
  Forall (fun c => c <> 95%N) digits ->
  py_int digits = Some duracao ->
  holds_plans s planos ->
  exists s',
    returns
      (add_plan_conversation user_id nome price (lit "plan_duration_" ++ digits))
      s tt s' /\
    user_data s' !! "planos"
    = Some (VList (planos ++ [built_plan nome preco duracao])) /\
    built_plan nome preco duracao !! "id" = None /\
    user_data s' !! "waiting_for" = None /\
    user_data s' !! "new_plan" = None /\
    (forall k, k <> "planos" -> k <> "waiting_for" -> k <> "new_plan" ->
       user_data s' !! k = user_data s !! k) /\
    bot_data s' = bot_data s.
Proof.
  intros Hpreco Hdigits Hint Hplanos.
  destruct (adicionar_plano_run
              (callback_query user_id (lit "adicionar_plano")) s)
    as (s1 & Hrun1 & Hdata1 & Hbot1).
  destruct (processar_nome_plano_run
              (message user_id user_id [] (lit "private") nome) s1 ∅)
    as (s2 & Hrun2 & Hdata2 & Hbot2).
  { rewrite Hdata1. rewrite lookup_insert_ne by discriminate.
    apply lookup_insert_eq. }
  { rewrite Hdata1. apply lookup_insert_eq. }
  destruct (processar_preco_plano_run
              (message user_id user_id [] (lit "private") price) s2
              (<["nome" := SStr nome]> ∅) preco)
    as (s3 & Hrun3 & Hdata3 & Hbot3).
  { rewrite Hdata2. apply lookup_insert_eq. }
  { rewrite Hdata2. rewrite lookup_insert_ne by discriminate.
    apply lookup_insert_eq. }
  { exact Hpreco. }
  destruct (processar_duracao_plano_run
              (callback_query user_id (lit "plan_duration_" ++ digits)) s3
              digits duracao
              (<["preco" := SFloat preco]> (<["nome" := SStr nome]> ∅))
              (SStr nome) preco planos)
    as (s4 & Hrun4 & Hdata4 & Hbot4); try assumption.
  { reflexivity. }
  { rewrite Hdata3. rewrite lookup_insert_ne by discriminate.
    apply lookup_insert_eq. }
  { reflexivity. }
  { reflexivity. }
  { unfold holds_plans in *. rewrite Hdata3, Hdata2, Hdata1.
    rewrite !lookup_insert_ne by discriminate. exact Hplanos. }
  exists s4. split; [|split; [|split; [|split; [|split; [|split]]]]].
  - unfold add_plan_conversation.
    eapply returns_bind; [exact Hrun1|].
    eapply returns_bind; [exact Hrun2|].
    eapply returns_bind; [exact Hrun3|]. exact Hrun4.
  - rewrite Hdata4. rewrite !lookup_delete_ne by discriminate.
    apply lookup_insert_eq.
  - reflexivity.
  - rewrite Hdata4. rewrite lookup_delete_ne by discriminate.
    apply lookup_delete_eq.
  - rewrite Hdata4. apply lookup_delete_eq.
  - intros k Hk1 Hk2 Hk3.
    rewrite Hdata4, Hdata3, Hdata2, Hdata1.
    rewrite !lookup_delete_ne by congruence.
    rewrite !lookup_insert_ne by congruence. reflexivity.
  - congruence.
Qed.

(** X17 (witness): the plan ["Mensal"] at ["19,90"] for 30 days, from a
    fresh session. *)
Lemma add_plan_conversation_appends_witness :
  exists s',
    returns
      (@add_plan_conversation ascii_only_db 7 (lit "Mensal") (lit "19,90")
         (lit "plan_duration_" ++ lit "30"))
      fresh_session tt s' /\
    user_data s' !! "planos"
    = Some (VList ([] ++ [built_plan (lit "Mensal")
                            (S754_finite false 5601352036542054 (-48)) 30])) /\
    built_plan (lit "Mensal") (S754_finite false 5601352036542054 (-48)) 30
      !! "id" = None /\
    user_data s' !! "waiting_for" = None /\
    user_data s' !! "new_plan" = None /\
    (forall k, k <> "planos" -> k <> "waiting_for" -> k <> "new_plan" ->
       user_data s' !! k = user_data fresh_session !! k) /\
    bot_data s' = bot_data fresh_session.
Proof.
  apply (@add_plan_conversation_appends ascii_only_db fresh_session 7
           (lit "Mensal") (lit "19,90") (lit "30")
           (S754_finite false 5601352036542054 (-48)) 30 []).
  - reflexivity.
  - vm_compute. repeat constructor; discriminate.
  - reflexivity.
  - reflexivity.
Defined.

(** X18.  A duration button pressed when no plan is under construction (for
    instance a second press, after the plan was added) answers the query and
    raises [KeyError('new_plan')]: nothing is stored. *)
Theorem duration_without_plan_raises `{UnicodeDB} (update : Update)
    (s : session) (digits : list N) (duracao : Z) :
  query_data update = lit "plan_duration_" ++ digits ->
  Forall (fun c => c <> 95%N) digits ->
  py_int digits = Some duracao ->
  user_data s !! "new_plan" = None ->
  bot_handler.processar_duracao_plano update s
  = (inl (KeyError "new_plan"), sending s [answer]).
Proof.
  intros Hdata Hdigits Hint Hplan.
  pose proof (last_duration_segment digits Hdigits) as Hlast.
  unfold bot_handler.processar_duracao_plano.
  eapply bind_step; [reflexivity|cbn beta].
  rewrite Hdata, str_startswith_app, Hlast.
  cbn beta iota; cbn [negb default from_option id].
  rewrite Hint.
  eapply bind_step; [reflexivity|cbn beta].
  apply bind_raises. unfold user_data_setitem. apply bind_raises.
  unfold user_data_dict.
  eapply bind_step; [reflexivity|cbn beta; cbn [user_data]].
  rewrite Hplan. reflexivity.
Qed.

(** X18 (witness): the 30-day button in a fresh session. *)
Lemma duration_without_plan_raises_witness :
  @bot_handler.processar_duracao_plano ascii_only_db
    (callback_query 7 (lit "plan_duration_" ++ lit "30")) fresh_session
  = (inl (KeyError "new_plan"), sending fresh_session [answer]).
Proof.
  apply (@duration_without_plan_raises ascii_only_db
           (callback_query 7 (lit "plan_duration_" ++ lit "30")) fresh_session
           (lit "30") 30).
  - reflexivity.
  - vm_compute. repeat constructor; discriminate.
  - reflexivity.
  - reflexivity.
Defined.

(** X19.  [configurar_midia] and [configurar_texto] render their screen and
    set [waiting_for] to ["media_upload"] and ["welcome_text"]; no free-text
    handler waits for either tag, so whatever the user sends next is ignored
    by all of them and the session stays as it is. *)
Theorem input_screens_await_nothing `{UnicodeDB} (a : input_screen)
    (press : Update) (s : session) :
  exists s',
    returns (run_input_screen a press) s tt s' /\
    user_data s' = <["waiting_for" := VStr (input_tag a)]> (user_data s) /\
    bot_data s' = bot_data s /\
    forall (h : free_text_handler) (update : Update),
      run_free_text h update s' = (inr tt, s').
Proof.
  assert (Hpass : forall s' : session,
            user_data s' = <["waiting_for" := VStr (input_tag a)]> (user_data s) ->
            forall (h : free_text_handler) (update : Update),
              run_free_text h update s' = (inr tt, s')).
  { intros s' Hdata h update.
    assert (Htag : eq_str (user_data s' !! "waiting_for") (expected_tag h)
                   = false).
    { apply eq_str_false. rewrite Hdata, lookup_insert_eq.
      destruct a, h; vm_compute; discriminate. }
    destruct h; simpl in Htag |- *;
      unfold bot_handler.verificar_token_bot, bot_handler.processar_nome_plano,
        bot_handler.processar_preco_plano, bind, user_data_get, get_state, ret;
      simpl; rewrite Htag; reflexivity. }
  destruct a as [|str_]; cbn [run_input_screen input_tag] in *.
  - eexists. split; [reflexivity|]. split; [reflexivity|].
    split; [reflexivity|]. apply Hpass. reflexivity.
  - unfold bot_handler.configurar_texto, returns, emit, modify,
      user_data_get, user_data_set, set_user_data, bind, get_state, ret.
    cbn beta iota. eexists. split; [reflexivity|].
    cbn [user_data bot_data sent]. split; [reflexivity|].
    split; [reflexivity|]. apply Hpass. reflexivity.
Qed.

(** X20.  After [criar_bot_callback] the session waits for the token.  A
    first message that is not a token gets the invalid-token reply and clears
    the tag, so a second message, whatever it is, is ignored: the user has to
    press the button again before a corrected token is read. *)
Theorem token_retry_is_ignored `{UnicodeDB} (press first second : Update)
    (s : session) :
  helpers.is_valid_bot_token (message_text first) = false ->
  exists s1 s2,
    returns (menu_handler.criar_bot_callback press) s tt s1 /\
    user_data s1 !! "waiting_for" = Some (VStr "bot_token") /\
    returns (bot_handler.verificar_token_bot first) s1 tt s2 /\
    sent s2 = sent s1 ++ [reply_text bot_handler.invalid_token_text []] /\
    bot_handler.verificar_token_bot second s2 = (inr tt, s2).
Proof.
  intros Hbad. unfold helpers.is_valid_bot_token in Hbad.
  assert (Hpress : exists s1,
            returns (menu_handler.criar_bot_callback press) s tt s1 /\
            user_data s1 = <["waiting_for" := VStr "bot_token"]> (user_data s)).
  { eexists. split; reflexivity. }
  destruct Hpress as (s1 & Hrun1 & Hdata1).
  assert (Htag : user_data s1 !! "waiting_for" = Some (VStr "bot_token")).
  { rewrite Hdata1. apply lookup_insert_eq. }
  exists s1,
    {| user_data := delete "waiting_for" (user_data s1);
       bot_data := bot_data s1;
       sent := sent s1 ++ [reply_text bot_handler.invalid_token_text []] |}.
  split; [exact Hrun1|]. split; [exact Htag|].
  split; [|split; [reflexivity|]].
  - unfold bot_handler.verificar_token_bot, returns, user_data_get,
      user_data_pop, set_user_data, emit, modify, bind, get_state, ret.
    cbn beta iota. rewrite Htag. cbn [negb user_data bot_data sent].
    rewrite Hbad. reflexivity.
  - unfold bot_handler.verificar_token_bot, user_data_get, bind, get_state, ret.
    cbn beta iota. cbn [user_data].
    rewrite lookup_delete_eq. reflexivity.
Qed.

(** X20 (witness): the example token of the instructions, then a token of
    the right shape. *)
Lemma token_retry_is_ignored_witness :
  exists s1 s2,
    returns (menu_handler.criar_bot_callback (callback_query 7 (lit "criar_bot")))
      fresh_session tt s1 /\
    user_data s1 !! "waiting_for" = Some (VStr "bot_token") /\
    returns (@bot_handler.verificar_token_bot ascii_only_db
               (message 7 7 [] (lit "private") example_token)) s1 tt s2 /\
    sent s2 = sent s1 ++ [reply_text bot_handler.invalid_token_text []] /\
    @bot_handler.verificar_token_bot ascii_only_db
      (message 7 7 [] (lit "private") sample_token) s2 = (inr tt, s2).
Proof.
  apply (@token_retry_is_ignored ascii_only_db
           (callback_query 7 (lit "criar_bot"))
           (message 7 7 [] (lit "private") example_token)
           (message 7 7 [] (lit "private") sample_token) fresh_session).
  reflexivity.
Defined.

(** ** [handlers/bot_handler.py]: the plans screen *)

(** The lines of complete plans are computed without exception, one line
    per plan. *)
Lemma plan_lines_complete (planos : list (gmap string scalar)) :
  Forall complete_plan planos ->
  forall (i : Z) (s : session),
  exists lines,
    returns (bot_handler.plan_lines i planos) s (concat lines) s /\
    lines_of_plans i planos lines.
Proof.
  induction 1 as [|p planos Hp _ IH]; intros i s.
  - exists []. split; [reflexivity|]. split; [reflexivity|].
    intros j q Hq. discriminate Hq.
  - destruct Hp as ([nome Hnome] & (x & Hpreco) & [duracao Hduracao]).
    destruct (IH (i + 1) s) as (more & Hmore & Hlen & Hlines).
    exists (plan_line i nome x duracao :: more). split.
    + cbn [bot_handler.plan_lines]. unfold getitem.
      rewrite Hnome, Hpreco, Hduracao.
      eapply returns_bind; [apply returns_ret|].
      eapply returns_bind; [apply returns_ret|].
      eapply returns_bind; [reflexivity|].
      eapply returns_bind; [apply returns_ret|].
      eapply returns_bind; [exact Hmore|].
      apply returns_ret.
    + split; [cbn [length]; now rewrite Hlen|].
      intros [|j] q Hq.
      * injection Hq as <-. exists nome, x, duracao.
        repeat split; try assumption.
        cbn [lookup list_lookup]. f_equal. f_equal. lia.
      * destruct (Hlines j q Hq) as (n' & x' & d' & Hn' & Hx' & Hd' & Hline).
        exists n', x', d'. repeat split; try assumption.
        cbn [lookup list_lookup]. change (more !! j) with (lookup j more).
        rewrite Hline. f_equal. f_equal. lia.
Qed.

(** X21.  The plan built by the add-plan conversation is complete (a name, a
    numeric price, a duration).  When every stored plan is complete,
    [configurar_planos] completes without exception: it answers the query
    and edits the message into the plans screen, with the keyboard that
    offers to add a plan.  The text of the screen is the heading followed
    by one line per stored plan, in order and numbered from 1, each line
    showing the name, the price with two decimals and the duration in days
    of its plan; without plans it is the heading and the notice that no
    plan is configured.  The session is otherwise unchanged. *)
Theorem configurar_planos_lists_plans (update : Update) (s : session)
    (planos : list (gmap string scalar)) (nome : list N)
    (preco : spec_float) (duracao : Z) :
  holds_plans s planos ->
  Forall complete_plan planos ->
  complete_plan (built_plan nome preco duracao) /\
  exists lines,
    returns (bot_handler.configurar_planos update) s tt
      (sending s [answer;
                  edit_message_text (plans_screen_text lines)
                    bot_handler.planos_keyboard]) /\
    lines_of_plans 1 planos lines.
Proof.
  intros Hplanos Hcomplete. split.
  { unfold complete_plan, built_plan. repeat split.
    - now exists (SStr nome).
    - now exists preco.
    - now exists (SInt duracao). }
  unfold holds_plans in Hplanos.
  unfold bot_handler.configurar_planos, user_data_get, sending.
  destruct (user_data s !! "planos") as [v|] eqn:Hstored.
  - subst v. destruct planos as [|p planos].
    + exists []. split.
      * eapply returns_bind; [reflexivity|].
        eapply returns_bind.
        { eapply returns_bind; [reflexivity|]. cbn beta. cbn [user_data].
          rewrite Hstored. apply returns_ret. }
        cbn beta iota. cbn [truthy negb].
        rewrite bool_decide_eq_true_2 by reflexivity. cbn [negb].
        eapply returns_bind; [apply returns_ret|].
        unfold returns, emit, modify. cbn [user_data bot_data sent].
        now rewrite <- app_assoc.
      * split; [reflexivity|]. intros j q Hq. discriminate Hq.
    + destruct (plan_lines_complete (p :: planos) Hcomplete 1
                  {| user_data := user_data s; bot_data := bot_data s;
                     sent := sent s ++ [answer] |})
        as (lines & Hlines & Hshape).
      exists lines. split; [|exact Hshape].
      assert (Hsome : exists l ls, lines = l :: ls).
      { destruct Hshape as [Hlen _]. destruct lines as [|l ls];
          [discriminate Hlen|now exists l, ls]. }
      destruct Hsome as (l & ls & ->).
      eapply returns_bind; [reflexivity|].
      eapply returns_bind.
      { eapply returns_bind; [reflexivity|]. cbn beta. cbn [user_data].
        rewrite Hstored. apply returns_ret. }
      cbn beta iota. cbn [truthy negb].
      rewrite bool_decide_eq_false_2 by discriminate. cbn [negb].
      eapply returns_bind.
      { eapply returns_bind; [exact Hlines|]. apply returns_ret. }
      unfold returns, emit, modify. cbn [user_data bot_data sent].
      now rewrite <- app_assoc.
  - subst planos. exists []. split.
    + eapply returns_bind; [reflexivity|].
      eapply returns_bind.
      { eapply returns_bind; [reflexivity|]. cbn beta. cbn [user_data].
        rewrite Hstored. apply returns_ret. }
      cbn beta iota.
      eapply returns_bind; [apply returns_ret|].
      unfold returns, emit, modify. cbn [user_data bot_data sent].
      now rewrite <- app_assoc.
    + split; [reflexivity|]. intros j q Hq. discriminate Hq.
Qed.

(** X21 (witness): one stored plan, ["Mensal"] at 50 for 30 days. *)
Lemma configurar_planos_lists_plans_witness :
  let plan := built_plan (lit "Mensal") (F64.of_Z 50) 30 in
  let s := {| user_data := {[ "planos" := VList [plan] ]};
              bot_data := ∅; sent := [] |} in
  complete_plan plan /\
  exists lines,
    returns (bot_handler.configurar_planos (callback_query 7 (lit "config_planos")))
      s tt
      (sending s [answer;
                  edit_message_text (plans_screen_text lines)
                    bot_handler.planos_keyboard]) /\
    lines_of_plans 1 [plan] lines.
Proof.
  cbv zeta.
  apply (configurar_planos_lists_plans (callback_query 7 (lit "config_planos"))
           {| user_data :=
                {[ "planos" := VList [built_plan (lit "Mensal") (F64.of_Z 50) 30] ]};
              bot_data := ∅; sent := [] |}
           [built_plan (lit "Mensal") (F64.of_Z 50) 30]
           (lit "Mensal") (F64.of_Z 50) 30).
  - reflexivity.
  - repeat constructor.
    + now exists (SStr (lit "Mensal")).
    + now exists (F64.of_Z 50).
    + now exists (SInt 30).
Defined.
